(** * A shallow embedding of the assistant backend

    The development follows the layout of the repository:

    - [PyStr]   : the string operations of the Python runtime the code uses
                  ([lower], [capitalize], [strip], [in], slicing);
    - [Re]      : a backtracking matcher for the regular expressions that
                  occur in the sources, with [search] and [findall];
    - [Py]      : JSON-shaped Python values, exceptions, and what the code
                  takes from the runtime and its libraries;
    - [Model]   : the records of the data model, the requests to the
                  operating environment, the state of a command and the
                  monad of effectful code;
    - [UserMemory]        : user_memory.py;
    - [ActionExecutor]    : action_executor.py and browser_automation.py;
    - [EnhancedAIHandler] : enhanced_ai_handler.py;
    - [AIHandler]         : ai_handler.py;
    - [Main]              : the endpoints for health and memory of main.py;
    - [Spec]     : the notions the statements are written with;
    - [Scenario] : a concrete runtime, environment and plans;
    - the modules named [...Facts] and [...More] hold the lemmas and
      theorems.

    Text is modelled as [string], the bytes of its UTF-8 encoding; slices
    and iteration count characters, and the character classes ([\w],
    whitespace, letter case) are those of Python on the ASCII range: a
    statement that depends on them outside that range says so.

    The environment (file system, processes, browser, model service,
    clock) is a function that answers each request, possibly with an
    exception, given the requests made before; the theorems hold for every
    such function unless they say otherwise.  Exceptions are those derived
    from [Exception]. *)

From Stdlib Require Import List String Ascii NArith ZArith Bool Lia Floats.
From Stdlib Require Import DecimalString.
Import ListNotations.
Local Open Scope string_scope.

(* ===================================================================== *)
(** * Strings of the Python runtime *)
(* ===================================================================== *)

Module PyStr.

Definition code (c : ascii) : N := N_of_ascii c.

Definition in_range (lo hi : N) (c : ascii) : bool :=
  (lo <=? code c)%N && (code c <=? hi)%N.

Definition is_upper (c : ascii) : bool := in_range 65 90 c.
Definition is_lower (c : ascii) : bool := in_range 97 122 c.
Definition is_digit (c : ascii) : bool := in_range 48 57 c.

(** [str.isspace] on the ASCII range: TAB, LF, VT, FF, CR, FS, GS, RS, US
    and the blank. *)
Definition is_space (c : ascii) : bool :=
  in_range 9 13 c || in_range 28 32 c.

(** The class [\w]. *)
Definition is_word (c : ascii) : bool :=
  is_upper c || is_lower c || is_digit c || (code c =? 95)%N.

Definition lower_char (c : ascii) : ascii :=
  if is_upper c then ascii_of_N (code c + 32) else c.

Definition upper_char (c : ascii) : ascii :=
  if is_lower c then ascii_of_N (code c - 32) else c.

(** [s.lower()] *)
Fixpoint lower (s : string) : string :=
  match s with
  | EmptyString => EmptyString
  | String c t => String (lower_char c) (lower t)
  end.

(** [s.capitalize()] *)
Definition capitalize (s : string) : string :=
  match s with
  | EmptyString => EmptyString
  | String c t => String (upper_char c) (lower t)
  end.

(** [s.lstrip()], [s.rstrip()], [s.strip()] *)
Fixpoint lstrip (s : string) : string :=
  match s with
  | EmptyString => EmptyString
  | String c t => if is_space c then lstrip t else s
  end.

Fixpoint rstrip (s : string) : string :=
  match s with
  | EmptyString => EmptyString
  | String c t =>
      match rstrip t with
      | EmptyString => if is_space c then EmptyString else String c EmptyString
      | t' => String c t'
      end
  end.

Definition strip (s : string) : string := rstrip (lstrip s).

(** [s.startswith(p)] *)
Fixpoint starts_with (p s : string) : bool :=
  match p with
  | EmptyString => true
  | String a p' =>
      match s with
      | String b s' => Ascii.eqb a b && starts_with p' s'
      | EmptyString => false
      end
  end.

(** [needle in hay] *)
Fixpoint contains (needle hay : string) : bool :=
  starts_with needle hay ||
  match hay with
  | EmptyString => false
  | String _ t => contains needle t
  end.

(** [any(p in hay for p in phrases)] *)
Definition any_in (phrases : list string) (hay : string) : bool :=
  existsb (fun p => contains p hay) phrases.

(** The first [n] bytes of [s]. *)
Definition take (n : nat) (s : string) : string := substring 0 n s.

(** A byte that continues a character in UTF-8. *)
Definition is_continuation (c : ascii) : bool := in_range 128 191 c.

(** [s[:n]]: the first [n] characters of [s], each with the bytes that
    continue it. *)
Fixpoint take_chars (n : nat) (s : string) : string :=
  match s with
  | EmptyString => EmptyString
  | String c t =>
      if is_continuation c then String c (take_chars n t)
      else match n with
           | O => EmptyString
           | S n' => String c (take_chars n' t)
           end
  end.

(** [s[n:]] for [0 <= n] *)
Fixpoint drop (n : nat) (s : string) : string :=
  match n, s with
  | O, _ => s
  | S n', String _ t => drop n' t
  | S _, EmptyString => EmptyString
  end.

(** The characters of a string, as Python iterates over it: a byte that
    starts a character, with the bytes that continue it. *)
Fixpoint chars (s : string) : list string :=
  match s with
  | EmptyString => []
  | String c t =>
      match chars t with
      | String c' x :: l =>
          if is_continuation c' then String c (String c' x) :: l
          else String c EmptyString :: String c' x :: l
      | l => String c EmptyString :: l
      end
  end.

(** The double quote, which a literal cannot hold. *)
Definition dq : string := String (ascii_of_N 34) EmptyString.

(** The line feed. *)
Definition nl : string := String (ascii_of_N 10) EmptyString.

End PyStr.

(* ===================================================================== *)
(** * Regular expressions *)
(* ===================================================================== *)

(** The patterns of the sources use literals, the classes [.] and [\w]
    under [*], [+], [*?] and [+?], optional and alternative groups,
    capturing groups and [$].  The matcher below is the usual backtracking
    one, written with a success continuation; it prefers, as Python's does,
    the first alternative, the longest run of a greedy repetition and the
    shortest run of a lazy one. *)

Module Re.
Import PyStr.

Inductive cls : Type :=
| CAny        (* [.] under re.DOTALL *)
| CDot        (* [.] : anything but a line feed *)
| CWord.      (* [\w] *)

Definition cls_match (c : cls) (a : ascii) : bool :=
  match c with
  | CAny => true
  | CDot => negb (code a =? 10)%N
  | CWord => is_word a
  end.

Inductive re : Type :=
| Lit (l : string)                         (* literal text *)
| Rep (c : cls) (plus greedy : bool)       (* c*  c+  c*?  c+? *)
| Opt (r : re)                             (* (?:r)?  *)
| Alt (r1 r2 : re)                         (* r1|r2 *)
| Seq (r1 r2 : re)                         (* r1r2 *)
| Grp (n : nat) (r : re)                   (* capturing group number n *)
| Eos.                                     (* $ *)

(** Captured groups: [None] is a group that did not take part. *)
Definition groups : Type := list (nat * string).

Fixpoint group (n : nat) (g : groups) : option string :=
  match g with
  | [] => None
  | (m, s) :: g' => if Nat.eqb n m then Some s else group n g'
  end.

(** [strip_prefix l s] is the rest of [s] after the literal [l]. *)
Fixpoint strip_prefix (l s : string) : option string :=
  match l with
  | EmptyString => Some s
  | String a l' =>
      match s with
      | String b s' => if Ascii.eqb a b then strip_prefix l' s' else None
      | EmptyString => None
      end
  end.

(** The text consumed between a position [s] and a later position [s']. *)
Definition consumed (s s' : string) : string :=
  take (String.length s - String.length s') s.

Section Matcher.
Context {R : Type}.

(** Greedy run of class [c]: the longest run first. *)
Fixpoint rep_greedy (c : cls) (s : string) (k : string -> option R)
  : option R :=
  match s with
  | String a t =>
      if cls_match c a then
        match rep_greedy c t k with
        | Some x => Some x
        | None => k s
        end
      else k s
  | EmptyString => k s
  end.

(** Lazy run of class [c]: the shortest run first. *)
Fixpoint rep_lazy (c : cls) (s : string) (k : string -> option R)
  : option R :=
  match k s with
  | Some x => Some x
  | None =>
      match s with
      | String a t => if cls_match c a then rep_lazy c t k else None
      | EmptyString => None
      end
  end.

Definition rep (c : cls) (plus greedy : bool) (s : string)
           (k : string -> option R) : option R :=
  let run := if greedy then rep_greedy c else rep_lazy c in
  if plus then
    match s with
    | String a t => if cls_match c a then run t k else None
    | EmptyString => None
    end
  else run s k.

(** [$] holds at the end of the text and before a final line feed. *)
Definition at_end (s : string) : bool :=
  match s with
  | EmptyString => true
  | String a EmptyString => (code a =? 10)%N
  | _ => false
  end.

Fixpoint exec (r : re) (s : string) (g : groups)
         (k : string -> groups -> option R) {struct r} : option R :=
  match r with
  | Lit l =>
      match strip_prefix l s with
      | Some s' => k s' g
      | None => None
      end
  | Rep c plus greedy => rep c plus greedy s (fun s' => k s' g)
  | Opt r1 =>
      match exec r1 s g k with
      | Some x => Some x
      | None => k s g
      end
  | Alt r1 r2 =>
      match exec r1 s g k with
      | Some x => Some x
      | None => exec r2 s g k
      end
  | Seq r1 r2 => exec r1 s g (fun s' g' => exec r2 s' g' k)
  | Grp n r1 => exec r1 s g (fun s' g' => k s' ((n, consumed s s') :: g'))
  | Eos => if at_end s then k s g else None
  end.
End Matcher.

(** A match object: the text before the match, the matched text, the text
    after it, and the groups. *)
Record rmatch : Type := mk_match {
  m_before : string;
  m_text : string;
  m_after : string;
  m_groups : groups
}.

(** [re.match] at the head of [s]. *)
Definition match_here (r : re) (s : string) : option (string * groups) :=
  exec r s [] (fun s' g => Some (s', g)).

(** [re.search(r, s)]: the leftmost position at which [r] matches.
    [before] accumulates, reversed, the characters already skipped. *)
Fixpoint search_from (r : re) (before : string) (s : string)
  : option rmatch :=
  match match_here r s with
  | Some (s', g) => Some (mk_match before (consumed s s') s' g)
  | None =>
      match s with
      | String a t => search_from r (before ++ String a EmptyString) t
      | EmptyString => None
      end
  end.

Definition search (r : re) (s : string) : option rmatch :=
  search_from r EmptyString s.

(** [m.group(n)] for a group that took part, [None] otherwise. *)
Definition m_group (n : nat) (m : rmatch) : option string :=
  group n (m_groups m).

(** [re.findall(r, s)]: the successive matches, none overlapping, scanning
    from left to right.  After an empty match the scan moves on by one
    character. *)
Fixpoint findall_fuel (fuel : nat) (r : re) (s : string) : list rmatch :=
  match fuel with
  | O => []
  | S fuel' =>
      match search r s with
      | None => []
      | Some m =>
          m :: match m_text m, m_after m with
               | EmptyString, EmptyString => []
               | EmptyString, String _ t => findall_fuel fuel' r t
               | _, rest => findall_fuel fuel' r rest
               end
      end
  end.

Definition findall (r : re) (s : string) : list rmatch :=
  findall_fuel (S (String.length s)) r s.

End Re.


(* ===================================================================== *)
(** * Python values, exceptions and effects *)
(* ===================================================================== *)

Module Py.
Import PyStr.

#[local] Set Warnings "-register-all".

(** The values [json.loads] produces.  A dict is the list of its items; a
    key is looked up at its first occurrence. *)
Inductive pyval : Type :=
| PNone
| PBool (b : bool)
| PInt (z : Z)
| PFloat (f : PrimFloat.float)
| PStr (s : string)
| PList (l : list pyval)
| PDict (d : list (string * pyval)).

Definition pydict : Type := list (string * pyval).

(** [bool(v)] *)
Definition truthy (v : pyval) : bool :=
  match v with
  | PNone => false
  | PBool b => b
  | PInt z => negb (z =? 0)%Z
  | PFloat f => negb (PrimFloat.eqb f PrimFloat.zero)
  | PStr s => negb (s =? "")
  | PList l => match l with [] => false | _ => true end
  | PDict d => match d with [] => false | _ => true end
  end.

(** [type(v).__name__] *)
Definition type_name (v : pyval) : string :=
  match v with
  | PNone => "NoneType"
  | PBool _ => "bool"
  | PInt _ => "int"
  | PFloat _ => "float"
  | PStr _ => "str"
  | PList _ => "list"
  | PDict _ => "dict"
  end.

Fixpoint dict_get (k : string) (d : pydict) : option pyval :=
  match d with
  | [] => None
  | (k', v) :: d' => if k =? k' then Some v else dict_get k d'
  end.

(** [d[k] = v] *)
Fixpoint dict_set (k : string) (v : pyval) (d : pydict) : pydict :=
  match d with
  | [] => [(k, v)]
  | (k', v') :: d' =>
      if k =? k' then (k, v) :: d' else (k', v') :: dict_set k v d'
  end.

(** [v == "s"] for a string literal [s] *)
Definition eq_str (v : pyval) (s : string) : bool :=
  match v with
  | PStr t => t =? s
  | _ => false
  end.

(** The classes of exception the code tells apart, and the rest.  All are
    subclasses of [Exception]. *)
Inductive exn_kind : Type :=
| TimeoutExpired
| ImportError
| KeyError
| TypeError
| AttributeError
| OtherException.

(** An exception with the text [str(e)] gives for it. *)
Record exn : Type := mk_exn { exn_class : exn_kind; exn_str : string }.

Definition is_timeout (e : exn) : bool :=
  match exn_class e with TimeoutExpired => true | _ => false end.

Definition is_import_error (e : exn) : bool :=
  match exn_class e with ImportError => true | _ => false end.

(** The result of running a piece of code: a value, or an exception on its
    way up. *)
Inductive outcome (A : Type) : Type :=
| Ok (a : A)
| Raise (e : exn).
Arguments Ok {A} a.
Arguments Raise {A} e.

(** [v.get(k, default)] *)
Definition py_get (v : pyval) (k : string) (default : pyval)
  : outcome pyval :=
  match v with
  | PDict d =>
      Ok (match dict_get k d with Some x => x | None => default end)
  | _ => Raise (mk_exn AttributeError
                  ("'" ++ type_name v ++ "' object has no attribute 'get'"))
  end.

(** [v[k]] for a string key *)
Definition py_getitem (v : pyval) (k : string) : outcome pyval :=
  match v with
  | PDict d =>
      match dict_get k d with
      | Some x => Ok x
      | None => Raise (mk_exn KeyError ("'" ++ k ++ "'"))
      end
  | PStr _ =>
      Raise (mk_exn TypeError "string indices must be integers, not 'str'")
  | PList _ =>
      Raise (mk_exn TypeError
               "list indices must be integers or slices, not str")
  | _ => Raise (mk_exn TypeError
                  ("'" ++ type_name v ++ "' object is not subscriptable"))
  end.

(** [v[k] = x] for a string key *)
Definition py_setitem (v : pyval) (k : string) (x : pyval)
  : outcome pyval :=
  match v with
  | PDict d => Ok (PDict (dict_set k x d))
  | PList _ =>
      Raise (mk_exn TypeError
               "list indices must be integers or slices, not str")
  | _ => Raise (mk_exn TypeError
                  ("'" ++ type_name v
                       ++ "' object does not support item assignment"))
  end.

(** [for x in v]: the items a loop over [v] visits. *)
Definition py_iter (v : pyval) : outcome (list pyval) :=
  match v with
  | PList l => Ok l
  | PStr s => Ok (map PStr (chars s))
  | PDict d => Ok (map (fun kv => PStr (fst kv)) d)
  | _ => Raise (mk_exn TypeError
                  ("'" ++ type_name v ++ "' object is not iterable"))
  end.

(** [v += s] for a string [s]: concatenation on a string, extension by the
    characters of [s] on a list. *)
Definition py_iadd_str (v : pyval) (s : string) : outcome pyval :=
  match v with
  | PStr t => Ok (PStr (t ++ s))
  | PList l => Ok (PList (l ++ map PStr (chars s)))
  | _ => Raise (mk_exn TypeError
                  ("unsupported operand type(s) for +=: '" ++ type_name v
                     ++ "' and 'str'"))
  end.

(** [v[:n]] *)
Definition py_take (n : nat) (v : pyval) : outcome pyval :=
  match v with
  | PStr t => Ok (PStr (take_chars n t))
  | PList l => Ok (PList (firstn n l))
  | PDict _ => Raise (mk_exn TypeError "unhashable type: 'slice'")
  | _ => Raise (mk_exn TypeError
                  ("'" ++ type_name v ++ "' object is not subscriptable"))
  end.

(** What the code takes from the Python runtime and its libraries without
    defining it. *)
Record Runtime : Type := {
  home : string;                           (* os.path.expanduser("~") *)
  path_join : string -> string -> string;  (* os.path.join on two strings *)
  path_dirname : string -> string;         (* os.path.dirname *)
  url_quote : string -> string;            (* urllib.parse.quote on a str *)
  sys_executable : string;                 (* sys.executable *)
  os_name_nt : bool;                       (* os.name == 'nt' *)
  py_repr : pyval -> string;               (* format() of a non-string *)
  json_loads : string -> outcome pyval     (* json.loads *)
}.

(** [f"{v}"] *)
Definition py_format (rt : Runtime) (v : pyval) : string :=
  match v with
  | PStr s => s
  | _ => py_repr rt v
  end.

(** [os.path.join(base, v)] for a string [base]: a component that is no
    path is refused with the text of [genericpath._check_arg_types]. *)
Definition os_path_join (rt : Runtime) (base : string) (v : pyval)
  : outcome string :=
  match v with
  | PStr s => Ok (path_join rt base s)
  | _ => Raise (mk_exn TypeError
                  ("join() argument must be str, bytes, or os.PathLike object, not '"
                     ++ type_name v ++ "'"))
  end.

(** [str(z)] for an integer *)
Definition py_int_str (z : Z) : string :=
  NilZero.string_of_int (Z.to_int z).

(** [subprocess.TimeoutExpired(cmd, timeout)], which [subprocess.run]
    raises when the process is not done after [timeout] seconds; its text
    is ["Command '%s' timed out after %s seconds" % (cmd, timeout)]. *)
Definition timeout_expired (rt : Runtime) (cmd : pyval) (timeout : Z) : exn :=
  mk_exn TimeoutExpired
    ("Command '" ++ py_format rt cmd ++ "' timed out after "
       ++ py_int_str timeout ++ " seconds").

(** [urllib.parse.quote(v)] *)
Definition urllib_quote (rt : Runtime) (v : pyval) : outcome string :=
  match v with
  | PStr s => Ok (url_quote rt s)
  | _ => Raise (mk_exn TypeError "quote_from_bytes() expected bytes")
  end.

End Py.

(* ===================================================================== *)
(** * Data model, program state and the monad of effectful code *)
(* ===================================================================== *)

Module Model.
Import PyStr Py.

(** ** user_memory.py: the stored profile *)

Record Fact : Type := mk_fact {
  f_content : string;
  f_timestamp : string;
  f_context : pyval
}.

Record Profile : Type := mk_profile {
  p_name : option string;
  p_occupation : option string;
  p_interests : list string;
  p_skills : list pyval;
  p_preferences : pydict;
  p_location : option string
}.

Record Memory : Type := mk_memory {
  m_profile : Profile;
  m_facts : list Fact;
  m_preferences : pydict;
  m_history_summary : list pyval;
  m_last_updated : option string
}.

(** What the memory file holds: the JSON text of a memory, as
    [_save_memory] has written it, or something [json.load] fails on (an
    empty or truncated file among them).  The file is followed through
    the requests of [UserMemory] only.  JSON of another shape, which
    [json.load] would hand to the store as it is, is outside this type,
    and so is a store without the keys of the default memory: with
    [Memory] a record, the code that reads the store finds its keys. *)
Inductive file_content : Type :=
| FileJson (m : Memory)
| FileUnreadable.

(** ** action_executor.py: results and operations *)

(** The dict an operation returns: the two keys every result has, and the
    others it may carry (filepath, output, exit_code, files, ...). *)
Record ActionResult : Type := mk_result {
  success : bool;
  message : string;
  extras : pydict
}.

(** [result.get(k)] for a key other than the two above *)
Definition result_get (k : string) (r : ActionResult) : pyval :=
  match dict_get k (extras r) with
  | Some v => v
  | None => PNone
  end.

(** An operation of the registry with its arguments. *)
Inductive call : Type :=
| CreateFile (filename content : pyval)
| OpenIdle (filename : pyval)
| OpenNotepad (filename : pyval)
| OpenVscode (filename : pyval)
| RunPythonCode (code : pyval)
| ExecuteCommand (command : pyval)
| ListFiles
| ReadFile (filename : pyval)
| OpenBrowser (url : pyval)
| OpenYoutube (search_query : pyval)
| GoogleSearch (query : pyval)
| OpenApplication (app_name : pyval)
| DeleteFile (filename : pyval).

(** [subprocess.CompletedProcess], with captured text *)
Record CompletedProcess : Type := mk_completed {
  stdout : string;
  stderr : string;
  returncode : Z
}.

(** ** Requests to the operating environment *)

Inductive request : Type :=
| Makedirs (path : string)          (* os.makedirs(path, exist_ok=True) *)
| OpenWrite (path : string)         (* open(path, 'w'): create or truncate *)
| WriteText (path data : string)    (* f.write(data), then close *)
| JsonDump (path : string) (m : Memory)   (* json.dump(m, f), then close *)
| JsonLoad (path : string)          (* open(path, 'r'), json.load(f) *)
| PathExists (path : string)        (* os.path.exists(path) *)
| Popen (args : pyval) (shell new_console : bool)   (* subprocess.Popen *)
| SubprocessRun (args : pyval) (shell : bool) (timeout : Z)
| Listdir (path : string)           (* os.listdir(path) *)
| ReadText (path : string)          (* open(path, 'r'), f.read() *)
| Remove (path : string)            (* os.remove(path) *)
| WebbrowserOpen (url : pyval)      (* webbrowser.open(url) *)
| ImportModule (name : string)      (* import of a module *)
| ChromeStart                       (* imports, options, driver install,
                                       webdriver.Chrome(...) *)
| DriverGet (url : string)          (* driver.get(url) *)
| WaitClickable (selector : string) (* WebDriverWait(driver, 10).until *)
| GetAttribute (attr : string)      (* element.get_attribute(attr) *)
| Click                             (* element.click() *)
| GenerateContent (model : option string) (contents : string)
                                    (* client.models.generate_content(...)
                                       and the [text] of the response *)
| Now                               (* datetime.now().isoformat() *)
| PrintOut (s : string).            (* print(s) *)

(** The type of the answer to a request. *)
Definition resp (r : request) : Type :=
  match r with
  | PathExists _ => bool
  | SubprocessRun _ _ _ => CompletedProcess
  | Listdir _ => list string
  | ReadText _ => string
  | GetAttribute _ => pyval
  | GenerateContent _ _ => option string
  | Now => string
  | _ => unit
  end.

(** The environment: its answer to a request, which may be an exception,
    given the requests made before. *)
Definition Env : Type := forall r : request, list request -> outcome (resp r).

(** [BrowserAutomation]: whether [self.driver] is set. *)
Record BrowserAutomation : Type := mk_browser { driver : bool }.

(** The mutable state a command runs in. *)
Record State : Type := mk_state {
  trace : list request;              (* requests made, the oldest first *)
  calls : list call;                 (* registry operations entered, the
                                        oldest first *)
  disk : option file_content;        (* the memory file, when it exists *)
  browser_automation : option BrowserAutomation;
                                     (* ActionExecutor.browser_automation *)
  memory : Memory                    (* UserMemory.memory *)
}.

Definition set_trace (t : list request) (s : State) : State :=
  mk_state t (calls s) (disk s) (browser_automation s) (memory s).
Definition set_calls (c : list call) (s : State) : State :=
  mk_state (trace s) c (disk s) (browser_automation s) (memory s).
Definition set_disk (d : option file_content) (s : State) : State :=
  mk_state (trace s) (calls s) d (browser_automation s) (memory s).
Definition set_browser (b : option BrowserAutomation) (s : State) : State :=
  mk_state (trace s) (calls s) (disk s) b (memory s).
Definition set_memory (m : Memory) (s : State) : State :=
  mk_state (trace s) (calls s) (disk s) (browser_automation s) m.

(** ** The monad *)

(** A computation reads the environment, changes the state and ends with a
    value or an exception; the state changes made before an exception
    stay. *)
Definition M (A : Type) : Type := Env -> State -> outcome A * State.

Definition ret {A} (a : A) : M A := fun _ s => (Ok a, s).

Definition bind {A B} (m : M A) (f : A -> M B) : M B :=
  fun env s =>
    match m env s with
    | (Ok a, s') => f a env s'
    | (Raise e, s') => (Raise e, s')
    end.

Definition raise {A} (e : exn) : M A := fun _ s => (Raise e, s).

(** [try: m  except Exception as e: h e] *)
Definition try_except {A} (m : M A) (h : exn -> M A) : M A :=
  fun env s =>
    match m env s with
    | (Ok a, s') => (Ok a, s')
    | (Raise e, s') => h e env s'
    end.

(** A pure step that may raise. *)
Definition lift {A} (o : outcome A) : M A := fun _ s => (o, s).

(** A request to the environment. *)
Definition perform (r : request) : M (resp r) :=
  fun env s => (env r (trace s), set_trace (trace s ++ [r]) s).

Definition get_state : M State := fun _ s => (Ok s, s).
Definition modify (f : State -> State) : M unit := fun _ s => (Ok tt, f s).

(** Entry into an operation of the registry. *)
Definition enter (c : call) : M unit :=
  modify (fun s => set_calls (calls s ++ [c]) s).

Declare Scope py_scope.
Delimit Scope py_scope with py.
Notation "x <- c1 ;; c2" := (bind c1 (fun x => c2))
  (at level 61, c1 at next level, right associativity) : py_scope.
Notation "c1 ;; c2" := (bind c1 (fun _ => c2))
  (at level 61, right associativity) : py_scope.

End Model.

(* ===================================================================== *)
(** * user_memory.py *)
(* ===================================================================== *)

Module UserMemory.
Import PyStr Re Py Model.
Local Open Scope py_scope.

(** The text of group 1, which takes part in every match of the patterns
    of this module. *)
Definition group1 (m : rmatch) : string :=
  match m_group 1 m with
  | Some t => t
  | None => EmptyString
  end.

(** [\w+] and [.+?] as groups number 1, and the tail [(?:\.|$)]. *)
Definition word1 : re := Grp 1 (Rep CWord true true).
Definition some1 : re := Grp 1 (Rep CDot true false).
Definition stop : re := Alt (Lit ".") Eos.

Definition name_patterns : list re :=
  [ Seq (Lit "my name is ") word1;
    Seq (Lit "i am ") word1;
    Seq (Lit "mera naam ") word1;
    Seq (Lit "main ") (Seq word1 (Lit " hoon"));
    Seq (Lit "call me ") word1 ].

(** [(?:a |an )?] *)
Definition article : re := Opt (Alt (Lit "a ") (Lit "an ")).

Definition occupation_patterns : list re :=
  [ Seq (Lit "i work as ") (Seq article (Seq some1 stop));
    Seq (Lit "i am ") (Seq article (Seq some1 stop));
    Seq (Lit "main ") (Seq some1 (Lit " hoon"));
    Seq (Lit "kaam karta hoon ") (Seq some1 stop);
    Seq (Lit "kaam karti hoon ") (Seq some1 stop) ].

Definition interest_patterns : list re :=
  [ Seq (Lit "i like ") (Seq some1 stop);
    Seq (Lit "i love ") (Seq some1 stop);
    Seq (Lit "mujhe ") (Seq some1 (Lit " pasand"));
    Seq (Lit "interested in ") (Seq some1 stop) ].

(** The loop of [_extract_name] over its patterns. *)
Fixpoint extract_name_loop (patterns : list re) (text : string)
  : option string :=
  match patterns with
  | [] => None
  | p :: rest =>
      match search p (lower text) with
      | Some m => Some (capitalize (group1 m))
      | None => extract_name_loop rest text
      end
  end.

Definition _extract_name (text : string) : option string :=
  extract_name_loop name_patterns text.

(** [occupation not in ['student', 'working']] *)
Definition common_word (s : string) : bool :=
  (s =? "student") || (s =? "working").

(** The loop of [_extract_occupation]: a match that the filter rejects
    does not end it. *)
Fixpoint extract_occupation_loop (patterns : list re) (text : string)
  : option string :=
  match patterns with
  | [] => None
  | p :: rest =>
      match search p (lower text) with
      | Some m =>
          let occupation := strip (group1 m) in
          if (2 <? String.length occupation)%nat && negb (common_word occupation)
          then Some occupation
          else extract_occupation_loop rest text
      | None => extract_occupation_loop rest text
      end
  end.

Definition _extract_occupation (text : string) : option string :=
  extract_occupation_loop occupation_patterns text.

Fixpoint extract_interests_loop (patterns : list re) (text : string)
  : list string :=
  match patterns with
  | [] => []
  | p :: rest =>
      match search p (lower text) with
      | Some m => strip (group1 m) :: extract_interests_loop rest text
      | None => extract_interests_loop rest text
      end
  end.

Definition _extract_interests (text : string) : list string :=
  extract_interests_loop interest_patterns text.

Definition personal_keywords : list string :=
  [ "my name"; "i am"; "i work"; "i like"; "i love";
    "mera naam"; "main hoon"; "mujhe pasand"; "kaam karta"; "kaam karti" ].

Definition _is_personal_info (text : string) : bool :=
  any_in personal_keywords (lower text).

Definition _create_default_memory : Memory :=
  {| m_profile := {| p_name := None;
                     p_occupation := None;
                     p_interests := [];
                     p_skills := [];
                     p_preferences := [];
                     p_location := None |};
     m_facts := [];
     m_preferences := [];
     m_history_summary := [];
     m_last_updated := None |}.

(** Truth of an optional string: [None] and the empty string are false. *)
Definition set_str (o : option string) : bool :=
  match o with
  | Some s => negb (s =? "")
  | None => false
  end.

Definition text_of (o : option string) : string :=
  match o with
  | Some s => s
  | None => "None"
  end.

(** [facts[-5:]] *)
Definition last5 {A} (l : list A) : list A := skipn (List.length l - 5) l.

Definition fact_line (f : Fact) : string := "- " ++ f_content f ++ nl.

Definition get_context_for_ai (mem : Memory) : string :=
  let p := m_profile mem in
  if negb (set_str (p_name p)) && match m_facts mem with [] => true | _ => false end
  then ""
  else
    "**User Information (Remember this):**" ++ nl
    ++ (if set_str (p_name p)
        then "- Name: " ++ text_of (p_name p) ++ nl else "")
    ++ (if set_str (p_occupation p)
        then "- Occupation: " ++ text_of (p_occupation p) ++ nl else "")
    ++ (match p_interests p with
        | [] => ""
        | l => "- Interests: " ++ String.concat ", " l ++ nl
        end)
    ++ (match m_facts mem with
        | [] => ""
        | l => nl ++ "**Previous conversations:**" ++ nl
                  ++ String.concat "" (map fact_line (last5 l))
        end).

(** [str(n)] for a count *)
Definition count_text (n : nat) : string :=
  NilZero.string_of_uint (Nat.to_uint n).

Definition get_memory_summary (mem : Memory) : string :=
  let profile := m_profile mem in
  let facts_count := List.length (m_facts mem) in
  "**Your AI knows about you:**" ++ nl ++ nl
  ++ (if set_str (p_name profile)
      then "✅ Name: " ++ text_of (p_name profile) ++ nl
      else "❌ Name: Not set" ++ nl)
  ++ (if set_str (p_occupation profile)
      then "✅ Occupation: " ++ text_of (p_occupation profile) ++ nl
      else "❌ Occupation: Not set" ++ nl)
  ++ (match p_interests profile with
      | [] => "❌ Interests: Not set" ++ nl
      | l => "✅ Interests: " ++ String.concat ", " l ++ nl
      end)
  ++ nl ++ "📝 Total facts stored: " ++ count_text facts_count ++ nl
  ++ (if set_str (m_last_updated mem)
      then "🕐 Last updated: " ++ text_of (m_last_updated mem) ++ nl
      else "").

(** Updates of [self.memory] in place. *)
Definition with_name (n : string) (mem : Memory) : Memory :=
  let p := m_profile mem in
  mk_memory (mk_profile (Some n) (p_occupation p) (p_interests p)
               (p_skills p) (p_preferences p) (p_location p))
    (m_facts mem) (m_preferences mem) (m_history_summary mem)
    (m_last_updated mem).

Definition with_occupation (o : string) (mem : Memory) : Memory :=
  let p := m_profile mem in
  mk_memory (mk_profile (p_name p) (Some o) (p_interests p)
               (p_skills p) (p_preferences p) (p_location p))
    (m_facts mem) (m_preferences mem) (m_history_summary mem)
    (m_last_updated mem).

Definition mem_str (s : string) (l : list string) : bool :=
  existsb (String.eqb s) l.

(** [if interest not in interests: interests.append(interest)] *)
Definition add_interest (mem : Memory) (i : string) : Memory :=
  let p := m_profile mem in
  if mem_str i (p_interests p) then mem
  else
    mk_memory (mk_profile (p_name p) (p_occupation p) (p_interests p ++ [i])
                 (p_skills p) (p_preferences p) (p_location p))
      (m_facts mem) (m_preferences mem) (m_history_summary mem)
      (m_last_updated mem).

Definition add_fact (f : Fact) (mem : Memory) : Memory :=
  mk_memory (m_profile mem) (m_facts mem ++ [f]) (m_preferences mem)
    (m_history_summary mem) (m_last_updated mem).

Definition with_last_updated (t : string) (mem : Memory) : Memory :=
  mk_memory (m_profile mem) (m_facts mem) (m_preferences mem)
    (m_history_summary mem) (Some t).

Definition update_memory (f : Memory -> Memory) : M unit :=
  modify (fun s => set_memory (f (memory s)) s).

Section WithRuntime.
Context (rt : Runtime).

Definition memory_file : string :=
  path_join rt (path_join rt (home rt) "AI_Workspace") "user_memory.json".

(** What [json.load] makes of the file, when it makes anything, is taken
    to have the shape of [Memory]: see [file_content]. *)
Definition _load_memory : M Memory :=
  s <- get_state ;;
  match disk s with
  | Some c =>
      try_except
        (perform (JsonLoad memory_file) ;;
         match c with
         | FileJson m => ret m
         | FileUnreadable =>
             raise (mk_exn OtherException
                      "Expecting value: line 1 column 1 (char 0)")
         end)
        (fun _ => ret _create_default_memory)
  | None => ret _create_default_memory
  end.

(** [UserMemory.__init__] *)
Definition init : M unit :=
  m <- _load_memory ;;
  modify (set_memory m).

(** Opening the file for writing truncates it; it holds the memory again
    once the dump is through. *)
Definition _save_memory : M unit :=
  try_except
    (perform (Makedirs (path_dirname rt memory_file)) ;;
     perform (OpenWrite memory_file) ;;
     modify (set_disk (Some FileUnreadable)) ;;
     s <- get_state ;;
     perform (JsonDump memory_file (memory s)) ;;
     modify (set_disk (Some (FileJson (memory s)))))
    (fun e => perform (PrintOut ("Error saving memory: " ++ exn_str e))).

Definition when (b : bool) (m : M unit) : M unit :=
  if b then m else ret tt.

(** [ai_response[:100] if ai_response else ""] *)
Definition fact_context (ai_response : pyval) : outcome pyval :=
  if truthy ai_response then py_take 100 ai_response
  else Ok (PStr "").

Definition extract_and_store_info (user_message : string)
           (ai_response : pyval) : M unit :=
  let message_lower := lower user_message in
  when (any_in ["my name is"; "mera naam"; "i am"; "main hoon"] message_lower)
    (match _extract_name user_message with
     | Some name =>
         when (negb (name =? ""))
           (update_memory (with_name name) ;; _save_memory)
     | None => ret tt
     end) ;;
  when (any_in ["i work as"; "i am a"; "main"; "kaam karta"; "kaam karti"]
          message_lower)
    (match _extract_occupation user_message with
     | Some occupation =>
         when (negb (occupation =? ""))
           (update_memory (with_occupation occupation) ;; _save_memory)
     | None => ret tt
     end) ;;
  when (any_in ["i like"; "i love"; "mujhe pasand"; "interested in"]
          message_lower)
    (match _extract_interests user_message with
     | [] => ret tt
     | interests =>
         update_memory (fun mem => fold_left add_interest interests mem) ;;
         _save_memory
     end) ;;
  when (_is_personal_info user_message)
    (timestamp <- perform Now ;;
     context <- lift (fact_context ai_response) ;;
     update_memory (add_fact (mk_fact user_message timestamp context)) ;;
     updated <- perform Now ;;
     update_memory (with_last_updated updated) ;;
     _save_memory).

Definition get_profile : M Profile :=
  s <- get_state ;; ret (m_profile (memory s)).

Definition clear_memory : M unit :=
  modify (set_memory _create_default_memory) ;;
  _save_memory.

End WithRuntime.
End UserMemory.

(* ===================================================================== *)
(** * browser_automation.py and action_executor.py *)
(* ===================================================================== *)

Module ActionExecutor.
Import PyStr Py Model.
Local Open Scope py_scope.

Definition succeeded (msg : string) (more : pydict) : ActionResult :=
  mk_result true msg more.

Definition failed (msg : string) (more : pydict) : ActionResult :=
  mk_result false msg more.

(** [str(n)] for a length *)
Definition decimal (n : nat) : string :=
  NilZero.string_of_uint (Nat.to_uint n).

(** The argument of [f.write]: another value than a string is refused,
    and named by its type, [None] by its own name. *)
Definition as_text (v : pyval) : outcome string :=
  match v with
  | PStr s => Ok s
  | PNone => Raise (mk_exn TypeError "write() argument must be str, not None")
  | _ => Raise (mk_exn TypeError
                  ("write() argument must be str, not " ++ type_name v))
  end.

(** [with open(path, 'w', encoding='utf-8') as f: f.write(data)] *)
Definition write_file (path : string) (data : pyval) : M unit :=
  perform (OpenWrite path) ;;
  text <- lift (as_text data) ;;
  perform (WriteText path text).

(** [v.lower()] *)
Definition py_lower (v : pyval) : outcome string :=
  match v with
  | PStr s => Ok (lower s)
  | _ => Raise (mk_exn AttributeError
                  ("'" ++ type_name v ++ "' object has no attribute 'lower'"))
  end.

Definition app_commands : list (string * string) :=
  [ ("notepad", "notepad");
    ("calculator", "calc");
    ("paint", "mspaint");
    ("cmd", "cmd");
    ("powershell", "powershell");
    ("explorer", "explorer");
    ("chrome", "chrome");
    ("edge", "msedge");
    ("firefox", "firefox") ].

(** [app_commands.get(app_lower, app_name)] *)
Fixpoint app_command (table : list (string * string)) (app_lower : string)
         (app_name : pyval) : pyval :=
  match table with
  | [] => app_name
  | (k, c) :: rest =>
      if app_lower =? k then PStr c else app_command rest app_lower app_name
  end.

(** [result.stdout if result.stdout else result.stderr] *)
Definition captured (p : CompletedProcess) : string :=
  if stdout p =? "" then stderr p else stdout p.

Definition youtube_url (encoded_query : string) : string :=
  "https://www.youtube.com/results?search_query=" ++ encoded_query.

Section WithRuntime.
Context (rt : Runtime).

Definition workspace : string := path_join rt (home rt) "AI_Workspace".

(** [ActionExecutor.__init__] *)
Definition init : M unit :=
  perform (Makedirs workspace) ;;
  modify (set_browser None).

(** ** browser_automation.py *)

Definition driver_set (s : State) : bool :=
  match browser_automation s with
  | Some b => driver b
  | None => false
  end.

Definition _init_driver : M bool :=
  s <- get_state ;;
  if driver_set s then ret true
  else
    try_except
      (perform ChromeStart ;;
       modify (set_browser (Some (mk_browser true))) ;;
       ret true)
      (fun e =>
         perform (PrintOut ("Error initializing driver: " ++ exn_str e)) ;;
         ret false).

(** The two fallbacks of [play_youtube_video], which differ in the message
    and the note. *)
Definition open_search (search_query : pyval) (suffix note : string)
  : M ActionResult :=
  encoded_query <- lift (urllib_quote rt search_query) ;;
  perform (WebbrowserOpen (PStr (youtube_url encoded_query))) ;;
  ret (succeeded
         ("✅ YouTube opened with search: " ++ py_format rt search_query
            ++ suffix)
         [("note", PStr note)]).

Definition play_youtube_video (search_query : pyval) : M ActionResult :=
  try_except
    (ready <- _init_driver ;;
     if negb ready then
       open_search search_query " (Install Selenium for auto-play)"
         "Run: pip install -r browser_requirements.txt for auto-play feature"
     else
       perform (ImportModule "selenium") ;;
       encoded_query <- lift (urllib_quote rt search_query) ;;
       perform (DriverGet (youtube_url encoded_query)) ;;
       perform (WaitClickable "a#video-title") ;;
       video_title <- perform (GetAttribute "title") ;;
       perform Click ;;
       ret (succeeded ("✅ Playing video: " ++ py_format rt video_title)
              [("video_title", video_title)]))
    (fun e =>
       if is_import_error e then
         open_search search_query ""
           "⚠️ Install Selenium for auto-play: pip install -r browser_requirements.txt"
       else
         ret (failed ("❌ Error: " ++ exn_str e)
                [("note", PStr "Opened search results instead")])).

(** ** action_executor.py *)

(** Every operation is a [try] block around its whole body with one
    handler for [Exception]; below, the body and the handler of each come
    first and the operation puts them together. *)

Definition create_file_body (filename content : pyval) : M ActionResult :=
  filepath <- lift (os_path_join rt workspace filename) ;;
  write_file filepath content ;;
  ret (succeeded ("✅ File created: " ++ filepath)
         [("filepath", PStr filepath)]).

Definition create_file_failed (e : exn) : ActionResult :=
  failed ("❌ Error creating file: " ++ exn_str e) [].

Definition new_file_unless_exists (filepath : string) : M unit :=
  found <- perform (PathExists filepath) ;;
  if found then ret tt
  else
    perform (OpenWrite filepath) ;;
    perform (WriteText filepath ("# New Python File" ++ nl)).

Definition idle_args (more : list pyval) : pyval :=
  PList ([PStr (sys_executable rt); PStr "-m"; PStr "idlelib"] ++ more).

Definition open_idle_body (filename : pyval) : M ActionResult :=
  if truthy filename then
    filepath <- lift (os_path_join rt workspace filename) ;;
    new_file_unless_exists filepath ;;
    perform (Popen (idle_args [PStr filepath]) true (os_name_nt rt)) ;;
    ret (succeeded ("✅ IDLE opened with " ++ py_format rt filename)
           [("filepath", PStr filepath)])
  else
    perform (Popen (idle_args []) true (os_name_nt rt)) ;;
    ret (succeeded "✅ IDLE opened" []).

Definition open_idle_failed (e : exn) : ActionResult :=
  failed ("❌ Error opening IDLE: " ++ exn_str e
            ++ ". Try: VS Code or Notepad instead") [].

Definition open_notepad_body (filename : pyval) : M ActionResult :=
  if truthy filename then
    filepath <- lift (os_path_join rt workspace filename) ;;
    perform (Popen (PList [PStr "notepad"; PStr filepath]) false false) ;;
    ret (succeeded ("✅ Notepad opened with " ++ py_format rt filename) [])
  else
    perform (Popen (PList [PStr "notepad"]) false false) ;;
    ret (succeeded "✅ Notepad opened" []).

Definition open_notepad_failed (e : exn) : ActionResult :=
  failed ("❌ Error opening Notepad: " ++ exn_str e) [].

Definition open_vscode_body (filename : pyval) : M ActionResult :=
  if truthy filename then
    filepath <- lift (os_path_join rt workspace filename) ;;
    new_file_unless_exists filepath ;;
    perform (Popen (PList [PStr "code"; PStr filepath]) true false) ;;
    ret (succeeded ("✅ VS Code opened with " ++ py_format rt filename)
           [("filepath", PStr filepath)])
  else
    perform (Popen (PList [PStr "code"; PStr workspace]) true false) ;;
    ret (succeeded ("✅ VS Code opened workspace: " ++ workspace) []).

Definition open_vscode_failed (e : exn) : ActionResult :=
  failed ("❌ Error opening VS Code: " ++ exn_str e
            ++ ". Make sure VS Code is installed.") [].

Definition run_python_code_body (code : pyval) : M ActionResult :=
  let temp_file := path_join rt workspace "_temp_exec.py" in
  write_file temp_file code ;;
  result <- perform (SubprocessRun (PList [PStr "python"; PStr temp_file])
                       false 10) ;;
  ret (mk_result (returncode result =? 0)%Z
         (if (returncode result =? 0)%Z
          then "✅ Code executed successfully"
          else "⚠️ Code executed with errors")
         [("output", PStr (captured result));
          ("exit_code", PInt (returncode result))]).

(** The two handlers of [run_python_code]: [subprocess.TimeoutExpired]
    first, then [Exception]. *)
Definition run_python_code_failed (e : exn) : ActionResult :=
  if is_timeout e then failed "❌ Code execution timed out (10s limit)" []
  else failed ("❌ Error executing code: " ++ exn_str e) [].

Definition execute_command_body (command : pyval) : M ActionResult :=
  result <- perform (SubprocessRun command true 30) ;;
  ret (mk_result (returncode result =? 0)%Z
         "✅ Command executed"
         [("output", PStr (captured result));
          ("exit_code", PInt (returncode result))]).

Definition execute_command_failed (e : exn) : ActionResult :=
  failed ("❌ Error executing command: " ++ exn_str e) [].

Definition list_files_body : M ActionResult :=
  files <- perform (Listdir workspace) ;;
  ret (succeeded ("✅ Found " ++ decimal (List.length files) ++ " files")
         [("files", PList (map PStr files)); ("workspace", PStr workspace)]).

Definition list_files_failed (e : exn) : ActionResult :=
  failed ("❌ Error listing files: " ++ exn_str e) [].

Definition read_file_body (filename : pyval) : M ActionResult :=
  filepath <- lift (os_path_join rt workspace filename) ;;
  content <- perform (ReadText filepath) ;;
  ret (succeeded ("✅ File read: " ++ py_format rt filename)
         [("content", PStr content)]).

Definition read_file_failed (e : exn) : ActionResult :=
  failed ("❌ Error reading file: " ++ exn_str e) [].

Definition open_browser_body (url : pyval) : M ActionResult :=
  perform (WebbrowserOpen url) ;;
  ret (succeeded ("✅ Browser opened: " ++ py_format rt url) []).

Definition open_browser_failed (e : exn) : ActionResult :=
  failed ("❌ Error opening browser: " ++ exn_str e) [].

(** The inner [try] of [open_youtube]: only [ImportError] is passed over. *)
Definition load_browser_automation : M unit :=
  s <- get_state ;;
  match browser_automation s with
  | Some _ => ret tt
  | None =>
      try_except
        (perform (ImportModule "browser_automation") ;;
         modify (set_browser (Some (mk_browser false))))
        (fun e => if is_import_error e then ret tt else raise e)
  end.

Definition open_youtube_body (search_query : pyval) : M ActionResult :=
  load_browser_automation ;;
  s <- get_state ;;
  match browser_automation s with
  | Some _ => play_youtube_video search_query
  | None =>
      encoded_query <- lift (urllib_quote rt search_query) ;;
      perform (WebbrowserOpen (PStr (youtube_url encoded_query))) ;;
      ret (succeeded
             ("✅ YouTube opened with search: " ++ py_format rt search_query)
             [("url", PStr (youtube_url encoded_query));
              ("note", PStr "⚠️ For auto-play, install: pip install -r browser_requirements.txt")])
  end.

Definition open_youtube_failed (e : exn) : ActionResult :=
  failed ("❌ Error opening YouTube: " ++ exn_str e) [].

Definition google_search_body (query : pyval) : M ActionResult :=
  encoded_query <- lift (urllib_quote rt query) ;;
  let google_url := "https://www.google.com/search?q=" ++ encoded_query in
  perform (WebbrowserOpen (PStr google_url)) ;;
  ret (succeeded ("✅ Google search opened: " ++ py_format rt query)
         [("url", PStr google_url)]).

Definition google_search_failed (e : exn) : ActionResult :=
  failed ("❌ Error opening Google: " ++ exn_str e) [].

Definition open_application_body (app_name : pyval) : M ActionResult :=
  app_lower <- lift (py_lower app_name) ;;
  perform (Popen (app_command app_commands app_lower app_name) true false) ;;
  ret (succeeded ("✅ " ++ py_format rt app_name ++ " opened") []).

Definition open_application_failed (app_name : pyval) (e : exn)
  : ActionResult :=
  failed ("❌ Error opening " ++ py_format rt app_name ++ ": " ++ exn_str e)
    [].

Definition delete_file_body (filename : pyval) : M ActionResult :=
  filepath <- lift (os_path_join rt workspace filename) ;;
  perform (Remove filepath) ;;
  ret (succeeded ("✅ File deleted: " ++ py_format rt filename) []).

Definition delete_file_failed (e : exn) : ActionResult :=
  failed ("❌ Error deleting file: " ++ exn_str e) [].

(** The body of an operation and its handler. *)
Definition body (c : call) : M ActionResult :=
  match c with
  | CreateFile filename content => create_file_body filename content
  | OpenIdle filename => open_idle_body filename
  | OpenNotepad filename => open_notepad_body filename
  | OpenVscode filename => open_vscode_body filename
  | RunPythonCode code => run_python_code_body code
  | ExecuteCommand command => execute_command_body command
  | ListFiles => list_files_body
  | ReadFile filename => read_file_body filename
  | OpenBrowser url => open_browser_body url
  | OpenYoutube search_query => open_youtube_body search_query
  | GoogleSearch query => google_search_body query
  | OpenApplication app_name => open_application_body app_name
  | DeleteFile filename => delete_file_body filename
  end.

Definition handler (c : call) (e : exn) : ActionResult :=
  match c with
  | CreateFile _ _ => create_file_failed e
  | OpenIdle _ => open_idle_failed e
  | OpenNotepad _ => open_notepad_failed e
  | OpenVscode _ => open_vscode_failed e
  | RunPythonCode _ => run_python_code_failed e
  | ExecuteCommand _ => execute_command_failed e
  | ListFiles => list_files_failed e
  | ReadFile _ => read_file_failed e
  | OpenBrowser _ => open_browser_failed e
  | OpenYoutube _ => open_youtube_failed e
  | GoogleSearch _ => google_search_failed e
  | OpenApplication app_name => open_application_failed app_name e
  | DeleteFile _ => delete_file_failed e
  end.

(** An operation of the registry: its entry is recorded, then its body
    runs under its handler. *)
Definition invoke (c : call) : M ActionResult :=
  enter c ;;
  try_except (body c) (fun e => ret (handler c e)).

Definition create_file (filename content : pyval) : M ActionResult :=
  invoke (CreateFile filename content).
Definition open_idle (filename : pyval) : M ActionResult :=
  invoke (OpenIdle filename).
Definition open_notepad (filename : pyval) : M ActionResult :=
  invoke (OpenNotepad filename).
Definition open_vscode (filename : pyval) : M ActionResult :=
  invoke (OpenVscode filename).
Definition run_python_code (code : pyval) : M ActionResult :=
  invoke (RunPythonCode code).
Definition execute_command (command : pyval) : M ActionResult :=
  invoke (ExecuteCommand command).
Definition list_files : M ActionResult :=
  invoke ListFiles.
Definition read_file (filename : pyval) : M ActionResult :=
  invoke (ReadFile filename).
Definition open_browser (url : pyval) : M ActionResult :=
  invoke (OpenBrowser url).
Definition open_youtube (search_query : pyval) : M ActionResult :=
  invoke (OpenYoutube search_query).
Definition google_search (query : pyval) : M ActionResult :=
  invoke (GoogleSearch query).
Definition open_application (app_name : pyval) : M ActionResult :=
  invoke (OpenApplication app_name).
Definition delete_file (filename : pyval) : M ActionResult :=
  invoke (DeleteFile filename).

End WithRuntime.
End ActionExecutor.

(* ===================================================================== *)
(** * enhanced_ai_handler.py *)
(* ===================================================================== *)

Module EnhancedAIHandler.
Import PyStr Re Py Model.
Local Open Scope py_scope.

(** The handler object: [client] is the model client, present when the
    credential is; [model_name] goes with it. *)
Record Handler : Type := mk_handler {
  client : option string;
  model_name : option string
}.

(** The attributes [__init__] sets from [os.getenv("GEMINI_API_KEY")]. *)
Definition new_handler (api_key : option string) : Handler :=
  match api_key with
  | Some k =>
      if k =? "" then mk_handler None None
      else mk_handler (Some k) (Some "models/gemini-flash-latest")
  | None => mk_handler None None
  end.

Definition is_configured (h : Handler) : bool :=
  match client h with
  | Some _ => true
  | None => false
  end.

(** The dict [process_command] returns. *)
Record CommandResult : Type := mk_command_result {
  response : pyval;
  code : option string;
  language : option string;
  actions : list ActionResult
}.

Record CodeBlock : Type := mk_block {
  b_language : string;
  b_code : string
}.

Definition not_configured : CommandResult :=
  mk_command_result
    (PStr "⚠️ AI not configured. Please add your GEMINI_API_KEY to the .env file.")
    None None [].

Definition quota_reached : CommandResult :=
  mk_command_result
    (PStr ("⚠️ **API Quota Limit Reached!**" ++ nl ++ nl
           ++ "Please wait 30-60 minutes and try again." ++ nl
           ++ "Check usage: https://aistudio.google.com/apikey"))
    None None [].

(** The result of the handler of [process_command]. *)
Definition error_result (e : exn) : CommandResult :=
  let error_message := exn_str e in
  if contains "429" error_message
     || contains "quota" (lower error_message)
     || contains "RESOURCE_EXHAUSTED" error_message
  then quota_reached
  else mk_command_result (PStr ("❌ Error: " ++ error_message)) None None [].

(** A text between double quotes. *)
Definition q (s : string) : string := dq ++ s ++ dq.

Definition analysis_prompt (user_context command : string) : string :=
  String.concat nl
    [ "You are an AI assistant that can control a computer. Analyze this command and determine what actions to take:";
      "";
      user_context;
      "";
      "Command: " ++ q command;
      "";
      "Respond in JSON format with this structure:";
      "{";
      "    " ++ q "intent" ++ ": " ++ q "what the user wants to do" ++ ",";
      "    " ++ q "actions" ++ ": [";
      "        {";
      "            " ++ q "type" ++ ": " ++ q "create_file" ++ " | "
        ++ q "open_idle" ++ " | " ++ q "open_vscode" ++ " | " ++ q "run_code"
        ++ " | " ++ q "execute_command" ++ " | " ++ q "open_youtube" ++ " | "
        ++ q "open_browser" ++ " | " ++ q "google_search" ++ " | "
        ++ q "open_application" ++ " | " ++ q "just_respond" ++ ",";
      "            " ++ q "params" ++ ": {";
      "                " ++ q "filename" ++ ": " ++ q "optional filename"
        ++ ",";
      "                " ++ q "content" ++ ": " ++ q "optional content"
        ++ ",";
      "                " ++ q "code" ++ ": " ++ q "optional code to run"
        ++ ",";
      "                " ++ q "command" ++ ": "
        ++ q "optional system command" ++ ",";
      "                " ++ q "search_query" ++ ": "
        ++ q "for YouTube search" ++ ",";
      "                " ++ q "url" ++ ": " ++ q "for browser" ++ ",";
      "                " ++ q "query" ++ ": " ++ q "for Google search"
        ++ ",";
      "                " ++ q "app_name" ++ ": " ++ q "application name";
      "            }";
      "        }";
      "    ],";
      "    " ++ q "response" ++ ": "
        ++ q "friendly response to user explaining what you'll do";
      "}";
      "";
      "Examples:";
      "- " ++ q "open youtube and play saiyara song" ++ " → {" ++ q "type"
        ++ ": " ++ q "open_youtube" ++ ", " ++ q "params" ++ ": {"
        ++ q "search_query" ++ ": " ++ q "saiyara song" ++ "}}";
      "- " ++ q "open idle and create even odd code"
        ++ " → create file with even/odd code, then open in IDLE";
      "- " ++ q "google search for python tutorials" ++ " → {" ++ q "type"
        ++ ": " ++ q "google_search" ++ ", " ++ q "params" ++ ": {"
        ++ q "query" ++ ": " ++ q "python tutorials" ++ "}}";
      "- " ++ q "open calculator" ++ " → {" ++ q "type" ++ ": "
        ++ q "open_application" ++ ", " ++ q "params" ++ ": {" ++ q "app_name"
        ++ ": " ++ q "calculator" ++ "}}";
      "- " ++ q "create a python file to sort list"
        ++ " → create file with sorting code";
      "- " ++ q "run this code: print('hello')" ++ " → execute the code";
      "- " ++ q "explain recursion" ++ " → just respond with explanation";
      "";
      "Be smart and helpful! Understand YouTube, browser, Google, and application commands!";
      "Remember user information from the context above!" ].

Definition code_prompt (intent : string) : string :=
  "Write clean, well-commented Python code for: " ++ intent.

(** [r'\{.*\}'] under re.DOTALL *)
Definition json_re : re := Seq (Lit "{") (Seq (Rep CAny false true) (Lit "}")).

(** [r'```(\w+)?\n(.*?)```'] under re.DOTALL *)
Definition code_block_re : re :=
  Seq (Lit "```")
    (Seq (Opt (Grp 1 (Rep CWord true true)))
       (Seq (Lit nl)
          (Seq (Grp 2 (Rep CAny false false)) (Lit "```")))).

(** A function of [re] applied to the [text] of a response, which is
    [None] when the response has none. *)
Definition the_text (text : option string) : outcome string :=
  match text with
  | Some t => Ok t
  | None => Raise (mk_exn TypeError
                     "expected string or bytes-like object, got 'NoneType'")
  end.

(** What [findall] yields for a group: the empty string when the group
    did not take part. *)
Definition group_text (n : nat) (m : rmatch) : string :=
  match m_group n m with
  | Some t => t
  | None => EmptyString
  end.

Definition block_of (m : rmatch) : CodeBlock :=
  mk_block (if group_text 1 m =? "" then "text" else group_text 1 m)
           (strip (group_text 2 m)).

Definition code_blocks_of (text : string) : list CodeBlock :=
  map block_of (findall code_block_re text).

Definition _extract_code_blocks (text : option string)
  : outcome (list CodeBlock) :=
  match the_text text with
  | Ok t => Ok (code_blocks_of t)
  | Raise e => Raise e
  end.

(** The plan used when the reply holds no JSON object. *)
Definition fallback_plan (analysis_text : string) : pyval :=
  PDict [ ("intent", PStr "respond");
          ("actions", PList [PDict [("type", PStr "just_respond")]]);
          ("response", PStr analysis_text) ].

Section WithRuntime.
Context (rt : Runtime).

(** [EnhancedAIHandler.__init__] *)
Definition init (api_key : option string) : M Handler :=
  ActionExecutor.init rt ;;
  UserMemory.init rt ;;
  ret (new_handler api_key).

Section WithHandler.
Context (h : Handler).

(** The content of a file to create when the plan gives none: asked of
    the model, and taken from the first code block of the reply when
    there is one. *)
Definition generate_content_for (plan params : pyval) : M pyval :=
  intent <- lift (py_getitem plan "intent") ;;
  code_text <- perform (GenerateContent (model_name h)
                          (code_prompt (py_format rt intent))) ;;
  code_blocks <- lift (_extract_code_blocks code_text) ;;
  match code_blocks with
  | b :: _ => lift (py_setitem params "content" (PStr (b_code b)))
  | [] =>
      lift (py_setitem params "content"
              (match code_text with Some t => PStr t | None => PNone end))
  end.

(** The body of the loop over the actions of the plan. *)
Definition run_action (plan : pyval) (action_results : list ActionResult)
           (action : pyval) : M (list ActionResult) :=
  action_type <- lift (py_get action "type" PNone) ;;
  params <- lift (py_get action "params" (PDict [])) ;;
  if eq_str action_type "create_file" then
    content <- lift (py_get params "content" PNone) ;;
    params <- (if negb (truthy content)
               then generate_content_for plan params
               else ret params) ;;
    filename <- lift (py_get params "filename" (PStr "script.py")) ;;
    content <- lift (py_get params "content" (PStr "")) ;;
    result <- ActionExecutor.create_file rt filename content ;;
    ret (action_results ++ [result])%list
  else if eq_str action_type "open_idle" then
    filename <- lift (py_get params "filename" PNone) ;;
    result <- ActionExecutor.open_idle rt filename ;;
    ret (action_results ++ [result])%list
  else if eq_str action_type "open_vscode" then
    filename <- lift (py_get params "filename" PNone) ;;
    result <- ActionExecutor.open_vscode rt filename ;;
    ret (action_results ++ [result])%list
  else if eq_str action_type "run_code" then
    code <- lift (py_get params "code" (PStr "")) ;;
    result <- ActionExecutor.run_python_code rt code ;;
    ret (action_results ++ [result])%list
  else if eq_str action_type "execute_command" then
    command <- lift (py_get params "command" (PStr "")) ;;
    result <- ActionExecutor.execute_command rt command ;;
    ret (action_results ++ [result])%list
  else if eq_str action_type "open_youtube" then
    search_query <- lift (py_get params "search_query" (PStr "")) ;;
    result <- ActionExecutor.open_youtube rt search_query ;;
    ret (action_results ++ [result])%list
  else if eq_str action_type "open_browser" then
    url <- lift (py_get params "url" (PStr "")) ;;
    result <- ActionExecutor.open_browser rt url ;;
    ret (action_results ++ [result])%list
  else if eq_str action_type "google_search" then
    query <- lift (py_get params "query" (PStr "")) ;;
    result <- ActionExecutor.google_search rt query ;;
    ret (action_results ++ [result])%list
  else if eq_str action_type "open_application" then
    app_name <- lift (py_get params "app_name" (PStr "")) ;;
    result <- ActionExecutor.open_application rt app_name ;;
    ret (action_results ++ [result])%list
  else ret action_results.

(** [for action in ...: ...] *)
Fixpoint run_actions (plan : pyval) (todo : list pyval)
         (action_results : list ActionResult) : M (list ActionResult) :=
  match todo with
  | [] => ret action_results
  | action :: rest =>
      action_results <- run_action plan action_results action ;;
      run_actions plan rest action_results
  end.

(** The plan: parsed from the first [{] up to the last [}] of the reply,
    or the fallback. *)
Definition plan_of (analysis_text : string) : outcome pyval :=
  match search json_re analysis_text with
  | Some json_match => json_loads rt (m_text json_match)
  | None => Ok (fallback_plan analysis_text)
  end.

(** The two lines a result adds to the response. *)
Definition add_result (final_response : pyval) (result : ActionResult)
  : outcome pyval :=
  match py_iadd_str final_response (nl ++ message result) with
  | Ok r =>
      if truthy (result_get "output" result)
      then py_iadd_str r
             (nl ++ "Output: " ++ py_format rt (result_get "output" result))
      else Ok r
  | Raise e => Raise e
  end.

Fixpoint add_results (final_response : pyval)
         (action_results : list ActionResult) : outcome pyval :=
  match action_results with
  | [] => Ok final_response
  | result :: rest =>
      match add_result final_response result with
      | Ok r => add_results r rest
      | Raise e => Raise e
      end
  end.

Definition build_response (plan : pyval)
           (action_results : list ActionResult) : outcome pyval :=
  match py_get plan "response" (PStr "Done!") with
  | Ok final_response =>
      match action_results with
      | [] => Ok final_response
      | _ =>
          match py_iadd_str final_response
                  (nl ++ nl ++ "**Actions Performed:**" ++ nl) with
          | Ok r => add_results r action_results
          | Raise e => Raise e
          end
      end
  | Raise e => Raise e
  end.

(** The [try] block of [process_command], which the prompt is built
    before. *)
Definition process_command_body (prompt command : string)
  : M CommandResult :=
  analysis_response <- perform (GenerateContent (model_name h) prompt) ;;
  analysis_text <- lift (the_text analysis_response) ;;
  plan <- lift (plan_of analysis_text) ;;
  todo <- lift (py_get plan "actions" (PList [])) ;;
  todo <- lift (py_iter todo) ;;
  action_results <- run_actions plan todo [] ;;
  final_response <- lift (build_response plan action_results) ;;
  let code_blocks := code_blocks_of analysis_text in
  UserMemory.extract_and_store_info rt command final_response ;;
  ret (mk_command_result final_response
         (match code_blocks with b :: _ => Some (b_code b) | [] => None end)
         (match code_blocks with
          | b :: _ => Some (b_language b)
          | [] => None
          end)
         action_results).

Definition process_command (command : string) (context : option string)
  : M CommandResult :=
  if negb (is_configured h) then ret not_configured
  else
    s <- get_state ;;
    let user_context := UserMemory.get_context_for_ai (memory s) in
    let prompt := analysis_prompt user_context command in
    try_except (process_command_body prompt command)
      (fun e => ret (error_result e)).

End WithHandler.
End WithRuntime.
End EnhancedAIHandler.

(* ===================================================================== *)
(** * ai_handler.py *)
(* ===================================================================== *)

Module AIHandler.
Import PyStr Re Py Model.
Local Open Scope py_scope.

(** The handler without actions: the same two attributes. *)
Record Handler : Type := mk_handler {
  client : option string;
  model_name : option string
}.

Definition new_handler (api_key : option string) : Handler :=
  match api_key with
  | Some k =>
      if k =? "" then mk_handler None None
      else mk_handler (Some k) (Some "models/gemini-flash-latest")
  | None => mk_handler None None
  end.

Definition is_configured (h : Handler) : bool :=
  match client h with
  | Some _ => true
  | None => false
  end.

(** The dict [process_command] returns. *)
Record Reply : Type := mk_reply {
  response : string;
  code : option string;
  language : option string
}.

Definition not_configured : Reply :=
  mk_reply
    "⚠️ AI not configured. Please add your GEMINI_API_KEY to the .env file."
    None None.

Definition quota_reached : Reply :=
  mk_reply
    ("⚠️ **API Quota Limit Reached!**" ++ nl ++ nl
     ++ "Your free tier limit has been exceeded. Please:" ++ nl
     ++ "1. Wait 30-60 minutes and try again" ++ nl
     ++ "2. Check your usage at: https://aistudio.google.com/apikey" ++ nl
     ++ "3. The free tier resets every minute/day" ++ nl ++ nl
     ++ "**Free Tier Limits:**" ++ nl
     ++ "- 15 requests per minute" ++ nl
     ++ "- 1,500 requests per day" ++ nl
     ++ "- 1 million tokens per day" ++ nl ++ nl
     ++ "**Tip:** Wait a bit before trying again! 😊")
    None None.

Definition error_reply (e : exn) : Reply :=
  let error_message := exn_str e in
  if contains "429" error_message
     || contains "quota" (lower error_message)
     || contains "RESOURCE_EXHAUSTED" error_message
  then quota_reached
  else mk_reply
         ("❌ Error processing command: " ++ error_message ++ nl ++ nl
          ++ "Please try again or check the backend logs.")
         None None.

Definition base_prompt (command : string) : string :=
  String.concat nl
    [ "You are a helpful AI coding assistant. The user has given you this command:";
      "";
      EnhancedAIHandler.q command;
      "";
      "Please provide a clear, helpful response. If the user is asking for code:";
      "1. Write clean, well-commented code";
      "2. Explain what the code does";
      "3. Include usage examples if relevant";
      "4. Use proper formatting with code blocks (```language)";
      "";
      "If the user is asking a question, provide a clear and concise answer.";
      "";
      "" ].

(** [if context:] holds for a context that is given and not empty. *)
Definition _create_prompt (command : string) (context : option string)
  : string :=
  match context with
  | Some c =>
      if c =? "" then base_prompt command
      else base_prompt command ++ nl ++ "Additional context: " ++ c ++ nl
  | None => base_prompt command
  end.

(** The pattern and the loop are those of [EnhancedAIHandler]. *)
Definition _extract_code_blocks (text : option string)
  : outcome (list EnhancedAIHandler.CodeBlock) :=
  EnhancedAIHandler._extract_code_blocks text.

Definition reply_of (result_text : string)
           (code_blocks : list EnhancedAIHandler.CodeBlock) : Reply :=
  match code_blocks with
  | main_code :: _ =>
      mk_reply result_text
        (Some (EnhancedAIHandler.b_code main_code))
        (Some (EnhancedAIHandler.b_language main_code))
  | [] => mk_reply result_text None None
  end.

(** The [try] block of [process_command]; [response.text] is [None] for a
    response without text, which [re.findall] rejects, so the text is a
    string once the blocks are there. *)
Definition process_command_body (h : Handler) (prompt : string) : M Reply :=
  result_text <- perform (GenerateContent (model_name h) prompt) ;;
  code_blocks <- lift (_extract_code_blocks result_text) ;;
  result_text <- lift (EnhancedAIHandler.the_text result_text) ;;
  ret (reply_of result_text code_blocks).

Definition process_command (h : Handler) (command : string)
           (context : option string) : M Reply :=
  if negb (is_configured h) then ret not_configured
  else
    let prompt := _create_prompt command context in
    try_except (process_command_body h prompt)
      (fun e => ret (error_reply e)).

End AIHandler.

(* ===================================================================== *)
(** * main.py: the endpoints for health and memory *)
(* ===================================================================== *)

Module Main.
Import PyStr Py Model.
Local Open Scope py_scope.

(** The dict of [GET /api/health]. *)
Record Health : Type := mk_health {
  ai_configured : bool;
  status : string
}.

Definition health_check (h : EnhancedAIHandler.Handler) : Health :=
  let is_configured := EnhancedAIHandler.is_configured h in
  mk_health is_configured
    (if is_configured then "ready" else "needs_configuration").

(** The dicts of the memory endpoints: each has the key [success] and,
    with it, the summary and the profile, a message, or an error. *)
Inductive MemoryReply : Type :=
| Report (success : bool) (summary : string) (profile : Profile)
| Message (success : bool) (message : string)
| Failure (success : bool) (error : string).

Definition reply_success (r : MemoryReply) : bool :=
  match r with
  | Report b _ _ => b
  | Message b _ => b
  | Failure b _ => b
  end.

Section WithRuntime.
Context (rt : Runtime).

(** [GET /api/memory] *)
Definition get_memory : M MemoryReply :=
  try_except
    (s <- get_state ;;
     let summary := UserMemory.get_memory_summary (memory s) in
     profile <- UserMemory.get_profile ;;
     ret (Report true summary profile))
    (fun e => ret (Failure false (exn_str e))).

(** [DELETE /api/memory] *)
Definition clear_memory : M MemoryReply :=
  try_except
    (UserMemory.clear_memory rt ;;
     ret (Message true "Memory cleared successfully"))
    (fun e => ret (Failure false (exn_str e))).

End WithRuntime.
End Main.

(* ===================================================================== *)
(** * Notions the statements use *)
(* ===================================================================== *)

Module Spec.
Import PyStr Re Py Model.

(** The tag under which a plan names an operation of the registry. *)
Definition call_tag (c : call) : string :=
  match c with
  | CreateFile _ _ => "create_file"
  | OpenIdle _ => "open_idle"
  | OpenNotepad _ => "open_notepad"
  | OpenVscode _ => "open_vscode"
  | RunPythonCode _ => "run_code"
  | ExecuteCommand _ => "execute_command"
  | ListFiles => "list_files"
  | ReadFile _ => "read_file"
  | OpenBrowser _ => "open_browser"
  | OpenYoutube _ => "open_youtube"
  | GoogleSearch _ => "google_search"
  | OpenApplication _ => "open_application"
  | DeleteFile _ => "delete_file"
  end.

(** The fixed set of tags of an ActionStep. *)
Definition declared_tags : list string :=
  [ "create_file"; "open_idle"; "open_vscode"; "run_code";
    "execute_command"; "open_youtube"; "open_browser"; "google_search";
    "open_application"; "list_files"; "read_file"; "delete_file";
    "just_respond" ].

(** The tags [process_command] has a branch for. *)
Definition dispatched_tags : list string :=
  [ "create_file"; "open_idle"; "open_vscode"; "run_code";
    "execute_command"; "open_youtube"; "open_browser"; "google_search";
    "open_application" ].

Definition is_dispatched (tag : string) : bool :=
  existsb (String.eqb tag) dispatched_tags.

(** The tag of a step of a plan. *)
Definition tag_of (action : pyval) : string :=
  match action with
  | PDict d =>
      match dict_get "type" d with
      | Some (PStr t) => t
      | _ => EmptyString
      end
  | _ => EmptyString
  end.

(** A step as a well-formed plan has it: an object with a tag of the
    fixed set and, when it has parameters, an object for them. *)
Definition step_ok (action : pyval) : Prop :=
  exists d tag,
    action = PDict d /\
    dict_get "type" d = Some (PStr tag) /\
    In tag declared_tags /\
    (dict_get "params" d = None \/
     exists p, dict_get "params" d = Some (PDict p)).

(** The model answers every request for content with a text. *)
Definition model_answers (env : Env) : Prop :=
  forall model contents tr,
    exists t, env (GenerateContent model contents) tr = Ok (Some t).

(** The documented default shape of the memory. *)
Definition default_shape (m : Memory) : Prop :=
  m_facts m = [] /\
  p_name (m_profile m) = None /\
  p_occupation (m_profile m) = None /\
  p_location (m_profile m) = None /\
  p_interests (m_profile m) = [] /\
  p_skills (m_profile m) = [] /\
  p_preferences (m_profile m) = [] /\
  m_preferences m = [] /\
  m_last_updated m = None.

(** A computation that enters no operation of the registry. *)
Definition keeps_calls {A} (m : M A) : Prop :=
  forall env s, calls (snd (m env s)) = calls s.

(** The state an operation starts its body in. *)
Definition entered (c : call) (s : State) : State :=
  set_calls (calls s ++ [c]) s.

(** A computation all of whose requests satisfy [P]. *)
Definition only_requests (P : request -> bool) {A} (m : M A) : Prop :=
  forall env s,
    exists rest,
      trace (snd (m env s)) = (trace s ++ rest)%list /\
      forallb P rest = true.

(** A computation that takes the memory from [a] to some [b] with
    [R a b]. *)
Definition memory_moves (R : Memory -> Memory -> Prop) {A} (m : M A)
  : Prop :=
  forall env s, R (memory s) (memory (snd (m env s))).

(** The facts stay, in their order, at the head of the list. *)
Definition facts_kept (a b : Memory) : Prop :=
  exists extra, m_facts b = (m_facts a ++ extra)%list.

(** The interests stay, in their order, at the head of the list, and no
    interest comes to stand twice. *)
Definition interests_kept (a b : Memory) : Prop :=
  (exists extra,
     p_interests (m_profile b)
     = (p_interests (m_profile a) ++ extra)%list) /\
  (NoDup (p_interests (m_profile a)) -> NoDup (p_interests (m_profile b))).

(** The facts are the same. *)
Definition same_facts (a b : Memory) : Prop := m_facts b = m_facts a.

(** At most one fact more, at the end, with the content [content]. *)
Definition one_more_fact (content : string) (a b : Memory) : Prop :=
  exists extra,
    m_facts b = (m_facts a ++ extra)%list /\
    List.length extra <= 1 /\
    forall f, In f extra -> f_content f = content.

(** A computation that, in the environment [env], ends with a value from
    every state. *)
Definition never_raises (env : Env) {A} (m : M A) : Prop :=
  forall s, exists a, fst (m env s) = Ok a.

(** The memory with other facts. *)
Definition with_facts (l : list Fact) (mem : Memory) : Memory :=
  mk_memory (m_profile mem) l (m_preferences mem) (m_history_summary mem)
    (m_last_updated mem).

(** [print] goes through. *)
Definition console_works (env : Env) : Prop :=
  forall text tr, env (PrintOut text) tr = Ok tt.

(** The clock answers. *)
Definition clock_works (env : Env) : Prop :=
  forall tr, exists t, env Now tr = Ok t.

(** Kinds of request. *)
Definition is_run (r : request) : bool :=
  match r with SubprocessRun _ _ _ => true | _ => false end.



Definition is_import_of (name : string) (r : request) : bool :=
  match r with ImportModule n => n =? name | _ => false end.



(** A request on a file names the memory file or its directory. *)
Definition on_memory_file (rt : Runtime) (r : request) : bool :=
  match r with
  | Makedirs p => p =? path_dirname rt (UserMemory.memory_file rt)
  | OpenWrite p | JsonDump p _ | JsonLoad p =>
      p =? UserMemory.memory_file rt
  | WriteText _ _ | PathExists _ | Listdir _ | ReadText _ | Remove _ => false
  | _ => true
  end.

(** Every character of a text satisfies [f]. *)
Fixpoint all_chars (f : Ascii.ascii -> bool) (s : string) : bool :=
  match s with
  | EmptyString => true
  | String a t => f a && all_chars f t
  end.

(** A text of the ASCII range, on which the character classes of this
    development are those of Python. *)
Definition is_ascii (s : string) : bool :=
  all_chars (fun c => (code c <? 128)%N) s.

(** A word as [capitalize] leaves it: not empty, letters, digits and
    underscores only, no small letter at the head and no capital letter
    after it. *)
Definition capitalised_word (s : string) : bool :=
  match s with
  | EmptyString => false
  | String a t =>
      is_word a && negb (is_lower a)
      && all_chars (fun c => is_word c && negb (is_upper c)) t
  end.

(** A value that is not a string. *)
Definition not_str (v : pyval) : Prop := forall t, v <> PStr t.

(** The value of the key "type" of a step, as [action.get("type")]. *)
Definition type_of (d : pydict) : pyval :=
  match dict_get "type" d with
  | Some v => v
  | None => PNone
  end.

(** The line, or the two lines, a result adds to the response. *)
Definition result_lines (rt : Runtime) (r : ActionResult) : string :=
  nl ++ message r
  ++ (if truthy (result_get "output" r)
      then nl ++ "Output: " ++ py_format rt (result_get "output" r)
      else "").

Section WithRuntime.
Context (rt : Runtime) (h : EnhancedAIHandler.Handler).

(** The executor runs a plan to its end and enters the operations
    [expected], in this order, with one result for each. *)
Definition executes (env : Env) (s : State) (plan : pyval)
           (todo : list pyval) (expected : list string) : Prop :=
  exists results s' (entered_calls : list call),
    EnhancedAIHandler.run_actions rt h plan todo [] env s = (Ok results, s')
    /\ calls s' = (calls s ++ entered_calls)%list
    /\ map call_tag entered_calls = expected
    /\ List.length results = List.length expected.

End WithRuntime.
End Spec.

(* ===================================================================== *)
(** * A concrete runtime and environment *)
(* ===================================================================== *)

Module Scenario.
Import PyStr Re Py Model.

(** [posixpath.join] on two strings *)
Definition posix_join (a b : string) : string :=
  if starts_with "/" b then b
  else if (a =? "") || starts_with "/" (drop (String.length a - 1) a)
  then a ++ b
  else a ++ "/" ++ b.

(** [posixpath.dirname]: the text before the last slash. *)
Fixpoint posix_dirname (p : string) : string :=
  match p with
  | EmptyString => EmptyString
  | String c t =>
      if contains "/" t then String c (posix_dirname t)
      else EmptyString
  end.

(** A plan as the model may send it, and its text. *)
Definition list_files_plan : pyval :=
  PDict [ ("intent", PStr "show my files");
          ("actions", PList [PDict [("type", PStr "list_files")]]);
          ("response", PStr "Here are your files") ].

Definition list_files_text : string :=
  "{" ++ EnhancedAIHandler.q "intent" ++ ": "
      ++ EnhancedAIHandler.q "show my files" ++ ", "
      ++ EnhancedAIHandler.q "actions" ++ ": [{"
      ++ EnhancedAIHandler.q "type" ++ ": "
      ++ EnhancedAIHandler.q "list_files" ++ "}], "
      ++ EnhancedAIHandler.q "response" ++ ": "
      ++ EnhancedAIHandler.q "Here are your files" ++ "}".

(** A plan of three steps: a file to create with no content given, a
    listing, and an editor to open. *)
Definition sorting_steps : list pyval :=
  [ PDict [("type", PStr "create_file");
           ("params", PDict [("filename", PStr "sort.py")])];
    PDict [("type", PStr "list_files")];
    PDict [("type", PStr "open_idle");
           ("params", PDict [("filename", PStr "sort.py")])] ].

Definition sorting_plan : pyval :=
  PDict [ ("intent", PStr "sort a list");
          ("actions", PList sorting_steps);
          ("response", PStr "I will write the script and open it") ].

(** A reply of the model with one code block. *)
Definition sorting_reply : string :=
  "Here is the code:" ++ nl ++ "```python" ++ nl
   ++ "print(sorted([3, 1, 2]))" ++ nl ++ "```" ++ nl ++ "Enjoy!".

(** A reply of the model with one code block, tagged [c++]. *)
Definition cpp_reply : string :=
  "```c++" ++ nl ++ "int main() { return 0; }" ++ nl ++ "```".

(** A step that creates a file with no content given, and its plan. *)
Definition cpp_step : pyval :=
  PDict [("type", PStr "create_file");
         ("params", PDict [("filename", PStr "main.cpp")])].

Definition cpp_plan : pyval :=
  PDict [ ("intent", PStr "a C++ program that does nothing");
          ("actions", PList [cpp_step]);
          ("response", PStr "I will write it") ].

(** A plan whose second step is a bare tag where an object belongs, and
    its text. *)
Definition interrupted_plan : pyval :=
  PDict [ ("intent", PStr "make a script");
          ("actions",
           PList [ PDict [("type", PStr "create_file");
                          ("params", PDict [("filename", PStr "a.py");
                                            ("content", PStr "print(1)")])];
                   PStr "open_idle" ]);
          ("response", PStr "On it") ].

Definition interrupted_text : string :=
  "{" ++ EnhancedAIHandler.q "intent" ++ ": "
      ++ EnhancedAIHandler.q "make a script" ++ ", "
      ++ EnhancedAIHandler.q "actions" ++ ": [{"
      ++ EnhancedAIHandler.q "type" ++ ": "
      ++ EnhancedAIHandler.q "create_file" ++ ", "
      ++ EnhancedAIHandler.q "params" ++ ": {"
      ++ EnhancedAIHandler.q "filename" ++ ": "
      ++ EnhancedAIHandler.q "a.py" ++ ", "
      ++ EnhancedAIHandler.q "content" ++ ": "
      ++ EnhancedAIHandler.q "print(1)" ++ "}}, "
      ++ EnhancedAIHandler.q "open_idle" ++ "], "
      ++ EnhancedAIHandler.q "response" ++ ": "
      ++ EnhancedAIHandler.q "On it" ++ "}".

(** [json.loads] on the texts of this section: the plan above for its
    text, and the error of the decoder at the first character after the
    brace for the others, none of which is JSON. *)
Definition sample_json_loads (text : string) : outcome pyval :=
  if text =? list_files_text then Ok list_files_plan
  else Raise (mk_exn OtherException
                "Expecting property name enclosed in double quotes: line 1 column 2 (char 1)").

Definition sample_runtime : Runtime :=
  {| home := "/home/riya";
     path_join := posix_join;
     path_dirname := posix_dirname;
     url_quote := fun s => s;
     sys_executable := "/usr/bin/python3";
     os_name_nt := false;
     py_repr := type_name;
     json_loads := sample_json_loads |}.

(** The runtime above with a decoder that also knows the interrupted
    plan. *)
Definition runtime_decoding_interrupted : Runtime :=
  {| home := home sample_runtime;
     path_join := path_join sample_runtime;
     path_dirname := path_dirname sample_runtime;
     url_quote := url_quote sample_runtime;
     sys_executable := sys_executable sample_runtime;
     os_name_nt := os_name_nt sample_runtime;
     py_repr := py_repr sample_runtime;
     json_loads := fun text =>
       if text =? interrupted_text then Ok interrupted_plan
       else json_loads sample_runtime text |}.

(** A handler with a credential. *)
Definition sample_handler : EnhancedAIHandler.Handler :=
  EnhancedAIHandler.new_handler (Some "key").

(** An environment in which every request goes through; the model
    replies [reply] to every request. *)
Definition env_replying (reply : string) : Env :=
  fun r _ =>
    match r return outcome (resp r) with
    | PathExists _ => Ok false
    | SubprocessRun _ _ _ => Ok (mk_completed "" "" 0)
    | Listdir _ => Ok []
    | ReadText _ => Ok ""
    | GetAttribute _ => Ok PNone
    | GenerateContent _ _ => Ok (Some reply)
    | Now => Ok "2024-05-01T10:00:00"
    | _ => Ok tt
    end.

Definition quiet_env : Env := env_replying "ok".

(** An environment in which a spawned process ends with [p]. *)
Definition env_running (p : CompletedProcess) : Env :=
  fun r tr =>
    match r return outcome (resp r) with
    | SubprocessRun _ _ _ => Ok p
    | r' => quiet_env r' tr
    end.

(** An environment in which [subprocess.run] raises [e]. *)
Definition env_run_raising (e : exn) : Env :=
  fun r tr =>
    match r return outcome (resp r) with
    | SubprocessRun _ _ _ => Raise e
    | r' => quiet_env r' tr
    end.

(** An environment in which every step of a write to a file raises
    [e]. *)
Definition env_disk_failing (e : exn) : Env :=
  fun r tr =>
    match r return outcome (resp r) with
    | Makedirs _ => Raise e
    | OpenWrite _ => Raise e
    | WriteText _ _ => Raise e
    | JsonDump _ _ => Raise e
    | JsonLoad _ => Raise e
    | r' => quiet_env r' tr
    end.

(** An environment in which every file asked for exists. *)
Definition env_file_exists : Env :=
  fun r tr =>
    match r return outcome (resp r) with
    | PathExists _ => Ok true
    | r' => quiet_env r' tr
    end.

(** An environment in which no module can be imported. *)
Definition env_import_failing : Env :=
  fun r tr =>
    match r return outcome (resp r) with
    | ImportModule name =>
        Raise (mk_exn ImportError ("No module named '" ++ name ++ "'"))
    | r' => quiet_env r' tr
    end.

(** An environment in which the model service raises [e]. *)
Definition env_model_raising (e : exn) : Env :=
  fun r tr =>
    match r return outcome (resp r) with
    | GenerateContent _ _ => Raise e
    | r' => quiet_env r' tr
    end.

(** A store that knows a name, an occupation and a fact. *)
Definition riya_memory : Memory :=
  mk_memory
    (mk_profile (Some "Riya") (Some "doctor") ["chess"] [] [] None)
    [mk_fact "my name is Riya" "2024-05-01T10:00:00" (PStr "Nice to meet you")]
    [] [] (Some "2024-05-01T10:00:00").

(** The state of a process that has just started, with no memory file. *)
Definition fresh : State :=
  mk_state [] [] None None UserMemory._create_default_memory.

End Scenario.

(* ===================================================================== *)
(** * Proof steps for effectful code *)
(* ===================================================================== *)

(** A case analysis on the answer of the environment to the next
    request. *)
Ltac ask_env :=
  match goal with
  | env : Model.Env |- context [?f ?r ?t] =>
      constr_eq f env; destruct (env r t); simpl
  end.

Ltac run_monad :=
  unfold Model.try_except, Model.bind, Model.perform, Model.modify,
    Model.get_state, Model.ret, Model.raise, Model.lift, Model.enter; simpl.

(* ===================================================================== *)
(** * Facts about strings *)
(* ===================================================================== *)

Module StringFacts.
Import PyStr.

Lemma append_assoc (a b c : string) : (a ++ (b ++ c) = (a ++ b) ++ c)%string.
Proof. induction a as [|x a IH]; simpl; congruence. Qed.

Lemma append_empty_r (a : string) : (a ++ "")%string = a.
Proof. induction a as [|x a IH]; simpl; congruence. Qed.

Lemma starts_with_app (x q : string) : starts_with x (x ++ q)%string = true.
Proof.
  induction x as [|a x IH]; simpl; [reflexivity|].
  rewrite Ascii.eqb_refl. exact IH.
Qed.

(** A text occurs in every text built around it. *)
Lemma contains_app (p x q : string) :
  contains x (p ++ x ++ q)%string = true.
Proof.
  induction p as [|a p IH]; simpl.
  - destruct x as [|a x]; simpl.
    + destruct q; reflexivity.
    + rewrite Ascii.eqb_refl, starts_with_app. reflexivity.
  - rewrite IH. apply orb_true_r.
Qed.

Lemma contains_app_end (p x : string) : contains x (p ++ x)%string = true.
Proof.
  pose proof (contains_app p x EmptyString) as H.
  rewrite append_empty_r in H. exact H.
Qed.

End StringFacts.

(* ===================================================================== *)
(** * Facts about the matcher *)
(* ===================================================================== *)

Module ReFacts.
Import PyStr Re StringFacts.

Lemma length_append (a b : string) :
  String.length (a ++ b) = String.length a + String.length b.
Proof. induction a as [|x a IH]; simpl; congruence. Qed.

Lemma take_app (pre rest : string) :
  take (String.length pre) (pre ++ rest) = pre.
Proof.
  unfold take. induction pre as [|a pre IH]; simpl.
  - destruct rest; reflexivity.
  - rewrite IH. reflexivity.
Qed.

(** The text consumed up to a suffix is what stands before it. *)
Lemma consumed_app (pre rest : string) : consumed (pre ++ rest) rest = pre.
Proof.
  unfold consumed. rewrite length_append.
  replace (String.length pre + String.length rest - String.length rest)
    with (String.length pre) by lia.
  apply take_app.
Qed.

Lemma strip_prefix_starts_with (l s : string) :
  starts_with l s = true -> strip_prefix l s <> None.
Proof.
  revert s. induction l as [|a l IH]; intros s H; simpl in *.
  - discriminate.
  - destruct s as [|b s]; [discriminate|].
    destruct (Ascii.eqb a b); simpl in H; [apply IH; exact H|discriminate].
Qed.

Lemma starts_with_weaken (x p w : string) :
  starts_with x p = true -> starts_with x (p ++ w) = true.
Proof.
  revert p. induction x as [|a x IH]; intros p H; simpl in *.
  - reflexivity.
  - destruct p as [|b p]; [discriminate|]. simpl.
    destruct (Ascii.eqb a b); simpl in *; [apply IH; exact H|discriminate].
Qed.

(** An occurrence of [x] in [s] splits [s] before it. *)
Lemma contains_split (x s : string) :
  contains x s = true ->
  exists p1 p2, s = p1 ++ p2 /\ starts_with x p2 = true.
Proof.
  induction s as [|a s IH]; simpl; intro H.
  - rewrite orb_false_r in H. exists EmptyString, EmptyString. auto.
  - apply orb_true_iff in H. destruct H as [H|H].
    + exists EmptyString, (String a s). auto.
    + destruct (IH H) as [p1 [p2 [E S]]].
      exists (String a p1), p2. simpl. rewrite E. auto.
Qed.

Lemma contains_weaken_r (x p w : string) :
  contains x p = true -> contains x (p ++ w) = true.
Proof.
  induction p as [|a p IH]; simpl; intro H.
  - rewrite orb_false_r in H.
    destruct x; [|discriminate]. destruct w; reflexivity.
  - apply orb_true_iff in H. destruct H as [H|H].
    + change (String a (p ++ w)) with (String a p ++ w).
      rewrite (starts_with_weaken _ _ w H). reflexivity.
    + rewrite (IH H). apply orb_true_r.
Qed.

Lemma contains_lstrip (x s : string) :
  contains x (lstrip s) = true -> contains x s = true.
Proof.
  induction s as [|a s IH]; simpl; [auto|].
  destruct (is_space a); [|auto].
  intro H. rewrite (IH H). apply orb_true_r.
Qed.

(** [rstrip] keeps a prefix. *)
Lemma rstrip_prefix (s : string) : exists w, s = rstrip s ++ w.
Proof.
  induction s as [|a s [w IH]]; simpl.
  - exists EmptyString. reflexivity.
  - destruct (rstrip s) as [|b t] eqn:E.
    + destruct (is_space a).
      * exists (String a s). reflexivity.
      * exists s. reflexivity.
    + exists w. simpl in *. congruence.
Qed.

Lemma contains_rstrip (x s : string) :
  contains x (rstrip s) = true -> contains x s = true.
Proof.
  intro H. destruct (rstrip_prefix s) as [w E].
  rewrite E. apply contains_weaken_r. exact H.
Qed.

(** What occurs in a stripped text occurs in the text. *)
Lemma contains_strip (x s : string) :
  contains x (strip s) = true -> contains x s = true.
Proof.
  unfold strip. intro H. apply contains_lstrip, contains_rstrip, H.
Qed.

Section Matcher.
Context {R : Type}.

Lemma rep_greedy_from_k c s (k : string -> option R) x :
  rep_greedy c s k = Some x -> exists s', k s' = Some x.
Proof.
  induction s as [|a s IH]; simpl; intro H.
  - eauto.
  - destruct (cls_match c a); [|eauto].
    destruct (rep_greedy c s k) eqn:E; [|eauto].
    injection H as ->. auto.
Qed.

Lemma rep_lazy_from_k c s (k : string -> option R) x :
  rep_lazy c s k = Some x -> exists s', k s' = Some x.
Proof.
  induction s as [|a s IH]; simpl; intro H.
  - destruct (k EmptyString) eqn:E; [|discriminate].
    injection H as ->. eauto.
  - destruct (k (String a s)) eqn:E.
    + injection H as ->. eauto.
    + destruct (cls_match c a); [auto|discriminate].
Qed.

Lemma rep_from_k c plus greedy s (k : string -> option R) x :
  rep c plus greedy s k = Some x -> exists s', k s' = Some x.
Proof.
  unfold rep. destruct plus, greedy; try destruct s as [|a s];
    try discriminate; try destruct (cls_match c a); try discriminate;
    first [apply rep_greedy_from_k | apply rep_lazy_from_k].
Qed.

(** The result of a match is a result of its continuation. *)
Lemma exec_from_k (r : re) :
  forall s g (k : string -> groups -> option R) x,
    exec r s g k = Some x -> exists s' g', k s' g' = Some x.
Proof.
  induction r as [l|c plus greedy|r IH|r1 IH1 r2 IH2|r1 IH1 r2 IH2|n r IH|];
    intros s g k x H; simpl in H.
  - destruct (strip_prefix l s); [eauto|discriminate].
  - apply rep_from_k in H. destruct H as [s' H]. eauto.
  - destruct (exec r s g k) eqn:E; [|eauto].
    injection H as ->. eapply IH; eauto.
  - destruct (exec r1 s g k) eqn:E.
    + injection H as ->. eapply IH1; eauto.
    + eapply IH2; eauto.
  - apply IH1 in H. destruct H as [s1 [g1 H]]. eapply IH2; eauto.
  - apply IH in H. destruct H as [s1 [g1 H]]. eauto.
  - destruct (at_end s); [eauto|discriminate].
Qed.

(** A lazy run of [.] under DOTALL stops at the first position at which
    the continuation succeeds. *)
Lemma rep_lazy_any_first s (k : string -> option R) x :
  rep_lazy CAny s k = Some x ->
  exists pre rest,
    s = pre ++ rest /\ k rest = Some x /\
    forall p1 p2, pre = p1 ++ p2 -> p2 <> EmptyString ->
                  k (p2 ++ rest) = None.
Proof.
  induction s as [|a s IH]; simpl; intro H.
  - destruct (k EmptyString) eqn:E; [|discriminate].
    injection H as ->. exists EmptyString, EmptyString.
    repeat split; auto.
    intros [|b p1] p2 E1 N; simpl in E1; [congruence|discriminate].
  - destruct (k (String a s)) eqn:E.
    + injection H as ->. exists EmptyString, (String a s).
      repeat split; auto.
      intros [|b p1] p2 E1 N; simpl in E1; [congruence|discriminate].
    + destruct (IH H) as [pre [rest [E1 [K F]]]].
      exists (String a pre), rest. simpl. rewrite <- E1.
      repeat split; auto.
      intros [|b p1] p2 E2 N; simpl in E2.
      * subst p2. simpl. rewrite <- E1. exact E.
      * injection E2 as _ E2. eauto.
Qed.

End Matcher.

(** Every match of [search] is a match of [match_here] at some position. *)
Lemma search_from_groups r before s m :
  search_from r before s = Some m ->
  exists t t', match_here r t = Some (t', m_groups m).
Proof.
  revert before. induction s as [|a s IH]; intros before; simpl.
  - destruct (match_here r EmptyString) as [[s' g]|] eqn:E; [|discriminate].
    intro H. injection H as <-. simpl. eauto.
  - destruct (match_here r (String a s)) as [[s' g]|] eqn:E.
    + intro H. injection H as <-. simpl. eauto.
    + apply IH.
Qed.

Lemma findall_groups r fuel :
  forall s m, In m (findall_fuel fuel r s) ->
  exists t t', match_here r t = Some (t', m_groups m).
Proof.
  induction fuel as [|fuel IH]; intros s m; simpl; [tauto|].
  destruct (search r s) as [m0|] eqn:E; [|simpl; tauto].
  intros [<-|H].
  - eapply search_from_groups. exact E.
  - destruct (m_text m0), (m_after m0); simpl in H; try tauto;
      eapply IH; exact H.
Qed.

End ReFacts.

(* ===================================================================== *)
(** * Facts about user_memory.py *)
(* ===================================================================== *)

Module UserMemoryFacts.
Import PyStr Re Py Model UserMemory Scenario.
Local Open Scope list_scope.

Section WithRuntime.
Context (rt : Runtime).

(** [_save_memory] leaves [self.memory] as it is. *)
Lemma save_keeps_memory (env : Env) (s : State) :
  memory (snd (_save_memory rt env s)) = memory s.
Proof.
  unfold _save_memory; run_monad.
  repeat ask_env; reflexivity.
Qed.

(** When the three steps of the write go through, the file holds the
    memory. *)
Lemma save_writes_memory (env : Env) (s : State) :
  let dir := path_dirname rt (memory_file rt) in
  let file := memory_file rt in
  env (Makedirs dir) (trace s) = Ok tt ->
  env (OpenWrite file) (trace s ++ [Makedirs dir]) = Ok tt ->
  env (JsonDump file (memory s)) (trace s ++ [Makedirs dir; OpenWrite file])
    = Ok tt ->
  disk (snd (_save_memory rt env s)) = Some (FileJson (memory s)).
Proof.
  intros dir file H1 H2 H3.
  unfold _save_memory; run_monad.
  fold dir file. rewrite H1; simpl. rewrite H2; simpl.
  rewrite <- app_assoc. simpl in *. rewrite H3. reflexivity.
Qed.

(** [_load_memory] never raises, and yields the memory the file holds or
    the default one. *)
Lemma load_cases (env : Env) (s : State) :
  exists m,
    fst (_load_memory rt env s) = Ok m /\
    (m = _create_default_memory \/ disk s = Some (FileJson m)).
Proof.
  unfold _load_memory; run_monad.
  destruct (disk s) as [[m|]|] eqn:D; simpl; try ask_env; eauto.
Qed.

(** C7.  After [clear_memory] the store holds the default memory; when the
    write of [clear_memory] goes through, the file holds it too, and a
    load of that file, also by a process started later, yields the default
    shape: no facts, no name, occupation or location, no interests,
    skills or preferences, no date of update. *)
Theorem clear_then_load (env env' : Env) (s s2 : State) :
  let dir := path_dirname rt (memory_file rt) in
  let file := memory_file rt in
  let s1 := snd (clear_memory rt env s) in
  env (Makedirs dir) (trace s) = Ok tt ->
  env (OpenWrite file) (trace s ++ [Makedirs dir]) = Ok tt ->
  env (JsonDump file _create_default_memory)
      (trace s ++ [Makedirs dir; OpenWrite file]) = Ok tt ->
  disk s2 = disk s1 ->
  memory s1 = _create_default_memory /\
  (exists m, fst (_load_memory rt env' s2) = Ok m /\ Spec.default_shape m) /\
  Spec.default_shape (memory (snd (init rt env' s2))).
Proof.
  intros dir file s1 H1 H2 H3 Hdisk.
  assert (Hmem : memory s1 = _create_default_memory).
  { unfold s1, clear_memory, bind, modify. simpl.
    rewrite save_keeps_memory. reflexivity. }
  assert (Hfile : disk s2 = Some (FileJson _create_default_memory)).
  { rewrite Hdisk. unfold s1, clear_memory, bind, modify. simpl.
    rewrite save_writes_memory; auto. }
  assert (Hload : fst (_load_memory rt env' s2) = Ok _create_default_memory).
  { destruct (load_cases env' s2) as [m [Hm [->|Hd]]]; [exact Hm|].
    rewrite Hfile in Hd. injection Hd as <-. exact Hm. }
  split; [exact Hmem|]. split.
  - exists _create_default_memory. split; [exact Hload|].
    repeat split.
  - unfold init, bind, modify.
    destruct (_load_memory rt env' s2) as [[m|e] s3]; simpl in *.
    + injection Hload as ->. repeat split.
    + discriminate.
Qed.

(** C8.  After [extract_and_store_info] on the command "my name is Riya",
    with any response text, in any environment and from any state, the
    name of the stored profile is "Riya". *)
Theorem name_is_stored (env : Env) (s : State) (ai_response : pyval) :
  p_name (m_profile (memory
    (snd (extract_and_store_info rt "my name is Riya" ai_response env s))))
  = Some "Riya"%string.
Proof.
  unfold extract_and_store_info.
  repeat match goal with
         | |- context [any_in ?l ?t] =>
             let v := eval vm_compute in (any_in l t) in
             change (any_in l t) with v
         end.
  let v := eval vm_compute in (_extract_name "my name is Riya") in
  change (_extract_name "my name is Riya") with v.
  let v := eval vm_compute in (_is_personal_info "my name is Riya") in
  change (_is_personal_info "my name is Riya") with v.
  unfold when, update_memory, _save_memory; simpl.
  destruct (fact_context ai_response) as [c|e]; run_monad;
    repeat ask_env; reflexivity.
Qed.

(** Without a name and without facts the context is empty, whatever the
    occupation and the interests. *)
Lemma context_needs_name_or_fact (mem : Memory) :
  set_str (p_name (m_profile mem)) = false ->
  m_facts mem = [] ->
  get_context_for_ai mem = EmptyString.
Proof.
  intros N F. unfold get_context_for_ai. rewrite N, F. reflexivity.
Qed.

(** The context shows five facts at most. *)
Lemma last5_length {A} (l : list A) : List.length (last5 l) <= 5.
Proof. unfold last5. rewrite length_skipn. lia. Qed.

End WithRuntime.

(** The write of [clear_memory] going through, on a store that knew a
    name, and a process that starts afterwards. *)
Lemma clear_then_load_witness :
  let s := set_memory (with_name "Riya" _create_default_memory) fresh in
  let s1 := snd (clear_memory sample_runtime quiet_env s) in
  memory s1 = _create_default_memory /\
  (exists m, fst (_load_memory sample_runtime quiet_env (set_disk (disk s1) fresh))
             = Ok m /\ Spec.default_shape m) /\
  Spec.default_shape
    (memory (snd (init sample_runtime quiet_env (set_disk (disk s1) fresh)))).
Proof.
  apply (clear_then_load sample_runtime quiet_env quiet_env
           (set_memory (with_name "Riya" _create_default_memory) fresh)
           (set_disk _ fresh)); reflexivity.
Defined.

(** C9.  The command "main doctor hoon" sets the occupation and stores
    neither a name nor a fact; the context rendered from the store is then
    empty and shows no occupation.  The same holds of the interest the
    command "interested in chess" sets. *)
Lemma occupation_is_not_rendered :
  let told (command : string) :=
    memory (snd (extract_and_store_info sample_runtime command (PStr "Noted")
                   quiet_env fresh)) in
  p_occupation (m_profile (told "main doctor hoon")) = Some "doctor"%string /\
  get_context_for_ai (told "main doctor hoon") = EmptyString /\
  p_interests (m_profile (told "interested in chess")) = ["chess"%string] /\
  get_context_for_ai (told "interested in chess") = EmptyString.
Proof. vm_compute. repeat split. Qed.

End UserMemoryFacts.

(* ===================================================================== *)
(** * Facts about the monad *)
(* ===================================================================== *)

Module MonadFacts.
Import Py Model Spec.
Local Open Scope list_scope.

Lemma keeps_ret {A} (a : A) : keeps_calls (ret a).
Proof. intros env s; reflexivity. Qed.

Lemma keeps_raise {A} (e : exn) : keeps_calls (@raise A e).
Proof. intros env s; reflexivity. Qed.

Lemma keeps_lift {A} (o : outcome A) : keeps_calls (lift o).
Proof. intros env s; reflexivity. Qed.

Lemma keeps_perform (r : request) : keeps_calls (perform r).
Proof. intros env s; reflexivity. Qed.

Lemma keeps_get_state : keeps_calls get_state.
Proof. intros env s; reflexivity. Qed.

Lemma keeps_set_browser b : keeps_calls (modify (set_browser b)).
Proof. intros env s; reflexivity. Qed.

Lemma keeps_bind {A B} (m : M A) (f : A -> M B) :
  keeps_calls m -> (forall a, keeps_calls (f a)) -> keeps_calls (bind m f).
Proof.
  intros Hm Hf env s. unfold bind.
  specialize (Hm env s).
  destruct (m env s) as [[a|e] s1]; simpl in *.
  - rewrite Hf. exact Hm.
  - exact Hm.
Qed.

Lemma keeps_try_except {A} (m : M A) (h : exn -> M A) :
  keeps_calls m -> (forall e, keeps_calls (h e)) ->
  keeps_calls (try_except m h).
Proof.
  intros Hm Hh env s. unfold try_except.
  specialize (Hm env s).
  destruct (m env s) as [[a|e] s1]; simpl in *.
  - exact Hm.
  - rewrite Hh. exact Hm.
Qed.

End MonadFacts.

(** Goals [keeps_calls m], by the structure of [m]. *)
Ltac keeps_calls_tac :=
  repeat first
    [ apply MonadFacts.keeps_ret
    | apply MonadFacts.keeps_raise
    | apply MonadFacts.keeps_lift
    | apply MonadFacts.keeps_perform
    | apply MonadFacts.keeps_get_state
    | apply MonadFacts.keeps_set_browser
    | apply MonadFacts.keeps_bind; [|intro]
    | apply MonadFacts.keeps_try_except; [|intro]
    | match goal with
      | |- Spec.keeps_calls (if ?b then _ else _) => destruct b
      | |- Spec.keeps_calls (match ?x with _ => _ end) => destruct x
      end ].

(* ===================================================================== *)
(** * Facts about action_executor.py *)
(* ===================================================================== *)

Module ActionExecutorFacts.
Import PyStr Py Model Spec ActionExecutor Scenario StringFacts.
Local Open Scope list_scope.

Section WithRuntime.
Context (rt : Runtime).

Lemma play_youtube_video_keeps_calls q :
  keeps_calls (play_youtube_video rt q).
Proof.
  unfold play_youtube_video, _init_driver, open_search. keeps_calls_tac.
Qed.

(** The body of an operation enters no operation. *)
Lemma body_keeps_calls (c : call) : keeps_calls (body rt c).
Proof.
  destruct c; simpl;
    unfold create_file_body, open_idle_body, open_notepad_body,
      open_vscode_body, run_python_code_body, execute_command_body,
      list_files_body, read_file_body, open_browser_body, open_youtube_body,
      google_search_body, open_application_body, delete_file_body,
      write_file, new_file_unless_exists, load_browser_automation;
    keeps_calls_tac; apply play_youtube_video_keeps_calls.
Qed.

(** The handler of every operation yields a failed result. *)
Lemma handler_fails (c : call) (e : exn) : success (handler rt c e) = false.
Proof.
  destruct c; simpl; try reflexivity.
  unfold run_python_code_failed. destruct (is_timeout e); reflexivity.
Qed.

(** What an operation returns, from what its body does. *)
Lemma invoke_unfold (c : call) (env : Env) (s : State) :
  invoke rt c env s =
  match body rt c env (entered c s) with
  | (Ok r, s') => (Ok r, s')
  | (Raise e, s') => (Ok (handler rt c e), s')
  end.
Proof. reflexivity. Qed.

(** An operation returns a result and is entered once. *)
Lemma invoke_returns (c : call) (env : Env) (s : State) :
  exists r s',
    invoke rt c env s = (Ok r, s') /\ calls s' = calls s ++ [c].
Proof.
  rewrite invoke_unfold.
  pose proof (body_keeps_calls c env (entered c s)) as K.
  destruct (body rt c env (entered c s)) as [[r|e] s']; simpl in K;
    eexists; eexists; (split; [reflexivity|exact K]).
Qed.



(** When [subprocess.run] raises, [execute_command] returns the failed
    result of its one handler, whatever the class of the exception. *)
Lemma execute_command_raising (command : pyval) (env : Env) (s : State)
      (e : exn) :
  env (SubprocessRun command true 30) (trace s) = Raise e ->
  fst (execute_command rt command env s) =
  Ok (failed ("❌ Error executing command: " ++ exn_str e) []).
Proof.
  intro H. unfold execute_command. rewrite invoke_unfold. simpl.
  unfold execute_command_body; run_monad. rewrite H. reflexivity.
Qed.

(** C10.  When the process of [execute_command] ends within the timeout,
    the result has the success flag set exactly when the exit code is 0,
    the message "Command executed" whatever the exit code, and beside
    them the exit code and the captured output: the standard output of
    the process, or its error stream when the standard output is empty.
    The one request made is the run of the command. *)
Theorem execute_command_completed (command : pyval) (env : Env) (s : State)
        (p : CompletedProcess) :
  env (SubprocessRun command true 30) (trace s) = Ok p ->
  exists r s',
    execute_command rt command env s = (Ok r, s') /\
    (success r = true <-> returncode p = 0%Z) /\
    message r = "✅ Command executed"%string /\
    result_get "exit_code" r = PInt (returncode p) /\
    result_get "output" r
    = PStr (if (stdout p =? "")%string then stderr p else stdout p) /\
    trace s' = trace s ++ [SubprocessRun command true 30].
Proof.
  intro H. unfold execute_command. rewrite invoke_unfold. simpl.
  unfold execute_command_body; run_monad. rewrite H.
  eexists; eexists. split; [reflexivity|]. simpl.
  split; [apply Z.eqb_eq|]. repeat split.
Qed.

(** C3.  A command whose process exceeds the timeout of 30 seconds:
    [subprocess.run] raises [TimeoutExpired], and [execute_command]
    returns a failed result whose message holds the text of that
    exception, which names the command and says that it timed out after
    30 seconds. *)
Theorem execute_command_timeout_is_reported (command : pyval) (env : Env)
        (s : State) :
  env (SubprocessRun command true 30) (trace s)
  = Raise (timeout_expired rt command 30) ->
  exists r s',
    execute_command rt command env s = (Ok r, s') /\
    success r = false /\
    message r
    = ("❌ Error executing command: Command '" ++ py_format rt command
         ++ "' timed out after 30 seconds")%string /\
    contains "timed out after 30 seconds" (message r) = true.
Proof.
  intro H. unfold execute_command. rewrite invoke_unfold. simpl.
  unfold execute_command_body; run_monad. rewrite H.
  eexists; eexists. split; [reflexivity|]. simpl.
  split; [reflexivity|]. split; [reflexivity|].
  match goal with
  | |- contains ?x ?t = true =>
      replace t with ((py_format rt command ++ "' ") ++ x)%string
  end.
  - apply contains_app_end.
  - rewrite <- StringFacts.append_assoc. reflexivity.
Qed.

End WithRuntime.

(** A command that ends with exit code 2 and a text on the error
    stream. *)
Lemma execute_command_completed_witness :
  let p := mk_completed "" "ls: cannot access" 2 in
  env_running p (SubprocessRun (PStr "ls nowhere") true 30) (trace fresh)
    = Ok p /\
  exists r s',
    execute_command sample_runtime (PStr "ls nowhere") (env_running p) fresh
      = (Ok r, s') /\
    (success r = true <-> 2%Z = 0%Z) /\
    message r = "✅ Command executed"%string /\
    result_get "exit_code" r = PInt 2 /\
    result_get "output" r = PStr "ls: cannot access" /\
    trace s' = [SubprocessRun (PStr "ls nowhere") true 30].
Proof.
  split; [reflexivity|].
  exact (execute_command_completed sample_runtime (PStr "ls nowhere")
           (env_running (mk_completed "" "ls: cannot access" 2)) fresh
           (mk_completed "" "ls: cannot access" 2) eq_refl).
Defined.

(** The command "sleep 60" under the timeout of 30 seconds. *)
Lemma execute_command_timeout_is_reported_witness :
  let env := env_run_raising
               (timeout_expired sample_runtime (PStr "sleep 60") 30) in
  exists r s',
    execute_command sample_runtime (PStr "sleep 60") env fresh = (Ok r, s') /\
    success r = false /\
    message r
    = "❌ Error executing command: Command 'sleep 60' timed out after 30 seconds"%string /\
    contains "timed out after 30 seconds" (message r) = true.
Proof.
  exact (execute_command_timeout_is_reported sample_runtime (PStr "sleep 60")
           (env_run_raising
              (timeout_expired sample_runtime (PStr "sleep 60") 30)) fresh
           eq_refl).
Defined.

End ActionExecutorFacts.

(* ===================================================================== *)
(** * Facts about enhanced_ai_handler.py *)
(* ===================================================================== *)

Module EnhancedAIHandlerFacts.
Import PyStr Re Py Model Spec EnhancedAIHandler Scenario.
Import StringFacts ReFacts.
Local Open Scope list_scope.

(** The tail [(.*?)```] of the pattern of code blocks: the group holds no
    fence. *)
Lemma fence_tail (s3 : string) (g3 : groups) (x : string * groups) :
  rep CAny false false s3
    (fun s4 => match strip_prefix "```" s4 with
               | Some s5 => Some (s5, (2, consumed s3 s4) :: g3)
               | None => None
               end) = Some x ->
  exists c, group 2 (snd x) = Some c /\ contains "```" c = false.
Proof.
  unfold rep. intro H.
  apply rep_lazy_any_first in H.
  destruct H as [pre [rest [E [K F]]]].
  destruct (strip_prefix "```" rest) as [s5|] eqn:P; [|discriminate].
  injection K as <-. subst s3. rewrite consumed_app.
  exists pre. split; [reflexivity|].
  destruct (contains "```" pre) eqn:C; [|reflexivity].
  apply contains_split in C. destruct C as [p1 [p2 [E2 S]]].
  assert (N : p2 <> EmptyString) by (destruct p2; discriminate).
  specialize (F p1 p2 E2 N). cbv beta in F.
  pose proof (strip_prefix_starts_with _ _ (starts_with_weaken _ _ rest S)) as Q.
  destruct (strip_prefix "```" (p2 ++ rest)%string); [discriminate|congruence].
Qed.

(** Group 2 of a match of the pattern of code blocks holds no fence. *)
Lemma code_block_no_fence (s s' : string) (g : groups) :
  match_here code_block_re s = Some (s', g) ->
  exists c, group 2 g = Some c /\ contains "```" c = false.
Proof.
  unfold match_here, code_block_re. intro H.
  cbn [exec] in H.
  destruct (strip_prefix "```" s) as [s1|]; [|discriminate].
  match type of H with
  | match ?m with _ => _ end = _ => destruct m as [x|] eqn:E
  end.
  - injection H as ->.
    apply rep_from_k in E. destruct E as [s2 E].
    destruct (strip_prefix nl s2) as [s3|]; [|discriminate].
    apply fence_tail in E. exact E.
  - destruct (strip_prefix nl s1) as [s3|]; [|discriminate].
    apply fence_tail in H. exact H.
Qed.

(** The code of every block [_extract_code_blocks] finds holds no
    fence. *)
Lemma code_blocks_no_fence (text : string) (b : CodeBlock) :
  In b (code_blocks_of text) -> contains "```" (b_code b) = false.
Proof.
  unfold code_blocks_of. intro H. apply in_map_iff in H.
  destruct H as [m [<- H]].
  apply findall_groups in H. destruct H as [t [t' H]].
  apply code_block_no_fence in H. destruct H as [c [G C]].
  unfold block_of, group_text, m_group; simpl. rewrite G.
  destruct (contains "```" (strip c)) eqn:S; [|reflexivity].
  apply contains_strip in S. congruence.
Qed.

Lemma dict_get_set_same (k : string) (v : pyval) (d : pydict) :
  dict_get k (dict_set k v d) = Some v.
Proof.
  induction d as [|[k' v'] d IH]; simpl.
  - rewrite String.eqb_refl. reflexivity.
  - destruct (String.eqb_spec k k') as [E|N]; simpl.
    + rewrite String.eqb_refl. reflexivity.
    + rewrite (proj2 (String.eqb_neq k k') N). exact IH.
Qed.

Lemma dict_get_set_other (k k' : string) (v : pyval) (d : pydict) :
  k' <> k -> dict_get k' (dict_set k v d) = dict_get k' d.
Proof.
  intro N. induction d as [|[k0 v0] d IH]; simpl.
  - rewrite (proj2 (String.eqb_neq k' k) N). reflexivity.
  - destruct (String.eqb_spec k k0) as [E|N0]; simpl.
    + subst k0. rewrite (proj2 (String.eqb_neq k' k) N). reflexivity.
    + rewrite IH. reflexivity.
Qed.

Section WithRuntime.
Context (rt : Runtime) (h : Handler).

(** C5.  Without the credential [process_command] returns the fixed
    message with no actions, and leaves the state as it is: no request is
    made and no operation is entered. *)
Theorem not_configured_does_nothing (command : string)
        (context : option string) (env : Env) (s : State) :
  is_configured h = false ->
  exists r s',
    process_command rt h command context env s = (Ok r, s') /\
    response r
    = PStr "⚠️ AI not configured. Please add your GEMINI_API_KEY to the .env file." /\
    actions r = [] /\
    s' = s.
Proof.
  intro H. unfold process_command. rewrite H. simpl.
  exists not_configured, s. repeat split.
Qed.

(** The requests of [create_file] write nothing but the content. *)
Lemma create_file_writes (filename : pyval) (body : string) (env : Env)
      (s : State) :
  exists result s' rest,
    ActionExecutor.create_file rt filename (PStr body) env s = (Ok result, s')
    /\ trace s' = trace s ++ rest
    /\ calls s' = calls s ++ [CreateFile filename (PStr body)]
    /\ forall path data, In (WriteText path data) rest -> data = body.
Proof.
  unfold ActionExecutor.create_file. rewrite ActionExecutorFacts.invoke_unfold.
  simpl. unfold ActionExecutor.create_file_body, ActionExecutor.write_file.
  destruct filename; simpl; run_monad;
    try (eexists; eexists; exists []; rewrite app_nil_r;
         repeat split; simpl; tauto).
  repeat ask_env;
    eexists; eexists; eexists; (split; [reflexivity|]); simpl;
    (split; [try rewrite <- app_assoc; reflexivity|]);
    (split; [reflexivity|]);
    intros path data; simpl; intuition (try discriminate; congruence).
Qed.

(** A [create_file] step whose content is empty (missing, null, the
    empty string or another false value): the first request is the one
    for content, made of the intent of the plan; the operation entered is
    [create_file] with, as content, the stripped group 2 of the first
    match of the pattern of [_extract_code_blocks] in the reply, and the
    reply as it is when the pattern has no match; nothing else is written
    to a file during the step; and when the pattern has a match, the
    content holds no fence. *)
Lemma empty_content_is_generated
        (plan action intent : pyval) (d p : pydict) (reply : string)
        (action_results : list ActionResult) (env : Env) (s : State) :
  action = PDict d ->
  dict_get "type" d = Some (PStr "create_file") ->
  py_get action "params" (PDict []) = Ok (PDict p) ->
  truthy (match dict_get "content" p with Some c => c | None => PNone end)
    = false ->
  py_getitem plan "intent" = Ok intent ->
  env (GenerateContent (model_name h) (code_prompt (py_format rt intent)))
      (trace s) = Ok (Some reply) ->
  let file_body :=
    match findall code_block_re reply with
    | m :: _ => strip (group_text 2 m)
    | [] => reply
    end in
  let filename :=
    match dict_get "filename" p with
    | Some f => f
    | None => PStr "script.py"
    end in
  exists result s' rest,
    run_action rt h plan action_results action env s
      = (Ok (action_results ++ [result]), s') /\
    trace s'
      = trace s
        ++ GenerateContent (model_name h) (code_prompt (py_format rt intent))
        :: rest /\
    calls s' = calls s ++ [CreateFile filename (PStr file_body)] /\
    (forall path data, In (WriteText path data) rest -> data = file_body) /\
    (findall code_block_re reply <> [] -> contains "```" file_body = false).
Proof.
  intros -> Htype Hparams Hempty Hintent Hreply file_body filename.
  assert (Hblocks :
    match code_blocks_of reply with
    | b :: _ => b_code b
    | [] => reply
    end = file_body).
  { unfold code_blocks_of, file_body.
    destruct (findall code_block_re reply); reflexivity. }
  destruct (create_file_writes filename file_body env
              (set_trace (trace s ++ [GenerateContent (model_name h)
                                        (code_prompt (py_format rt intent))]) s))
    as [result [s' [rest [Hrun [Htrace [Hcalls Hwrites]]]]]].
  exists result, s', rest.
  split; [|split; [|split; [|split]]].
  - unfold run_action. simpl py_get at 1. rewrite Htype.
    rewrite Hparams.
    change (eq_str (PStr "create_file") "create_file") with true.
    unfold generate_content_for.
    run_monad. rewrite Hempty. simpl. rewrite Hintent. rewrite Hreply. simpl.
    destruct (code_blocks_of reply) as [|b l]; simpl in Hblocks; simpl;
      rewrite Hblocks, dict_get_set_same;
      rewrite dict_get_set_other by discriminate;
      fold filename; rewrite Hrun; reflexivity.
  - rewrite Htrace. simpl. rewrite <- app_assoc. reflexivity.
  - exact Hcalls.
  - exact Hwrites.
  - intro N. rewrite <- Hblocks.
    destruct (code_blocks_of reply) as [|b l] eqn:B.
    + unfold code_blocks_of in B. destruct (findall code_block_re reply);
        [congruence|discriminate].
    + apply (code_blocks_no_fence reply). rewrite B. left. reflexivity.
Qed.

(** One turn of the loop on a well-formed step: an operation is entered,
    and a result added, exactly when the tag has a branch. *)
Lemma run_action_step (plan action : pyval)
      (action_results : list ActionResult) (env : Env) (s : State) :
  (exists intent, py_getitem plan "intent" = Ok intent) ->
  model_answers env ->
  step_ok action ->
  exists results s' (entered_calls : list call),
    run_action rt h plan action_results action env s
      = (Ok (action_results ++ results), s') /\
    calls s' = calls s ++ entered_calls /\
    map call_tag entered_calls = filter is_dispatched [tag_of action] /\
    List.length results = List.length entered_calls.
Proof.
  intros [intent Hintent] Hmodel [d [tag [-> [Htype [Hin Hparams]]]]].
  assert (Hp : exists p, py_get (PDict d) "params" (PDict []) = Ok (PDict p)).
  { simpl. destruct Hparams as [E|[p E]]; rewrite E; eauto. }
  destruct Hp as [p Hp].
  unfold run_action, tag_of. simpl py_get at 1. rewrite Htype, Hp.
  simpl in Hin.
  repeat (destruct Hin as [<-|Hin]); [ | | | | | | | | | | | | | tauto];
    repeat match goal with
           | |- context [eq_str (PStr ?a) ?b] =>
               let v := eval vm_compute in (eq_str (PStr a) b) in
               change (eq_str (PStr a) b) with v
           end;
    cbv iota;
    unfold ActionExecutor.open_idle, ActionExecutor.open_vscode,
      ActionExecutor.run_python_code, ActionExecutor.execute_command,
      ActionExecutor.open_youtube, ActionExecutor.open_browser,
      ActionExecutor.google_search, ActionExecutor.open_application;
    try (run_monad;
         match goal with
         | |- context [ActionExecutor.invoke rt ?c ?env ?s] =>
             destruct (ActionExecutorFacts.invoke_returns rt c env s)
               as [r [s1 [E C]]];
             rewrite E; exists [r], s1, [c]; repeat split; exact C
         end);
    try solve [exists [], s, []; rewrite !app_nil_r; repeat split].
  (* create_file *)
  run_monad.
  destruct (truthy match dict_get "content" p with
                   | Some x => x
                   | None => PNone
                   end) eqn:Hcontent; simpl.
  - unfold ActionExecutor.create_file.
    match goal with
    | |- context [ActionExecutor.invoke rt ?c ?env ?s] =>
        destruct (ActionExecutorFacts.invoke_returns rt c env s)
          as [r [s1 [E C]]];
        rewrite E; exists [r], s1, [c]; repeat split; exact C
    end.
  - unfold generate_content_for. run_monad. rewrite Hintent.
    destruct (Hmodel (model_name h) (code_prompt (py_format rt intent))
                (trace s)) as [reply Hreply].
    rewrite Hreply. simpl.
    unfold ActionExecutor.create_file.
    destruct (code_blocks_of reply) as [|b l]; simpl;
      match goal with
      | |- context [ActionExecutor.invoke rt ?c ?env ?s] =>
          destruct (ActionExecutorFacts.invoke_returns rt c env s)
            as [r [s1 [E C]]];
          rewrite E; exists [r], s1, [c]; repeat split; exact C
      end.
Qed.

(** The loop on well-formed steps, from any results gathered so far. *)
Lemma run_actions_from (plan : pyval) (todo : list pyval) :
  (exists intent, py_getitem plan "intent" = Ok intent) ->
  forall env, model_answers env ->
  Forall step_ok todo ->
  forall action_results s,
  exists results s' (entered_calls : list call),
    run_actions rt h plan todo action_results env s
      = (Ok (action_results ++ results), s') /\
    calls s' = calls s ++ entered_calls /\
    map call_tag entered_calls = filter is_dispatched (map tag_of todo) /\
    List.length results = List.length entered_calls.
Proof.
  intros Hintent env Hmodel Hsteps.
  induction Hsteps as [|action rest Hstep Hrest IH]; intros acc s.
  - exists [], s, []. simpl. rewrite !app_nil_r. repeat split.
  - destruct (run_action_step plan action acc env s Hintent Hmodel Hstep)
      as [rs1 [s1 [cs1 [E1 [C1 [T1 L1]]]]]].
    destruct (IH (acc ++ rs1) s1) as [rs2 [s2 [cs2 [E2 [C2 [T2 L2]]]]]].
    exists (rs1 ++ rs2), s2, (cs1 ++ cs2).
    split; [|split; [|split]].
    + simpl. unfold bind. rewrite E1, E2, app_assoc. reflexivity.
    + rewrite C2, C1, app_assoc. reflexivity.
    + rewrite map_app, T1, T2. simpl.
      destruct (is_dispatched (tag_of action)); reflexivity.
    + rewrite !length_app. congruence.
Qed.

(** C1, as the code has it.  On a plan with an intent whose steps are
    well formed, with the model answering the requests for content, the
    executor runs the plan to its end and enters, in the order of the
    plan and once each, the operations of the steps tagged create_file,
    open_idle, open_vscode, run_code, execute_command, open_youtube,
    open_browser, google_search and open_application, with one result for
    each; the steps tagged list_files, read_file, delete_file and
    just_respond enter no operation and add no result. *)
Theorem plan_executed (plan : pyval) (todo : list pyval) (env : Env)
        (s : State) :
  (exists intent, py_getitem plan "intent" = Ok intent) ->
  model_answers env ->
  Forall step_ok todo ->
  executes rt h env s plan todo (filter is_dispatched (map tag_of todo)).
Proof.
  intros Hintent Hmodel Hsteps.
  destruct (run_actions_from plan todo Hintent env Hmodel Hsteps [] s)
    as [rs [s' [cs [E [C [T L]]]]]].
  exists rs, s', cs. repeat split; auto.
  rewrite <- T, length_map. exact L.
Qed.

(** A reply without braces gives the fallback plan: one step, tagged
    just_respond, and the reply as response. *)
Lemma no_json_fallback (analysis_text : string) :
  search json_re analysis_text = None ->
  plan_of rt analysis_text
  = Ok (PDict [ ("intent", PStr "respond");
                ("actions", PList [PDict [("type", PStr "just_respond")]]);
                ("response", PStr analysis_text) ]).
Proof. intro H. unfold plan_of. rewrite H. reflexivity. Qed.

(** A reply with braces around a text [json.loads] rejects gives no plan:
    the exception ends the [try] block, and the result is the one of the
    handler. *)
Lemma bad_json_is_an_error (command : string) (context : option string)
      (env : Env) (s : State) (analysis_text : string) (json_match : rmatch)
      (e : exn) :
  is_configured h = true ->
  env (GenerateContent (model_name h)
         (analysis_prompt (UserMemory.get_context_for_ai (memory s)) command))
      (trace s) = Ok (Some analysis_text) ->
  search json_re analysis_text = Some json_match ->
  json_loads rt (m_text json_match) = Raise e ->
  fst (process_command rt h command context env s) = Ok (error_result e).
Proof.
  intros Hc Hreply Hsearch Hloads.
  unfold process_command. rewrite Hc. simpl.
  unfold process_command_body, plan_of; run_monad.
  rewrite Hreply. simpl. rewrite Hsearch, Hloads. reflexivity.
Qed.

End WithRuntime.

Lemma quiet_env_answers (reply : string) : model_answers (env_replying reply).
Proof. intros model contents tr. exists reply. reflexivity. Qed.

Lemma sorting_steps_ok : Forall step_ok sorting_steps.
Proof.
  repeat constructor.
  - exists [("type", PStr "create_file");
            ("params", PDict [("filename", PStr "sort.py")])],
      "create_file"%string.
    repeat split; simpl; eauto.
  - exists [("type", PStr "list_files")], "list_files"%string.
    repeat split; simpl; auto 15.
  - exists [("type", PStr "open_idle");
            ("params", PDict [("filename", PStr "sort.py")])],
      "open_idle"%string.
    repeat split; simpl; eauto.
Qed.

(** The plan of three steps: the file is created and the editor opened;
    the listing is passed over. *)
Lemma plan_executed_witness :
  (exists intent, py_getitem sorting_plan "intent" = Ok intent) /\
  model_answers quiet_env /\
  Forall step_ok sorting_steps /\
  executes sample_runtime sample_handler quiet_env fresh sorting_plan
    sorting_steps ["create_file"; "open_idle"]%string.
Proof.
  assert (H1 : exists intent, py_getitem sorting_plan "intent" = Ok intent)
    by (eexists; reflexivity).
  repeat split;
    [ exact H1 | exact (quiet_env_answers "ok") | exact sorting_steps_ok
    | exact (plan_executed sample_runtime sample_handler sorting_plan
               sorting_steps quiet_env fresh H1 (quiet_env_answers "ok")
               sorting_steps_ok) ].
Defined.

(** C1, as stated, fails on a plan whose one step is tagged list_files:
    the step is well formed and its tag is one of the fixed set, and the
    executor enters no operation and adds no result for it. *)
Lemma list_files_step_is_skipped :
  let steps := [PDict [("type", PStr "list_files")]] in
  Forall step_ok steps /\
  In (tag_of (PDict [("type", PStr "list_files")])) declared_tags /\
  ~ executes sample_runtime sample_handler quiet_env fresh list_files_plan
      steps (map tag_of steps).
Proof.
  split; [|split].
  - repeat constructor.
    exists [("type", PStr "list_files")], "list_files"%string.
    repeat split; simpl; auto 15.
  - simpl; auto 15.
  - intros [results [s' [cs [Hrun [_ [_ Hlen]]]]]].
    vm_compute in Hrun. injection Hrun as <- _.
    simpl in Hlen. discriminate.
Qed.

(** The first step of the plan of three steps, with a reply that holds a
    code block. *)
Lemma empty_content_is_generated_witness :
  let action := PDict [("type", PStr "create_file");
                       ("params", PDict [("filename", PStr "sort.py")])] in
  let env := env_replying sorting_reply in
  let prompt := code_prompt "sort a list" in
  exists result s' rest,
    run_action sample_runtime sample_handler sorting_plan [] action env fresh
      = (Ok ([] ++ [result]), s') /\
    trace s'
      = trace fresh ++ GenerateContent (model_name sample_handler) prompt
        :: rest /\
    calls s'
      = calls fresh
        ++ [CreateFile (PStr "sort.py") (PStr "print(sorted([3, 1, 2]))")] /\
    (forall path data, In (WriteText path data) rest ->
                       data = "print(sorted([3, 1, 2]))"%string) /\
    (findall code_block_re sorting_reply <> [] ->
     contains "```" "print(sorted([3, 1, 2]))" = false).
Proof.
  exact (empty_content_is_generated sample_runtime sample_handler
           sorting_plan
           (PDict [("type", PStr "create_file");
                   ("params", PDict [("filename", PStr "sort.py")])])
           (PStr "sort a list")
           [("type", PStr "create_file");
            ("params", PDict [("filename", PStr "sort.py")])]
           [("filename", PStr "sort.py")]
           sorting_reply [] (env_replying sorting_reply) fresh
           eq_refl eq_refl eq_refl eq_refl eq_refl eq_refl).
Defined.

(** A handler made without a credential. *)
Lemma not_configured_does_nothing_witness :
  is_configured (new_handler None) = false /\
  exists r s',
    process_command sample_runtime (new_handler None) "open youtube" None
      quiet_env fresh = (Ok r, s') /\
    response r
    = PStr "⚠️ AI not configured. Please add your GEMINI_API_KEY to the .env file." /\
    actions r = [] /\
    s' = fresh.
Proof.
  split; [reflexivity|].
  exact (not_configured_does_nothing sample_runtime (new_handler None)
           "open youtube" None quiet_env fresh eq_refl).
Defined.

(** C4.  A [create_file] step with no content, answered by the model with
    the fenced block [cpp_reply], whose fence carries the tag [c++]: the
    request for content is made of the intent of the plan, the pattern of
    [_extract_code_blocks] finds no block in the reply, since it allows
    word characters only between the fence and the end of the line, and
    the reply is written to the file as it is, with both fences.  The
    pattern finds no block either when a blank or a carriage return
    follows the tag. *)
Lemma fenced_reply_is_written_with_fences :
  code_blocks_of cpp_reply = [] /\
  code_blocks_of ("```python " ++ nl ++ "print(1)" ++ nl ++ "```") = [] /\
  code_blocks_of ("```python" ++ String (ascii_of_N 13) nl ++ "print(1)"
                    ++ String (ascii_of_N 13) nl ++ "```") = [] /\
  exists result s',
    run_action sample_runtime sample_handler cpp_plan [] cpp_step
      (env_replying cpp_reply) fresh = (Ok [result], s') /\
    success result = true /\
    calls s' = [CreateFile (PStr "main.cpp") (PStr cpp_reply)] /\
    trace s'
    = [ GenerateContent (Some "models/gemini-flash-latest")
          "Write clean, well-commented Python code for: a C++ program that does nothing";
        OpenWrite "/home/riya/AI_Workspace/main.cpp";
        WriteText "/home/riya/AI_Workspace/main.cpp" cpp_reply ] /\
    starts_with "```c++" cpp_reply = true /\
    contains "```" (drop 6 cpp_reply) = true.
Proof.
  split; [reflexivity|]. split; [reflexivity|]. split; [reflexivity|].
  eexists; eexists. split; [vm_compute; reflexivity|].
  repeat split.
Qed.

(** C2.  A reply with braces around a text that is not JSON: the text
    between the braces is extracted, [json.loads] rejects it, and
    [process_command] returns the error of the decoder with no actions,
    not a plan of one step that carries the reply. *)
Lemma unparseable_reply_is_an_error :
  let reply := "Sure! {open the pod bay doors}"%string in
  let error := "Expecting property name enclosed in double quotes: line 1 column 2 (char 1)"%string in
  option_map m_text (search json_re reply)
  = Some "{open the pod bay doors}"%string /\
  json_loads sample_runtime "{open the pod bay doors}"
  = Raise (mk_exn OtherException error) /\
  fst (process_command sample_runtime sample_handler "hello" None
         (env_replying reply) fresh)
  = Ok (mk_command_result (PStr ("❌ Error: " ++ error)) None None []).
Proof. vm_compute. repeat split. Qed.

End EnhancedAIHandlerFacts.

(* ===================================================================== *)
(** * Facts about requests and about the memory under a computation *)
(* ===================================================================== *)

Module EffectFacts.
Import Py Model Spec.
Local Open Scope list_scope.

Section Requests.
Context (P : request -> bool).

Lemma only_ret {A} (a : A) : only_requests P (ret a).
Proof. intros env s. exists []. rewrite app_nil_r. auto. Qed.

Lemma only_raise {A} (e : exn) : only_requests P (@raise A e).
Proof. intros env s. exists []. rewrite app_nil_r. auto. Qed.

Lemma only_lift {A} (o : outcome A) : only_requests P (lift o).
Proof. intros env s. exists []. rewrite app_nil_r. auto. Qed.

Lemma only_get_state : only_requests P get_state.
Proof. intros env s. exists []. rewrite app_nil_r. auto. Qed.

Lemma only_modify (f : State -> State) :
  (forall s, trace (f s) = trace s) -> only_requests P (modify f).
Proof.
  intros H env s. exists []. rewrite app_nil_r. simpl. auto.
Qed.

Lemma only_perform (r : request) :
  P r = true -> only_requests P (perform r).
Proof.
  intros H env s. exists [r]. simpl. rewrite H. auto.
Qed.

Lemma only_bind {A B} (m : M A) (f : A -> M B) :
  only_requests P m -> (forall a, only_requests P (f a)) ->
  only_requests P (bind m f).
Proof.
  intros Hm Hf env s. unfold bind.
  destruct (Hm env s) as [r1 [E1 F1]].
  destruct (m env s) as [[a|e] s1]; simpl in *.
  - destruct (Hf a env s1) as [r2 [E2 F2]].
    exists (r1 ++ r2). rewrite E2, E1, app_assoc, forallb_app, F1, F2. auto.
  - exists r1. auto.
Qed.

Lemma only_try_except {A} (m : M A) (h : exn -> M A) :
  only_requests P m -> (forall e, only_requests P (h e)) ->
  only_requests P (try_except m h).
Proof.
  intros Hm Hh env s. unfold try_except.
  destruct (Hm env s) as [r1 [E1 F1]].
  destruct (m env s) as [[a|e] s1]; simpl in *.
  - exists r1. auto.
  - destruct (Hh e env s1) as [r2 [E2 F2]].
    exists (r1 ++ r2). rewrite E2, E1, app_assoc, forallb_app, F1, F2. auto.
Qed.

End Requests.

Section Memory.
Context (R : Memory -> Memory -> Prop).
Hypothesis R_refl : forall a, R a a.
Hypothesis R_trans : forall a b c, R a b -> R b c -> R a c.

Lemma moves_ret {A} (a : A) : memory_moves R (ret a).
Proof. intros env s. apply R_refl. Qed.

Lemma moves_raise {A} (e : exn) : memory_moves R (@raise A e).
Proof. intros env s. apply R_refl. Qed.

Lemma moves_lift {A} (o : outcome A) : memory_moves R (lift o).
Proof. intros env s. apply R_refl. Qed.

Lemma moves_get_state : memory_moves R get_state.
Proof. intros env s. apply R_refl. Qed.

Lemma moves_perform (r : request) : memory_moves R (perform r).
Proof. intros env s. apply R_refl. Qed.

Lemma moves_modify (f : State -> State) :
  (forall s, R (memory s) (memory (f s))) -> memory_moves R (modify f).
Proof. intros H env s. apply H. Qed.

Lemma moves_bind {A B} (m : M A) (f : A -> M B) :
  memory_moves R m -> (forall a, memory_moves R (f a)) ->
  memory_moves R (bind m f).
Proof.
  intros Hm Hf env s. unfold bind.
  specialize (Hm env s).
  destruct (m env s) as [[a|e] s1]; simpl in *.
  - eapply R_trans; [exact Hm | apply Hf].
  - exact Hm.
Qed.

Lemma moves_try_except {A} (m : M A) (h : exn -> M A) :
  memory_moves R m -> (forall e, memory_moves R (h e)) ->
  memory_moves R (try_except m h).
Proof.
  intros Hm Hh env s. unfold try_except.
  specialize (Hm env s).
  destruct (m env s) as [[a|e] s1]; simpl in *.
  - exact Hm.
  - eapply R_trans; [exact Hm | apply Hh].
Qed.

End Memory.

Section Returns.
Context (env : Env).

Lemma returns_ret {A} (a : A) : never_raises env (ret a).
Proof. intro s. exists a. reflexivity. Qed.

Lemma returns_get_state : never_raises env get_state.
Proof. intro s. exists s. reflexivity. Qed.

Lemma returns_modify (f : State -> State) : never_raises env (modify f).
Proof. intro s. exists tt. reflexivity. Qed.

Lemma returns_lift {A} (a : A) : never_raises env (lift (Ok a)).
Proof. intro s. exists a. reflexivity. Qed.

Lemma returns_perform (r : request) :
  (forall tr, exists a, env r tr = Ok a) -> never_raises env (perform r).
Proof.
  intros H s. destruct (H (trace s)) as [a E]. exists a.
  unfold perform. simpl. exact E.
Qed.

Lemma returns_bind {A B} (m : M A) (f : A -> M B) :
  never_raises env m -> (forall a, never_raises env (f a)) ->
  never_raises env (bind m f).
Proof.
  intros Hm Hf s. unfold bind.
  destruct (Hm s) as [a E].
  destruct (m env s) as [[a'|e] s1]; simpl in E; [|discriminate].
  apply Hf.
Qed.

(** A [try] block with a handler that returns, returns. *)
Lemma returns_try_except {A} (m : M A) (h : exn -> M A) :
  (forall e, never_raises env (h e)) -> never_raises env (try_except m h).
Proof.
  intros Hh s. unfold try_except.
  destruct (m env s) as [[a|e] s1]; simpl.
  - exists a. reflexivity.
  - apply Hh.
Qed.

End Returns.

(** A computation that moves the memory along [R1], followed by one that
    moves it along [R2]. *)
Lemma moves_bind_mixed (R1 R2 R3 : Memory -> Memory -> Prop) {A B}
      (m : M A) (f : A -> M B) :
  (forall a b, R1 a b -> R3 a b) ->
  (forall a b c, R1 a b -> R2 b c -> R3 a c) ->
  memory_moves R1 m -> (forall a, memory_moves R2 (f a)) ->
  memory_moves R3 (bind m f).
Proof.
  intros H13 H123 Hm Hf env s. unfold bind.
  specialize (Hm env s).
  destruct (m env s) as [[a|e] s1]; simpl in *.
  - eapply H123; [exact Hm | apply Hf].
  - apply H13. exact Hm.
Qed.

End EffectFacts.

(** Goals [only_requests P m], by the structure of [m]; the requests
    themselves are checked by computation. *)
Ltac only_requests_tac :=
  repeat first
    [ apply EffectFacts.only_ret
    | apply EffectFacts.only_raise
    | apply EffectFacts.only_lift
    | apply EffectFacts.only_get_state
    | apply EffectFacts.only_modify; reflexivity
    | apply EffectFacts.only_perform; reflexivity
    | apply EffectFacts.only_bind; [|intro]
    | apply EffectFacts.only_try_except; [|intro]
    | match goal with
      | |- Spec.only_requests _ (if ?b then _ else _) => destruct b
      | |- Spec.only_requests _ (match ?x with _ => _ end) => destruct x
      end ].

(** Goals [memory_moves R m] for a reflexive and transitive [R], given as
    [Hrefl] and [Htrans]. *)
Ltac memory_moves_tac Hrefl Htrans :=
  repeat first
    [ apply (EffectFacts.moves_ret _ Hrefl)
    | apply (EffectFacts.moves_raise _ Hrefl)
    | apply (EffectFacts.moves_lift _ Hrefl)
    | apply (EffectFacts.moves_get_state _ Hrefl)
    | apply (EffectFacts.moves_perform _ Hrefl)
    | apply EffectFacts.moves_modify; intro; apply Hrefl
    | apply (EffectFacts.moves_bind _ Htrans); [|intro]
    | apply (EffectFacts.moves_try_except _ Htrans); [|intro]
    | match goal with
      | |- Spec.memory_moves _ (if ?b then _ else _) => destruct b
      | |- Spec.memory_moves _ (match ?x with _ => _ end) => destruct x
      end ].

(* ===================================================================== *)
(** * More facts about the matcher and about strings *)
(* ===================================================================== *)

Module WordFacts.
Import PyStr Re Spec StringFacts ReFacts.

Lemma contains_weaken_l (x a b : string) :
  contains x b = true -> contains x (a ++ b) = true.
Proof.
  intro H. induction a as [|c a IH]; simpl; [exact H|].
  rewrite IH. apply orb_true_r.
Qed.

(** A greedy run takes characters of its class only. *)
Lemma rep_greedy_run {R : Type} c s (k : string -> option R) x :
  rep_greedy c s k = Some x ->
  exists pre rest,
    s = pre ++ rest /\ k rest = Some x /\ all_chars (cls_match c) pre = true.
Proof.
  induction s as [|a s IH]; simpl; intro H.
  - exists EmptyString, EmptyString. auto.
  - destruct (cls_match c a) eqn:C.
    + destruct (rep_greedy c s k) as [y|] eqn:E.
      * injection H as ->. destruct (IH eq_refl) as [pre [rest [E1 [K A]]]].
        exists (String a pre), rest. simpl. rewrite <- E1, C, A. auto.
      * exists EmptyString, (String a s). auto.
    + exists EmptyString, (String a s). auto.
Qed.

(** The group [(\w+)] holds a run of word characters that is not empty. *)
Lemma word1_exec {R : Type} s g (k : string -> groups -> option R) x :
  exec UserMemory.word1 s g k = Some x ->
  exists w rest,
    k rest ((1, w) :: g) = Some x /\
    w <> EmptyString /\ all_chars is_word w = true.
Proof.
  unfold UserMemory.word1. cbn [exec]. unfold rep.
  destruct s as [|a s]; [discriminate|].
  destruct (cls_match CWord a) eqn:C; [|discriminate].
  intro H. apply rep_greedy_run in H.
  destruct H as [pre [rest [E [K A]]]].
  exists (String a pre), rest. subst s.
  change (String a (pre ++ rest)) with (String a pre ++ rest) in K.
  rewrite consumed_app in K.
  split; [exact K|]. split; [discriminate|].
  simpl. simpl in C. rewrite C. exact A.
Qed.

Lemma is_word_upper_char a :
  is_word a = true ->
  is_word (upper_char a) = true /\ is_lower (upper_char a) = false.
Proof.
  destruct a as [[] [] [] [] [] [] [] []]; vm_compute; intro H;
    first [discriminate | auto].
Qed.

Lemma is_word_lower_char a :
  is_word a = true ->
  is_word (lower_char a) = true /\ is_upper (lower_char a) = false.
Proof.
  destruct a as [[] [] [] [] [] [] [] []]; vm_compute; intro H;
    first [discriminate | auto].
Qed.

Lemma capitalize_word w :
  w <> EmptyString -> all_chars is_word w = true ->
  capitalised_word (capitalize w) = true.
Proof.
  destruct w as [|a w]; [congruence|]. intros _ H. simpl in *.
  apply andb_true_iff in H. destruct H as [Ha Hw].
  destruct (is_word_upper_char a Ha) as [-> ->]. simpl.
  induction w as [|b w IH]; simpl; [reflexivity|].
  simpl in Hw. apply andb_true_iff in Hw. destruct Hw as [Hb Hw].
  destruct (is_word_lower_char b Hb) as [-> ->]. simpl. auto.
Qed.

(** Group 1 of a match of a pattern for names is such a run. *)
Lemma name_pattern_group p t t' g :
  In p UserMemory.name_patterns ->
  match_here p t = Some (t', g) ->
  exists w, group 1 g = Some w /\
            w <> EmptyString /\ all_chars is_word w = true.
Proof.
  unfold match_here. simpl.
  intros [<-|[<-|[<-|[<-|[<-|[]]]]]] H; cbn [exec] in H;
    match type of H with
    | match strip_prefix ?l t with _ => _ end = _ =>
        destruct (strip_prefix l t) as [s1|]; [|discriminate]
    end.
  all: try (apply (word1_exec s1 []) in H;
            destruct H as [w [rest [K [N A]]]];
            cbv beta in K;
            try (destruct (strip_prefix " hoon" rest); [|discriminate]);
            injection K as _ <-; exists w; simpl; auto).
Qed.

End WordFacts.

(* ===================================================================== *)
(** * More facts about user_memory.py *)
(* ===================================================================== *)

Module UserMemoryMore.
Import PyStr Re Py Model Spec UserMemory Scenario.
Import StringFacts ReFacts WordFacts.
Local Open Scope list_scope.

(** ** The patterns *)

Lemma extract_name_loop_word (patterns : list re) (text n : string) :
  (forall p, In p patterns -> In p name_patterns) ->
  extract_name_loop patterns text = Some n ->
  capitalised_word n = true.
Proof.
  induction patterns as [|p rest IH]; simpl; intros Hin H; [discriminate|].
  destruct (search p (lower text)) as [m|] eqn:E.
  - injection H as <-.
    apply search_from_groups in E. destruct E as [t [t' E]].
    apply name_pattern_group in E; [|apply Hin; left; reflexivity].
    destruct E as [w [G [N A]]].
    unfold group1, m_group. rewrite G. apply capitalize_word; assumption.
  - apply IH; [|exact H]. intros q Hq. apply Hin. right. exact Hq.
Qed.

(** X1.  In a text of the ASCII range, a name [_extract_name] finds is one
    capitalised word: it is not empty, holds letters, digits and
    underscores only, does not start with a small letter and has no
    capital letter after its head.  (Outside the ASCII range [\w],
    [lower] and [capitalize] of Python follow Unicode, which the
    character classes here do not.) *)
Theorem extracted_name_is_a_word (text n : string) :
  is_ascii text = true ->
  _extract_name text = Some n -> capitalised_word n = true.
Proof.
  intros _. apply extract_name_loop_word. auto.
Qed.

Lemma extracted_name_is_a_word_witness :
  is_ascii "Hello, I am riya_92 and I code" = true /\
  _extract_name "Hello, I am riya_92 and I code" = Some "Riya_92"%string /\
  capitalised_word "Riya_92" = true.
Proof.
  split; [reflexivity|]. split; [reflexivity|].
  apply (extracted_name_is_a_word "Hello, I am riya_92 and I code");
    reflexivity.
Defined.

(** ** The context *)

Lemma last5_nil {A} (l : list A) : last5 l = [] -> l = [].
Proof.
  unfold last5. intro H.
  assert (L : List.length (skipn (List.length l - 5) l) = 0)
    by (rewrite H; reflexivity).
  rewrite length_skipn in L.
  destruct l as [|a l]; [reflexivity|].
  change (List.length (a :: l)) with (S (List.length l)) in L. lia.
Qed.

Lemma last5_last5 {A} (l : list A) : last5 (last5 l) = last5 l.
Proof.
  unfold last5 at 1.
  replace (List.length (last5 l) - 5) with 0; [reflexivity|].
  unfold last5. rewrite length_skipn. lia.
Qed.

(** X2.  The context depends on the five most recent facts only: it is the
    context of the store that holds those five and no other fact. *)
Theorem context_uses_last_five_facts (mem : Memory) :
  get_context_for_ai mem
  = get_context_for_ai (with_facts (last5 (m_facts mem)) mem)
  /\ List.length (last5 (m_facts mem)) <= 5.
Proof.
  split.
  - unfold get_context_for_ai, with_facts. simpl.
    destruct (m_facts mem) as [|f l] eqn:F; [reflexivity|].
    destruct (last5 (f :: l)) as [|g k] eqn:L.
    + apply last5_nil in L. discriminate.
    + assert (E : last5 (g :: k) = g :: k)
        by (rewrite <- L; apply last5_last5).
      rewrite E. reflexivity.
  - unfold last5. rewrite length_skipn. lia.
Qed.

Lemma concat_lines_contains (lines : list string) (x : string) :
  In x lines -> contains x (String.concat "" lines) = true.
Proof.
  induction lines as [|y rest IH]; simpl; [tauto|].
  intros [->|H].
  - destruct rest.
    + apply (contains_app_end EmptyString).
    + apply (contains_app EmptyString).
  - destruct rest as [|z rest']; [destruct H|].
    apply contains_weaken_l. simpl append. apply IH. exact H.
Qed.

(** X3.  When the store has a name or a fact, the context shows every
    field of the profile that is set (name, occupation, interests) and
    each of the five most recent facts. *)
Theorem context_shows_what_is_set (mem : Memory) :
  set_str (p_name (m_profile mem)) = true \/ m_facts mem <> [] ->
  let context := get_context_for_ai mem in
  (forall n, p_name (m_profile mem) = Some n -> n <> EmptyString ->
             contains ("- Name: " ++ n ++ nl)%string context = true) /\
  (forall o, p_occupation (m_profile mem) = Some o -> o <> EmptyString ->
             contains ("- Occupation: " ++ o ++ nl)%string context = true) /\
  (p_interests (m_profile mem) <> [] ->
   contains ("- Interests: "
               ++ String.concat ", " (p_interests (m_profile mem)) ++ nl)%string
            context = true) /\
  (forall f, In f (last5 (m_facts mem)) ->
             contains ("- " ++ f_content f ++ nl)%string context = true).
Proof.
  intros G context.
  assert (Guard : negb (set_str (p_name (m_profile mem)))
                  && match m_facts mem with [] => true | _ => false end
                  = false).
  { destruct G as [G|G]; [rewrite G; reflexivity|].
    destruct (m_facts mem); [congruence|apply andb_false_r]. }
  unfold context, get_context_for_ai. rewrite Guard.
  repeat split.
  - intros n Hn Nn. rewrite Hn. simpl set_str. simpl text_of.
    apply String.eqb_neq in Nn. rewrite Nn. simpl negb. cbv iota.
    do 2 apply contains_weaken_l. apply contains_weaken_r.
    apply (contains_app_end EmptyString).
  - intros o Ho No. rewrite Ho. simpl set_str. simpl text_of.
    apply String.eqb_neq in No. rewrite No. simpl negb. cbv iota.
    do 3 apply contains_weaken_l. apply contains_weaken_r.
    apply (contains_app_end EmptyString).
  - intro Ni. destruct (p_interests (m_profile mem)) as [|i l] eqn:I;
      [congruence|].
    do 4 apply contains_weaken_l. apply contains_weaken_r.
    apply (contains_app_end EmptyString).
  - intros f Hf.
    destruct (m_facts mem) as [|g l] eqn:F; [destruct Hf|].
    do 8 apply contains_weaken_l.
    apply concat_lines_contains.
    apply (in_map fact_line) in Hf. exact Hf.
Qed.

Lemma context_shows_what_is_set_witness :
  (set_str (p_name (m_profile riya_memory)) = true
   \/ m_facts riya_memory <> []) /\
  contains ("- Occupation: " ++ "doctor" ++ nl)%string
           (get_context_for_ai riya_memory) = true.
Proof.
  split; [left; reflexivity|].
  pose proof (context_shows_what_is_set riya_memory (or_introl eq_refl))
    as H.
  destruct H as [_ [H _]].
  apply (H "doctor"%string eq_refl). discriminate.
Defined.

(** ** Persistence *)

Section WithRuntime.
Context (rt : Runtime).

(** X4.  A save whose three steps go through, then a load that can read
    the file: the load yields the memory that was saved. *)
Theorem save_then_load (env env' : Env) (s s2 : State) :
  let dir := path_dirname rt (memory_file rt) in
  let file := memory_file rt in
  env (Makedirs dir) (trace s) = Ok tt ->
  env (OpenWrite file) (trace s ++ [Makedirs dir]) = Ok tt ->
  env (JsonDump file (memory s)) (trace s ++ [Makedirs dir; OpenWrite file])
    = Ok tt ->
  disk s2 = disk (snd (_save_memory rt env s)) ->
  env' (JsonLoad file) (trace s2) = Ok tt ->
  fst (_load_memory rt env' s2) = Ok (memory s).
Proof.
  intros dir file H1 H2 H3 Hdisk Hload.
  rewrite UserMemoryFacts.save_writes_memory in Hdisk by assumption.
  unfold _load_memory; run_monad. rewrite Hdisk. fold file.
  rewrite Hload. reflexivity.
Qed.

(** X5.  A load never fails: without a file, with a file that is not
    JSON, or when the file cannot be read, it yields the default
    memory. *)
Theorem load_degrades_to_default (env : Env) (s : State) :
  disk s = None \/ disk s = Some FileUnreadable \/
  (exists e, env (JsonLoad (memory_file rt)) (trace s) = Raise e) ->
  _load_memory rt env s
  = (Ok _create_default_memory,
     match disk s with
     | Some _ => set_trace (trace s ++ [JsonLoad (memory_file rt)]) s
     | None => s
     end).
Proof.
  intros [H|[H|[e H]]]; unfold _load_memory; run_monad.
  - rewrite H. reflexivity.
  - rewrite H. destruct (env (JsonLoad _) _); reflexivity.
  - destruct (disk s) as [c|]; [|reflexivity].
    rewrite H. reflexivity.
Qed.

(** X6.  A save that fails is not fatal: while [print] goes through,
    [_save_memory] returns, the memory in the store is as before, the
    failure is printed, and the file is as it was, or truncated, or holds
    the memory. *)
Theorem save_failure_is_not_fatal (env : Env) (s : State) :
  console_works env ->
  let s' := snd (_save_memory rt env s) in
  fst (_save_memory rt env s) = Ok tt /\
  memory s' = memory s /\
  (disk s' = Some (FileJson (memory s)) \/
   (exists text, In (PrintOut ("Error saving memory: " ++ text)%string)
                    (trace s')) /\
   (disk s' = disk s \/ disk s' = Some FileUnreadable)).
Proof.
  intros Hc s'. unfold s', _save_memory; run_monad.
  repeat match goal with
         | |- context [env (PrintOut ?m) ?t] => rewrite (Hc m t); simpl
         | |- context [env ?r ?t] => destruct (env r t); simpl
         end;
    (split; [reflexivity|]); (split; [reflexivity|]);
    first [ left; reflexivity
          | right; split;
            [ eexists; apply in_or_app; right; left; reflexivity
            | first [left; reflexivity | right; reflexivity] ] ].
Qed.

(** ** What [extract_and_store_info] keeps *)

Lemma save_moves (R : Memory -> Memory -> Prop) :
  (forall a, R a a) -> memory_moves R (_save_memory rt).
Proof.
  intros Hrefl env s. rewrite UserMemoryFacts.save_keeps_memory.
  apply Hrefl.
Qed.

Lemma update_moves (R : Memory -> Memory -> Prop) (f : Memory -> Memory) :
  (forall a, R a (f a)) -> memory_moves R (update_memory f).
Proof. intros H env s. apply H. Qed.

Lemma save_returns (env : Env) :
  console_works env -> never_raises env (_save_memory rt).
Proof.
  intro Hc. unfold _save_memory. apply EffectFacts.returns_try_except.
  intro e.
  apply (EffectFacts.returns_perform env
           (PrintOut ("Error saving memory: " ++ exn_str e)%string)).
  intro tr. exists tt. apply Hc.
Qed.

(** While [print] and the clock work, [extract_and_store_info] on a
    response that is a text returns. *)
Lemma extract_returns (user_message ai_response : string) (env : Env) :
  console_works env -> clock_works env ->
  never_raises env
    (extract_and_store_info rt user_message (PStr ai_response)).
Proof.
  intros Hc Hk.
  assert (Hsave := save_returns env Hc).
  assert (Hnow : never_raises env (perform Now)).
  { apply (EffectFacts.returns_perform env Now). exact Hk. }
  unfold extract_and_store_info, when, update_memory.
  repeat first
    [ exact Hsave
    | exact Hnow
    | apply EffectFacts.returns_ret
    | apply EffectFacts.returns_modify
    | apply EffectFacts.returns_bind; [|intro]
    | match goal with
      | |- never_raises _ (lift (fact_context (PStr ?r))) =>
          unfold fact_context; simpl;
          destruct (negb (r =? "")%string);
          apply EffectFacts.returns_lift
      | |- never_raises _ (if ?b then _ else _) => destruct b
      | |- never_raises _ (match ?x with _ => _ end) => destruct x
      end ].
Qed.

(** X7.  While [print] and the clock work and the response is a text,
    [extract_and_store_info] returns, whatever the file system does: a
    failure to persist never fails the command. *)
Theorem extract_survives_disk_failures (user_message ai_response : string)
        (env : Env) (s : State) :
  console_works env -> clock_works env ->
  fst (extract_and_store_info rt user_message (PStr ai_response) env s)
  = Ok tt.
Proof.
  intros Hc Hk.
  destruct (extract_returns user_message ai_response env Hc Hk s) as [[] E].
  exact E.
Qed.

Lemma same_facts_refl a : same_facts a a.
Proof. reflexivity. Qed.

Lemma same_facts_trans a b c :
  same_facts a b -> same_facts b c -> same_facts a c.
Proof. unfold same_facts. congruence. Qed.

Lemma add_interests_same_facts (l : list string) (mem : Memory) :
  same_facts mem (fold_left add_interest l mem).
Proof.
  revert mem. induction l as [|i l IH]; intro mem; simpl; [reflexivity|].
  eapply same_facts_trans; [|apply IH].
  unfold add_interest, same_facts.
  destruct (mem_str i (p_interests (m_profile mem))); reflexivity.
Qed.

Lemma one_more_after_same c a b d :
  same_facts a b -> one_more_fact c b d -> one_more_fact c a d.
Proof.
  unfold same_facts. intros E [extra [F H]]. exists extra.
  rewrite <- E. auto.
Qed.

Lemma same_after_one_more c a b d :
  one_more_fact c a b -> same_facts b d -> one_more_fact c a d.
Proof.
  unfold same_facts. intros [extra [F H]] E. exists extra.
  rewrite E. auto.
Qed.

Lemma same_is_one_more c a b : same_facts a b -> one_more_fact c a b.
Proof.
  unfold same_facts. intro E. exists []. rewrite app_nil_r.
  repeat split; simpl; auto; tauto.
Qed.

(** The three blocks for the name, the occupation and the interests leave
    the facts as they are. *)
Ltac same_facts_tac :=
  unfold when;
  memory_moves_tac same_facts_refl same_facts_trans;
  first [ apply (save_moves same_facts same_facts_refl)
        | apply update_moves; intro; first [reflexivity
                                           | apply add_interests_same_facts] ].

(** X8.  [extract_and_store_info] only appends to the facts: those of the
    store stay as they are and in their order, and at most one is added,
    at the end, with the command as content. *)
Theorem facts_are_append_only (user_message : string) (ai_response : pyval)
        (env : Env) (s : State) :
  one_more_fact user_message (memory s)
    (memory (snd (extract_and_store_info rt user_message ai_response env s))).
Proof.
  revert env s.
  change (memory_moves (one_more_fact user_message)
            (extract_and_store_info rt user_message ai_response)).
  unfold extract_and_store_info.
  apply (EffectFacts.moves_bind_mixed same_facts
           (one_more_fact user_message) (one_more_fact user_message));
    [ apply same_is_one_more | apply one_more_after_same
    | same_facts_tac | intros _ ].
  apply (EffectFacts.moves_bind_mixed same_facts
           (one_more_fact user_message) (one_more_fact user_message));
    [ apply same_is_one_more | apply one_more_after_same
    | same_facts_tac | intros _ ].
  apply (EffectFacts.moves_bind_mixed same_facts
           (one_more_fact user_message) (one_more_fact user_message));
    [ apply same_is_one_more | apply one_more_after_same
    | same_facts_tac | intros _ ].
  unfold when. destruct (_is_personal_info user_message);
    [|intros env s; apply same_is_one_more; reflexivity].
  apply (EffectFacts.moves_bind_mixed same_facts
           (one_more_fact user_message) (one_more_fact user_message));
    [ apply same_is_one_more | apply one_more_after_same
    | apply (EffectFacts.moves_perform _ same_facts_refl) | intro timestamp ].
  apply (EffectFacts.moves_bind_mixed same_facts
           (one_more_fact user_message) (one_more_fact user_message));
    [ apply same_is_one_more | apply one_more_after_same
    | apply (EffectFacts.moves_lift _ same_facts_refl) | intro context ].
  apply (EffectFacts.moves_bind_mixed (one_more_fact user_message)
           same_facts (one_more_fact user_message));
    [ auto | apply same_after_one_more | | intros _ ].
  - apply update_moves. intro a.
    exists [mk_fact user_message timestamp context].
    repeat split; simpl; auto.
    intros f [<-|[]]. reflexivity.
  - same_facts_tac.
Qed.

Lemma interests_kept_refl a : interests_kept a a.
Proof. split; [exists []; rewrite app_nil_r; reflexivity | auto]. Qed.

Lemma interests_kept_trans a b c :
  interests_kept a b -> interests_kept b c -> interests_kept a c.
Proof.
  intros [[x Ex] Nx] [[y Ey] Ny]. split; [|auto].
  exists (x ++ y). rewrite Ey, Ex, app_assoc. reflexivity.
Qed.

Lemma mem_str_false (i : string) (l : list string) :
  mem_str i l = false -> ~ In i l.
Proof.
  unfold mem_str. intros H Hin.
  assert (E : existsb (String.eqb i) l = true).
  { apply existsb_exists. exists i. split; [exact Hin|apply String.eqb_refl]. }
  congruence.
Qed.

Lemma add_interest_kept (mem : Memory) (i : string) :
  interests_kept mem (add_interest mem i).
Proof.
  unfold add_interest.
  destruct (mem_str i (p_interests (m_profile mem))) eqn:E.
  - apply interests_kept_refl.
  - split; simpl.
    + exists [i]. reflexivity.
    + intro N. apply NoDup_app; [exact N|repeat constructor; simpl; tauto|].
      intros a Ha [<-|[]]. apply mem_str_false in E. contradiction.
Qed.

Lemma add_interests_kept (l : list string) (mem : Memory) :
  interests_kept mem (fold_left add_interest l mem).
Proof.
  revert mem. induction l as [|i l IH]; intro mem; simpl.
  - apply interests_kept_refl.
  - eapply interests_kept_trans; [apply add_interest_kept|apply IH].
Qed.

(** X9.  [extract_and_store_info] only appends to the interests: those of
    the store stay as they are and in their order, and when no interest
    stood twice before, none does afterwards. *)
Theorem interests_are_kept_without_duplicates
        (user_message : string) (ai_response : pyval)
        (env : Env) (s : State) :
  interests_kept (memory s)
    (memory (snd (extract_and_store_info rt user_message ai_response env s))).
Proof.
  revert env s.
  change (memory_moves interests_kept
            (extract_and_store_info rt user_message ai_response)).
  unfold extract_and_store_info, when.
  memory_moves_tac interests_kept_refl interests_kept_trans;
    first [ apply (save_moves interests_kept interests_kept_refl)
          | apply update_moves; intro;
            first [ apply interests_kept_refl
                  | apply add_interests_kept
                  | split; [exists []; rewrite app_nil_r; reflexivity
                           | auto] ] ].
Qed.

(** X10.  The store touches no file but its own: every request on a file
    that [extract_and_store_info], [clear_memory] and [_load_memory] make
    names the memory file, or its directory for [os.makedirs]. *)
Theorem memory_touches_its_file_only
        (user_message : string) (ai_response : pyval) :
  only_requests (on_memory_file rt)
    (extract_and_store_info rt user_message ai_response) /\
  only_requests (on_memory_file rt) (clear_memory rt) /\
  only_requests (on_memory_file rt) (_load_memory rt).
Proof.
  assert (Hsave : only_requests (on_memory_file rt) (_save_memory rt)).
  { unfold _save_memory.
    repeat first
      [ apply EffectFacts.only_get_state
      | apply EffectFacts.only_modify; reflexivity
      | apply EffectFacts.only_perform; simpl;
        first [reflexivity | apply String.eqb_refl]
      | apply EffectFacts.only_bind; [|intro]
      | apply EffectFacts.only_try_except; [|intro] ]. }
  repeat split.
  - unfold extract_and_store_info, when, update_memory.
    repeat first
      [ exact Hsave
      | apply EffectFacts.only_ret
      | apply EffectFacts.only_lift
      | apply EffectFacts.only_modify; reflexivity
      | apply EffectFacts.only_perform; reflexivity
      | apply EffectFacts.only_bind; [|intro]
      | match goal with
        | |- only_requests _ (if ?b then _ else _) => destruct b
        | |- only_requests _ (match ?x with _ => _ end) => destruct x
        end ].
  - unfold clear_memory. apply EffectFacts.only_bind; [|intro; exact Hsave].
    apply EffectFacts.only_modify. reflexivity.
  - unfold _load_memory.
    apply EffectFacts.only_bind; [apply EffectFacts.only_get_state|intro s].
    destruct (disk s) as [c|]; [|apply EffectFacts.only_ret].
    apply EffectFacts.only_try_except; [|intro; apply EffectFacts.only_ret].
    apply EffectFacts.only_bind.
    + apply EffectFacts.only_perform. simpl. apply String.eqb_refl.
    + intro. destruct c; [apply EffectFacts.only_ret
                         |apply EffectFacts.only_raise].
Qed.

End WithRuntime.

(** A store that knows Riya, saved and read again by a later process. *)
Lemma save_then_load_witness :
  let s := set_memory riya_memory fresh in
  fst (_load_memory sample_runtime quiet_env
         (set_disk (disk (snd (_save_memory sample_runtime quiet_env s)))
            fresh))
  = Ok riya_memory.
Proof.
  apply (save_then_load sample_runtime quiet_env quiet_env
           (set_memory riya_memory fresh) (set_disk _ fresh));
    reflexivity.
Defined.

(** A start without a memory file. *)
Lemma load_degrades_to_default_witness :
  (disk fresh = None \/ disk fresh = Some FileUnreadable \/
   (exists e, quiet_env (JsonLoad (memory_file sample_runtime)) (trace fresh)
              = Raise e)) /\
  _load_memory sample_runtime quiet_env fresh
  = (Ok _create_default_memory, fresh).
Proof.
  split; [left; reflexivity|].
  exact (load_degrades_to_default sample_runtime quiet_env fresh
           (or_introl eq_refl)).
Defined.

(** A save on a disk that is full. *)
Lemma save_failure_is_not_fatal_witness :
  let env := env_disk_failing (mk_exn OtherException "disk full") in
  let s := set_memory riya_memory fresh in
  console_works env /\
  fst (_save_memory sample_runtime env s) = Ok tt /\
  memory (snd (_save_memory sample_runtime env s)) = riya_memory.
Proof.
  assert (Hc : console_works
                 (env_disk_failing (mk_exn OtherException "disk full")))
    by (intros text tr; reflexivity).
  split; [exact Hc|].
  destruct (save_failure_is_not_fatal sample_runtime
              (env_disk_failing (mk_exn OtherException "disk full"))
              (set_memory riya_memory fresh) Hc) as [H1 [H2 _]].
  split; [exact H1|exact H2].
Defined.

Lemma extract_survives_disk_failures_witness :
  console_works (env_disk_failing (mk_exn OtherException "disk full")) /\
  clock_works (env_disk_failing (mk_exn OtherException "disk full")) /\
  fst (extract_and_store_info sample_runtime "I like chess" (PStr "Noted")
         (env_disk_failing (mk_exn OtherException "disk full")) fresh)
  = Ok tt.
Proof.
  assert (Hc : console_works
                 (env_disk_failing (mk_exn OtherException "disk full")))
    by (intros text tr; reflexivity).
  assert (Hk : clock_works
                 (env_disk_failing (mk_exn OtherException "disk full")))
    by (intro tr; eexists; reflexivity).
  split; [exact Hc|]. split; [exact Hk|].
  exact (extract_survives_disk_failures sample_runtime "I like chess" "Noted"
           _ fresh Hc Hk).
Defined.

End UserMemoryMore.

(* ===================================================================== *)
(** * More facts about action_executor.py *)
(* ===================================================================== *)

Module ActionExecutorMore.
Import PyStr Py Model Spec ActionExecutor Scenario.
Local Open Scope list_scope.

(** The bodies of the operations, unfolded down to the requests. *)
Ltac unfold_bodies :=
  unfold body, create_file_body, open_idle_body, open_notepad_body,
    open_vscode_body, run_python_code_body, execute_command_body,
    list_files_body, read_file_body, open_browser_body, open_youtube_body,
    google_search_body, open_application_body, delete_file_body,
    write_file, new_file_unless_exists, load_browser_automation,
    play_youtube_video, _init_driver, open_search.

Section WithRuntime.
Context (rt : Runtime).




(** ** run_python_code *)

(** X13.  Code that is written to the temporary file and whose process
    ends: the success flag is set exactly when the exit code is 0, the
    message tells success from errors, and the output is the standard
    output, or the error stream when the standard output is empty. *)
Theorem run_python_code_completed (code : string) (env : Env) (s : State)
        (p : CompletedProcess) :
  let temp_file := path_join rt (workspace rt) "_temp_exec.py" in
  let run := SubprocessRun (PList [PStr "python"; PStr temp_file]) false 10 in
  env (OpenWrite temp_file) (trace s) = Ok tt ->
  env (WriteText temp_file code) (trace s ++ [OpenWrite temp_file]) = Ok tt ->
  env run (trace s ++ [OpenWrite temp_file; WriteText temp_file code])
    = Ok p ->
  exists r s',
    run_python_code rt (PStr code) env s = (Ok r, s') /\
    (success r = true <-> returncode p = 0%Z) /\
    message r = (if (returncode p =? 0)%Z
                 then "✅ Code executed successfully"
                 else "⚠️ Code executed with errors")%string /\
    result_get "output" r
    = PStr (if (stdout p =? "")%string then stderr p else stdout p) /\
    result_get "exit_code" r = PInt (returncode p) /\
    trace s'
    = trace s ++ [OpenWrite temp_file; WriteText temp_file code; run].
Proof.
  intros temp_file run H1 H2 H3.
  unfold run_python_code. rewrite ActionExecutorFacts.invoke_unfold.
  simpl. unfold run_python_code_body, write_file; run_monad.
  fold temp_file. rewrite H1. simpl. rewrite H2. simpl.
  rewrite <- app_assoc. simpl. fold run. rewrite H3.
  eexists; eexists. split; [reflexivity|]. simpl.
  split; [apply Z.eqb_eq|]. repeat split.
  rewrite <- !app_assoc. reflexivity.
Qed.

(** X14.  Code whose process exceeds the timeout of 10 seconds: the result
    is a failure with the message for a timeout, whatever the text of the
    exception. *)
Theorem run_python_code_timeout (code : string) (env : Env) (s : State)
        (e : exn) :
  let temp_file := path_join rt (workspace rt) "_temp_exec.py" in
  let run := SubprocessRun (PList [PStr "python"; PStr temp_file]) false 10 in
  env (OpenWrite temp_file) (trace s) = Ok tt ->
  env (WriteText temp_file code) (trace s ++ [OpenWrite temp_file]) = Ok tt ->
  env run (trace s ++ [OpenWrite temp_file; WriteText temp_file code])
    = Raise e ->
  exn_class e = TimeoutExpired ->
  fst (run_python_code rt (PStr code) env s)
  = Ok (mk_result false "❌ Code execution timed out (10s limit)" []).
Proof.
  intros temp_file run H1 H2 H3 Hk.
  unfold run_python_code. rewrite ActionExecutorFacts.invoke_unfold.
  simpl. unfold run_python_code_body, write_file; run_monad.
  fold temp_file. rewrite H1. simpl. rewrite H2. simpl.
  rewrite <- app_assoc. simpl. fold run. rewrite H3. simpl.
  unfold run_python_code_failed, is_timeout. rewrite Hk. reflexivity.
Qed.

(** X15.  Code that is not a string is never run: the temporary file is
    opened, the write is refused, no process is started and the result is
    a failure. *)
Theorem code_that_is_not_text_is_not_run (code : pyval) (env : Env)
        (s : State) :
  not_str code ->
  exists r s' rest,
    run_python_code rt code env s = (Ok r, s') /\
    success r = false /\
    trace s' = trace s ++ rest /\
    forallb (fun q => negb (is_run q)) rest = true.
Proof.
  intro N.
  unfold run_python_code. rewrite ActionExecutorFacts.invoke_unfold.
  simpl. unfold run_python_code_body, write_file.
  destruct code; try (exfalso; eapply N; reflexivity);
    run_monad; ask_env;
    eexists; eexists; eexists;
    (split; [reflexivity|]);
    (split; [first [ reflexivity
                   | apply (ActionExecutorFacts.handler_fails rt
                              (RunPythonCode PNone)) ]|]);
    (split; [reflexivity|]); reflexivity.
Qed.

(** ** Files *)

(** X16.  [create_file], [read_file] and [delete_file] on a file name that
    is not a string make no request: [os.path.join] refuses the name, and
    the result is a failure whose message holds the text of that
    [TypeError], which names the type of the value. *)
Theorem file_name_that_is_not_text (filename content : pyval) (env : Env)
        (s : State) :
  not_str filename ->
  let refused :=
    ("join() argument must be str, bytes, or os.PathLike object, not '"
       ++ type_name filename ++ "'")%string in
  create_file rt filename content env s
  = (Ok (mk_result false ("❌ Error creating file: " ++ refused) []),
     entered (CreateFile filename content) s) /\
  read_file rt filename env s
  = (Ok (mk_result false ("❌ Error reading file: " ++ refused) []),
     entered (ReadFile filename) s) /\
  delete_file rt filename env s
  = (Ok (mk_result false ("❌ Error deleting file: " ++ refused) []),
     entered (DeleteFile filename) s).
Proof.
  intros N refused. unfold refused.
  destruct filename; try (exfalso; eapply N; reflexivity);
    repeat split.
Qed.

(** X17.  [open_idle] and [open_vscode] on a file that exists do not write
    to it: they ask whether it exists and start the editor. *)
Theorem existing_file_is_not_overwritten (filename : string) (env : Env)
        (s : State) :
  filename <> EmptyString ->
  let filepath := path_join rt (workspace rt) filename in
  env (PathExists filepath) (trace s) = Ok true ->
  trace (snd (open_idle rt (PStr filename) env s))
  = trace s ++ [PathExists filepath;
                Popen (idle_args rt [PStr filepath]) true (os_name_nt rt)] /\
  trace (snd (open_vscode rt (PStr filename) env s))
  = trace s ++ [PathExists filepath;
                Popen (PList [PStr "code"; PStr filepath]) true false].
Proof.
  intros N filepath H. apply String.eqb_neq in N.
  unfold open_idle, open_vscode.
  rewrite !ActionExecutorFacts.invoke_unfold.
  unfold body, open_idle_body, open_vscode_body, new_file_unless_exists,
    truthy.
  rewrite N. run_monad. fold filepath. rewrite H. simpl.
  split; ask_env; rewrite <- app_assoc; reflexivity.
Qed.

(** X18.  [open_idle] and [open_vscode] on a file that does not exist
    create it with the line "# New Python File" before they start the
    editor. *)
Theorem missing_file_is_created_first (filename : string) (env : Env)
        (s : State) :
  filename <> EmptyString ->
  let filepath := path_join rt (workspace rt) filename in
  let made := [PathExists filepath; OpenWrite filepath;
               WriteText filepath ("# New Python File" ++ nl)%string] in
  env (PathExists filepath) (trace s) = Ok false ->
  env (OpenWrite filepath) (trace s ++ [PathExists filepath]) = Ok tt ->
  env (WriteText filepath ("# New Python File" ++ nl)%string)
      (trace s ++ [PathExists filepath; OpenWrite filepath]) = Ok tt ->
  trace (snd (open_idle rt (PStr filename) env s))
  = trace s
    ++ made ++ [Popen (idle_args rt [PStr filepath]) true (os_name_nt rt)] /\
  trace (snd (open_vscode rt (PStr filename) env s))
  = trace s
    ++ made ++ [Popen (PList [PStr "code"; PStr filepath]) true false].
Proof.
  intros N filepath made H1 H2 H3. apply String.eqb_neq in N.
  unfold open_idle, open_vscode.
  rewrite !ActionExecutorFacts.invoke_unfold.
  unfold body, open_idle_body, open_vscode_body, new_file_unless_exists,
    truthy.
  rewrite N. run_monad. fold filepath.
  rewrite H1. simpl. rewrite H2. simpl.
  rewrite <- !app_assoc. simpl. simpl in H3. rewrite H3. simpl.
  split; ask_env; unfold made; rewrite <- ?app_assoc; reflexivity.
Qed.

(** ** The browser *)

(** X19.  [open_youtube] when the module of the automation cannot be
    imported: the search page is opened in the default browser, the
    result is a success that carries the address, and the import will be
    tried again by the next call. *)
Theorem youtube_without_automation (search_query : string) (env : Env)
        (s : State) (e : exn) :
  let url := youtube_url (url_quote rt search_query) in
  browser_automation s = None ->
  env (ImportModule "browser_automation") (trace s) = Raise e ->
  exn_class e = ImportError ->
  env (WebbrowserOpen (PStr url))
      (trace s ++ [ImportModule "browser_automation"]) = Ok tt ->
  exists s',
    open_youtube rt (PStr search_query) env s
    = (Ok (mk_result true
             ("✅ YouTube opened with search: " ++ search_query)
             [("url", PStr url);
              ("note", PStr "⚠️ For auto-play, install: pip install -r browser_requirements.txt")]),
       s') /\
    browser_automation s' = None.
Proof.
  intros url Hb Hi Hk Hw.
  unfold open_youtube. rewrite ActionExecutorFacts.invoke_unfold.
  unfold body, open_youtube_body, load_browser_automation, entered;
    run_monad.
  rewrite Hb. simpl. rewrite Hi. simpl. unfold is_import_error. rewrite Hk. simpl.
  rewrite Hb. simpl. fold url. rewrite Hw.
  eexists. split; [reflexivity|]. simpl. exact Hb.
Qed.

Lemma play_youtube_video_no_import (search_query : pyval) :
  only_requests (fun r => negb (is_import_of "browser_automation" r))
    (play_youtube_video rt search_query).
Proof. unfold_bodies. only_requests_tac. Qed.

(** X20.  Once the automation is loaded, [open_youtube] does not import its
    module again. *)
Theorem automation_is_imported_once (search_query : pyval) (env : Env)
        (s : State) (b : BrowserAutomation) :
  browser_automation s = Some b ->
  exists rest,
    trace (snd (open_youtube rt search_query env s)) = trace s ++ rest /\
    forallb (fun r => negb (is_import_of "browser_automation" r)) rest
    = true.
Proof.
  intro Hb.
  unfold open_youtube. rewrite ActionExecutorFacts.invoke_unfold.
  assert (Hb' : browser_automation (entered (OpenYoutube search_query) s)
                = Some b) by exact Hb.
  unfold body, open_youtube_body, load_browser_automation, bind, get_state,
    ret.
  cbv beta. rewrite Hb'. cbv beta iota. rewrite Hb'.
  destruct (play_youtube_video_no_import search_query env
              (entered (OpenYoutube search_query) s)) as [rest [E F]].
  destruct (play_youtube_video rt search_query env
              (entered (OpenYoutube search_query) s)) as [[r|e] s1];
    simpl in *; exists rest; auto.
Qed.

End WithRuntime.

Lemma run_python_code_completed_witness :
  let p := mk_completed "" "NameError: name 'x' is not defined" 1 in
  exists r s',
    run_python_code sample_runtime (PStr "print(x)") (env_running p) fresh
    = (Ok r, s') /\
    success r = false /\
    message r = "⚠️ Code executed with errors"%string /\
    result_get "output" r = PStr "NameError: name 'x' is not defined".
Proof.
  destruct (run_python_code_completed sample_runtime "print(x)"
              (env_running
                 (mk_completed "" "NameError: name 'x' is not defined" 1))
              fresh
              (mk_completed "" "NameError: name 'x' is not defined" 1)
              eq_refl eq_refl eq_refl)
    as [r [s' [E [S [M [O _]]]]]].
  exists r, s'. split; [exact E|]. split.
  - destruct (success r); [|reflexivity].
    destruct S as [S _]. specialize (S eq_refl). discriminate.
  - split; [exact M|exact O].
Defined.

Lemma run_python_code_timeout_witness :
  fst (run_python_code sample_runtime (PStr "while True: pass")
         (env_run_raising
            (mk_exn TimeoutExpired
               "Command '['python', '/home/riya/AI_Workspace/_temp_exec.py']' timed out after 10 seconds"))
         fresh)
  = Ok (mk_result false "❌ Code execution timed out (10s limit)" []).
Proof.
  exact (run_python_code_timeout sample_runtime "while True: pass"
           (env_run_raising
              (mk_exn TimeoutExpired
                 "Command '['python', '/home/riya/AI_Workspace/_temp_exec.py']' timed out after 10 seconds"))
           fresh _ eq_refl eq_refl eq_refl eq_refl).
Defined.

Lemma code_that_is_not_text_is_not_run_witness :
  not_str (PInt 42) /\
  exists r s' rest,
    run_python_code sample_runtime (PInt 42) quiet_env fresh = (Ok r, s') /\
    success r = false /\
    trace s' = trace fresh ++ rest /\
    forallb (fun q => negb (is_run q)) rest = true.
Proof.
  assert (N : not_str (PInt 42)) by (intros t H; discriminate).
  split; [exact N|].
  exact (code_that_is_not_text_is_not_run sample_runtime (PInt 42) quiet_env
           fresh N).
Defined.

Lemma file_name_that_is_not_text_witness :
  not_str PNone /\
  delete_file sample_runtime PNone quiet_env fresh
  = (Ok (mk_result false
           "❌ Error deleting file: join() argument must be str, bytes, or os.PathLike object, not 'NoneType'"
           []),
     entered (DeleteFile PNone) fresh).
Proof.
  assert (N : not_str PNone) by (intros t H; discriminate).
  split; [exact N|].
  exact (proj2 (proj2 (file_name_that_is_not_text sample_runtime PNone PNone
                         quiet_env fresh N))).
Defined.

Lemma existing_file_is_not_overwritten_witness :
  trace (snd (open_vscode sample_runtime (PStr "sort.py") env_file_exists
                fresh))
  = [PathExists "/home/riya/AI_Workspace/sort.py";
     Popen (PList [PStr "code"; PStr "/home/riya/AI_Workspace/sort.py"])
       true false].
Proof.
  assert (N : "sort.py"%string <> EmptyString) by discriminate.
  exact (proj2 (existing_file_is_not_overwritten sample_runtime "sort.py"
                  env_file_exists fresh N eq_refl)).
Defined.

Lemma missing_file_is_created_first_witness :
  trace (snd (open_vscode sample_runtime (PStr "sort.py") quiet_env fresh))
  = [PathExists "/home/riya/AI_Workspace/sort.py";
     OpenWrite "/home/riya/AI_Workspace/sort.py";
     WriteText "/home/riya/AI_Workspace/sort.py"
       ("# New Python File" ++ nl)%string;
     Popen (PList [PStr "code"; PStr "/home/riya/AI_Workspace/sort.py"])
       true false].
Proof.
  assert (N : "sort.py"%string <> EmptyString) by discriminate.
  exact (proj2 (missing_file_is_created_first sample_runtime "sort.py"
                  quiet_env fresh N eq_refl eq_refl eq_refl)).
Defined.

Lemma youtube_without_automation_witness :
  exists s',
    open_youtube sample_runtime (PStr "lofi") env_import_failing fresh
    = (Ok (mk_result true "✅ YouTube opened with search: lofi"
             [("url",
               PStr "https://www.youtube.com/results?search_query=lofi");
              ("note", PStr "⚠️ For auto-play, install: pip install -r browser_requirements.txt")]),
       s') /\
    browser_automation s' = None.
Proof.
  exact (youtube_without_automation sample_runtime "lofi" env_import_failing
           fresh _ eq_refl eq_refl eq_refl eq_refl).
Defined.

Lemma automation_is_imported_once_witness :
  let s := set_browser (Some (mk_browser true)) fresh in
  exists rest,
    trace (snd (open_youtube sample_runtime (PStr "lofi") quiet_env s))
    = trace s ++ rest /\
    forallb (fun r => negb (is_import_of "browser_automation" r)) rest
    = true.
Proof.
  exact (automation_is_imported_once sample_runtime (PStr "lofi") quiet_env
           (set_browser (Some (mk_browser true)) fresh) (mk_browser true)
           eq_refl).
Defined.



End ActionExecutorMore.

(* ===================================================================== *)
(** * More facts about enhanced_ai_handler.py *)
(* ===================================================================== *)

Module EnhancedAIHandlerMore.
Import PyStr Re Py Model Spec EnhancedAIHandler Scenario.
Import StringFacts ReFacts.
Local Open Scope list_scope.

Lemma concat_lines_cons (x : string) (l : list string) :
  String.concat "" (x :: l) = (x ++ String.concat "" l)%string.
Proof.
  destruct l; simpl; [rewrite append_empty_r|]; reflexivity.
Qed.


Section WithRuntime.
Context (rt : Runtime) (h : Handler).

(** X21.  A step whose tag has no branch is passed over, whatever its
    parameters are: no request is made, no operation entered, no result
    added, and the loop goes on. *)
Theorem unknown_tag_is_ignored (plan : pyval) (d : pydict)
        (action_results : list ActionResult) (env : Env) (s : State) :
  (forall tag, In tag dispatched_tags -> eq_str (type_of d) tag = false) ->
  run_action rt h plan action_results (PDict d) env s
  = (Ok action_results, s).
Proof.
  intro H. unfold run_action. simpl py_get. fold (type_of d).
  unfold bind, lift.
  rewrite !H by (simpl; auto 12). reflexivity.
Qed.

(** One turn of the loop on any step: at most one operation is entered,
    and when the turn ends without an exception, one result is added for
    an operation entered and none otherwise. *)
Lemma run_action_any (plan action : pyval)
      (action_results : list ActionResult) (env : Env) (s : State) :
  exists entered_calls : list call,
    calls (snd (run_action rt h plan action_results action env s))
    = calls s ++ entered_calls /\
    List.length entered_calls <= 1 /\
    forall results,
      fst (run_action rt h plan action_results action env s) = Ok results ->
      exists added,
        results = action_results ++ added /\
        List.length added = List.length entered_calls.
Proof.
  assert (Nothing : forall (o : outcome (list ActionResult)),
            (forall results, o = Ok results -> results = action_results) ->
            exists entered_calls : list call,
              calls s = calls s ++ entered_calls /\
              List.length entered_calls <= 1 /\
              forall results, o = Ok results ->
                exists added, results = action_results ++ added /\
                              List.length added = List.length entered_calls).
  { intros o Ho. exists []. rewrite app_nil_r. repeat split; auto.
    intros results E. exists []. rewrite app_nil_r. split; auto. }
  assert (Invoke : forall c s0, calls s0 = calls s ->
            exists entered_calls : list call,
              calls (snd (let (o, s') := ActionExecutor.invoke rt c env s0 in
                          match o with
                          | Ok a => (Ok (action_results ++ [a]), s')
                          | Raise e => (Raise e, s')
                          end))
              = calls s ++ entered_calls /\
              List.length entered_calls <= 1 /\
              forall results,
                fst (let (o, s') := ActionExecutor.invoke rt c env s0 in
                     match o with
                     | Ok a => (Ok (action_results ++ [a]), s')
                     | Raise e => (Raise e, s')
                     end) = Ok results ->
                exists added, results = action_results ++ added /\
                              List.length added = List.length entered_calls).
  { intros c s0 Hs0.
    destruct (ActionExecutorFacts.invoke_returns rt c env s0)
      as [r [s1 [E C]]].
    rewrite E. simpl. exists [c]. rewrite C, Hs0. repeat split; auto.
    intros results R. injection R as <-. exists [r]. auto. }
  unfold run_action, bind, lift.
  destruct (py_get action "type" PNone) as [action_type|e]; simpl;
    [|apply Nothing; discriminate].
  destruct (py_get action "params" (PDict [])) as [params|e]; simpl;
    [|apply Nothing; discriminate].
  unfold ActionExecutor.create_file, ActionExecutor.open_idle,
    ActionExecutor.open_vscode, ActionExecutor.run_python_code,
    ActionExecutor.execute_command, ActionExecutor.open_youtube,
    ActionExecutor.open_browser, ActionExecutor.google_search,
    ActionExecutor.open_application.
  repeat match goal with
         | |- context [if eq_str action_type ?t then _ else _] =>
             destruct (eq_str action_type t)
         end;
    try (match goal with
         | |- context [py_get params ?k ?v] =>
             destruct (py_get params k v); simpl;
             [|apply Nothing; discriminate]
         end;
         first [apply Invoke; reflexivity | idtac]);
    try (apply Nothing; intros results R; injection R as <-; reflexivity).
  (* create_file *)
  destruct (negb (truthy a)).
  - unfold generate_content_for, bind, lift, perform.
    destruct (py_getitem plan "intent"); simpl;
      [|apply Nothing; discriminate].
    destruct (env (GenerateContent _ _) _) as [code_text|e]; simpl;
      [|apply Nothing; discriminate].
    destruct (_extract_code_blocks code_text) as [blocks|e]; simpl;
      [|apply Nothing; discriminate].
    destruct blocks as [|b l];
      (destruct (py_setitem params "content" _) as [params'|e]; simpl;
       [|apply Nothing; discriminate]);
      (destruct (py_get params' "filename" _); simpl;
       [|apply Nothing; discriminate]);
      (destruct (py_get params' "content" _); simpl;
       [|apply Nothing; discriminate]);
      apply Invoke; reflexivity.
  - unfold ret.
    destruct (py_get params "filename" _); simpl;
      [|apply Nothing; discriminate].
    destruct (py_get params "content" _); simpl;
      [|apply Nothing; discriminate].
    apply Invoke; reflexivity.
Qed.

(** X22.  Whatever the plan holds, the executor enters at most one
    operation for each step, and when it reaches the end of the plan its
    results are one for each operation entered, in the same order of
    time, after the results it started with. *)
Theorem results_match_operations (plan : pyval) (todo : list pyval)
        (action_results : list ActionResult) (env : Env) (s : State) :
  exists entered_calls : list call,
    calls (snd (run_actions rt h plan todo action_results env s))
    = calls s ++ entered_calls /\
    List.length entered_calls <= List.length todo /\
    forall results,
      fst (run_actions rt h plan todo action_results env s) = Ok results ->
      exists added,
        results = action_results ++ added /\
        List.length added = List.length entered_calls.
Proof.
  revert action_results s.
  induction todo as [|action rest IH]; intros acc s.
  - exists []. simpl. rewrite app_nil_r. repeat split; auto.
    intros results E. injection E as <-. exists []. rewrite app_nil_r. auto.
  - destruct (run_action_any plan action acc env s) as [cs1 [C1 [L1 R1]]].
    simpl run_actions. unfold bind.
    destruct (run_action rt h plan acc action env s) as [[acc1|e] s1];
      simpl in *.
    + destruct (R1 acc1 eq_refl) as [added1 [-> A1]].
      destruct (IH (acc ++ added1) s1) as [cs2 [C2 [L2 R2]]].
      exists (cs1 ++ cs2). rewrite C2, C1, app_assoc.
      split; [reflexivity|]. split; [rewrite length_app; lia|].
      intros results E. destruct (R2 results E) as [added2 [-> A2]].
      exists (added1 ++ added2). rewrite app_assoc, !length_app. auto.
    + exists cs1. split; [exact C1|]. split; [lia|]. discriminate.
Qed.

(** ** The response *)

Lemma add_results_text (text : string) (results : list ActionResult) :
  add_results rt (PStr text) results
  = Ok (PStr (text ++ String.concat "" (map (result_lines rt) results))).
Proof.
  revert text. induction results as [|r rest IH]; intro text.
  - simpl. rewrite append_empty_r. reflexivity.
  - rewrite map_cons, concat_lines_cons.
    cbn [add_results add_result py_iadd_str]. unfold result_lines.
    destruct (truthy (result_get "output" r));
      cbn [py_iadd_str]; rewrite IH;
      rewrite ?append_empty_r, <- ?append_assoc; reflexivity.
Qed.

(** X23.  For a plan whose response is a text, the final response is that
    text alone when no operation ran, and otherwise that text, the
    heading, and for every result in order a line with its message,
    followed by a line with its output when it has one.  No result is
    left out, failed or not. *)
Theorem response_lists_every_result (plan : pyval) (explanation : string)
        (results : list ActionResult) :
  py_get plan "response" (PStr "Done!") = Ok (PStr explanation) ->
  build_response rt plan results
  = Ok (PStr (match results with
              | [] => explanation
              | _ => explanation ++ nl ++ nl ++ "**Actions Performed:**" ++ nl
                       ++ String.concat "" (map (result_lines rt) results)
              end)%string).
Proof.
  intro H. unfold build_response. rewrite H.
  destruct results as [|r rest]; [reflexivity|].
  cbn [py_iadd_str]. rewrite add_results_text.
  rewrite <- !append_assoc. reflexivity.
Qed.

(** ** process_command *)

(** X24.  When the call to the model raises an exception, the command ends
    there: the reply is the error reply, with the text about the quota
    when the text of the exception holds "429", "RESOURCE_EXHAUSTED" or,
    in any letter case, "quota"; no operation is entered and the memory
    is as before. *)
Theorem model_failure_is_reported (command : string)
        (context : option string) (env : Env) (s : State) (e : exn) :
  let prompt :=
    analysis_prompt (UserMemory.get_context_for_ai (memory s)) command in
  is_configured h = true ->
  env (GenerateContent (model_name h) prompt) (trace s) = Raise e ->
  process_command rt h command context env s
  = (Ok (error_result e),
     set_trace (trace s ++ [GenerateContent (model_name h) prompt]) s) /\
  actions (error_result e) = [] /\
  (contains "429" (exn_str e) = true \/
   contains "quota" (lower (exn_str e)) = true \/
   contains "RESOURCE_EXHAUSTED" (exn_str e) = true ->
   error_result e = quota_reached).
Proof.
  intros prompt Hc He. repeat split.
  - unfold process_command. rewrite Hc. simpl.
    unfold process_command_body; run_monad. fold prompt. rewrite He.
    reflexivity.
  - unfold error_result.
    destruct (contains "429" (exn_str e)
              || contains "quota" (lower (exn_str e))
              || contains "RESOURCE_EXHAUSTED" (exn_str e)); reflexivity.
  - intro H. unfold error_result.
    destruct H as [H|[H|H]]; rewrite H; rewrite ?orb_true_r; reflexivity.
Qed.



(** The loop over a plan in two parts. *)
Lemma run_actions_app (plan : pyval) (done rest : list pyval)
      (action_results : list ActionResult) (env : Env) (s : State) :
  run_actions rt h plan (done ++ rest) action_results env s
  = match run_actions rt h plan done action_results env s with
    | (Ok results, s') => run_actions rt h plan rest results env s'
    | (Raise e, s') => (Raise e, s')
    end.
Proof.
  revert action_results s.
  induction done as [|action done IH]; intros acc s; simpl;
    [reflexivity|].
  unfold bind.
  destruct (run_action rt h plan acc action env s) as [[r|e] s1];
    [apply IH|reflexivity].
Qed.

(** X26.  A plan with a step that is not an object, after steps that are
    well formed: the steps before it are run, and their operations stay
    entered; the step raises an [AttributeError] in the [try] block, and
    the reply is the error reply for it, with an empty list of actions:
    the results of the operations that have run are not passed on, and
    the steps after it are not run. *)
Theorem failed_step_hides_earlier_results
        (command : string) (context : option string) (env : Env) (s : State)
        (reply : string) (plan bad : pyval) (done rest : list pyval) :
  let prompt :=
    analysis_prompt (UserMemory.get_context_for_ai (memory s)) command in
  is_configured h = true ->
  env (GenerateContent (model_name h) prompt) (trace s) = Ok (Some reply) ->
  plan_of rt reply = Ok plan ->
  py_get plan "actions" (PList []) = Ok (PList (done ++ bad :: rest)) ->
  (exists intent, py_getitem plan "intent" = Ok intent) ->
  model_answers env ->
  Forall step_ok done ->
  (forall d, bad <> PDict d) ->
  exists s' (entered_calls : list call),
    process_command rt h command context env s
    = (Ok (mk_command_result
             (PStr ("❌ Error: '" ++ type_name bad
                      ++ "' object has no attribute 'get'"))
             None None []),
       s') /\
    calls s' = calls s ++ entered_calls /\
    map call_tag entered_calls = filter is_dispatched (map tag_of done).
Proof.
  intros prompt Hc Hreply Hplan Hactions Hintent Hmodel Hdone Hbad.
  unfold process_command. rewrite Hc. simpl negb. cbv iota.
  unfold process_command_body; run_monad. fold prompt. rewrite Hreply.
  simpl. rewrite Hplan. simpl. rewrite Hactions. simpl.
  set (s0 := set_trace _ s).
  rewrite run_actions_app.
  destruct (EnhancedAIHandlerFacts.run_actions_from rt h plan done Hintent
              env Hmodel Hdone [] s0) as [rs [s1 [cs [E [C [T L]]]]]].
  rewrite E. simpl run_actions. unfold bind, run_action, lift.
  exists s1, cs.
  split; [|split; [exact C|exact T]].
  destruct bad; try (exfalso; eapply Hbad; reflexivity); reflexivity.
Qed.

(** X27.  The start of the handler: when the workspace can be made, the
    handler is there, configured exactly when the credential is given and
    not empty; the automation of the browser is not loaded, and the
    memory is the one of the memory file or the default one. *)
Theorem startup_without_credential (api_key : option string) (env : Env)
        (s : State) :
  env (Makedirs (ActionExecutor.workspace rt)) (trace s) = Ok tt ->
  exists s',
    init rt api_key env s = (Ok (new_handler api_key), s') /\
    (is_configured (new_handler api_key) = true <->
     exists key, api_key = Some key /\ key <> EmptyString) /\
    browser_automation s' = None /\
    (memory s' = UserMemory._create_default_memory \/
     disk s = Some (FileJson (memory s'))).
Proof.
  intro Hm. unfold init, ActionExecutor.init, UserMemory.init.
  unfold bind at 1. unfold bind at 1. unfold perform at 1. rewrite Hm.
  unfold modify at 1. unfold bind at 1. unfold bind at 1.
  set (s0 := set_browser None
               (set_trace (trace s ++ [Makedirs (ActionExecutor.workspace rt)])
                  s)).
  destruct (UserMemoryFacts.load_cases rt env s0) as [m [E D]].
  assert (Hb : browser_automation
                 (snd (UserMemory._load_memory rt env s0)) = None).
  { unfold UserMemory._load_memory; run_monad.
    destruct (disk s) as [[m'|]|]; simpl; try ask_env; reflexivity. }
  destruct (UserMemory._load_memory rt env s0) as [[m'|e] s1];
    simpl in E, Hb; [|discriminate].
  injection E as ->. unfold modify, ret. simpl.
  eexists. split; [reflexivity|]. split; [|split].
  - unfold new_handler, is_configured.
    destruct api_key as [k|]; simpl.
    + destruct (String.eqb_spec k "") as [->|N]; simpl; split.
      * discriminate.
      * intros [key [K N]]. injection K as <-. congruence.
      * intros _. exists k. auto.
      * reflexivity.
    + split; [discriminate|]. intros [key [K _]]. discriminate.
  - exact Hb.
  - simpl. exact D.
Qed.

End WithRuntime.

(** A step tagged "dance", with null for parameters. *)
Lemma unknown_tag_is_ignored_witness :
  let d := [("type", PStr "dance"); ("params", PNone)] in
  (forall tag, In tag dispatched_tags -> eq_str (type_of d) tag = false) /\
  run_action sample_runtime sample_handler sorting_plan [] (PDict d)
    quiet_env fresh
  = (Ok [], fresh).
Proof.
  assert (H : forall tag, In tag dispatched_tags ->
                eq_str (type_of [("type", PStr "dance"); ("params", PNone)])
                       tag = false).
  { intros tag Hin. simpl in Hin.
    repeat (destruct Hin as [<-|Hin]; [reflexivity|]). destruct Hin. }
  split; [exact H|].
  exact (unknown_tag_is_ignored sample_runtime sample_handler sorting_plan
           [("type", PStr "dance"); ("params", PNone)] [] quiet_env fresh H).
Defined.

(** A failed result and one with output. *)
Lemma response_lists_every_result_witness :
  build_response sample_runtime sorting_plan
    [ mk_result false "❌ Error creating file: disk full" [];
      mk_result true "✅ Code executed successfully"
        [("output", PStr "3"); ("exit_code", PInt 0)] ]
  = Ok (PStr ("I will write the script and open it" ++ nl ++ nl
              ++ "**Actions Performed:**" ++ nl
              ++ nl ++ "❌ Error creating file: disk full"
              ++ nl ++ "✅ Code executed successfully"
              ++ nl ++ "Output: 3")%string).
Proof.
  exact (response_lists_every_result sample_runtime sorting_plan
           "I will write the script and open it"
           [ mk_result false "❌ Error creating file: disk full" [];
             mk_result true "✅ Code executed successfully"
               [("output", PStr "3"); ("exit_code", PInt 0)] ]
           eq_refl).
Defined.

(** The service answers 429. *)
Lemma model_failure_is_reported_witness :
  fst (process_command sample_runtime sample_handler "hello" None
         (env_model_raising (mk_exn OtherException "429 Too Many Requests"))
         fresh)
  = Ok quota_reached.
Proof.
  destruct (model_failure_is_reported sample_runtime sample_handler "hello"
              None
              (env_model_raising
                 (mk_exn OtherException "429 Too Many Requests"))
              fresh (mk_exn OtherException "429 Too Many Requests")
              eq_refl eq_refl) as [E [_ Q]].
  rewrite E. simpl fst. rewrite Q; [reflexivity|].
  left. reflexivity.
Defined.

(** The plan of two steps whose second step is a bare tag: the file is
    created, and the reply lists no action. *)
Lemma failed_step_hides_earlier_results_witness :
  exists s' (entered_calls : list call),
    process_command runtime_decoding_interrupted sample_handler
      "make a script" None (env_replying interrupted_text) fresh
    = (Ok (mk_command_result
             (PStr "❌ Error: 'str' object has no attribute 'get'")
             None None []),
       s') /\
    calls s' = calls fresh ++ entered_calls /\
    map call_tag entered_calls = ["create_file"%string].
Proof.
  assert (Hstep : Forall step_ok
            [PDict [("type", PStr "create_file");
                    ("params", PDict [("filename", PStr "a.py");
                                      ("content", PStr "print(1)")])]]).
  { repeat constructor.
    exists [("type", PStr "create_file");
            ("params", PDict [("filename", PStr "a.py");
                              ("content", PStr "print(1)")])],
      "create_file"%string.
    repeat split; simpl; eauto. }
  assert (Hbad : forall d, PStr "open_idle" <> PDict d)
    by (intros d H; discriminate).
  exact (failed_step_hides_earlier_results runtime_decoding_interrupted
           sample_handler "make a script" None (env_replying interrupted_text)
           fresh interrupted_text interrupted_plan (PStr "open_idle")
           [PDict [("type", PStr "create_file");
                   ("params", PDict [("filename", PStr "a.py");
                                     ("content", PStr "print(1)")])]]
           [] eq_refl eq_refl eq_refl eq_refl
           (ex_intro _ (PStr "make a script") eq_refl)
           (EnhancedAIHandlerFacts.quiet_env_answers interrupted_text)
           Hstep Hbad).
Defined.


(** A start with an empty credential. *)
Lemma startup_without_credential_witness :
  exists s',
    init sample_runtime (Some "") quiet_env fresh
    = (Ok (new_handler (Some "")), s') /\
    is_configured (new_handler (Some "")) = false.
Proof.
  destruct (startup_without_credential sample_runtime (Some "")
              quiet_env fresh eq_refl) as [s' [E _]].
  exists s'. split; [exact E|reflexivity].
Defined.

End EnhancedAIHandlerMore.

(* ===================================================================== *)
(** * Facts about ai_handler.py and main.py *)
(* ===================================================================== *)

Module AIHandlerFacts.
Import PyStr Re Py Model Spec AIHandler Scenario.
Local Open Scope list_scope.


(** X29.  The handler without actions never raises: an exception of the
    model, or a response without text, gives the error reply, which has
    no code. *)
Theorem plain_handler_never_raises (h : Handler) (command : string)
        (context : option string) (env : Env) (s : State) :
  exists r s',
    process_command h command context env s = (Ok r, s') /\
    (forall e,
       is_configured h = true ->
       env (GenerateContent (model_name h) (_create_prompt command context))
           (trace s) = Raise e ->
       r = error_reply e /\ code r = None) /\
    (is_configured h = true ->
     env (GenerateContent (model_name h) (_create_prompt command context))
         (trace s) = Ok None ->
     exists e, exn_class e = TypeError /\ r = error_reply e /\ code r = None).
Proof.
  assert (Hcode : forall e, code (error_reply e) = None).
  { intro e. unfold error_reply.
    destruct (contains "429" (exn_str e)
              || contains "quota" (lower (exn_str e))
              || contains "RESOURCE_EXHAUSTED" (exn_str e)); reflexivity. }
  unfold process_command.
  destruct (is_configured h); simpl.
  - unfold process_command_body; run_monad.
    destruct (env (GenerateContent _ _) _) as [[text|]|e0]; simpl;
      eexists; eexists; (split; [reflexivity|]); split;
      try (intros e _ E; discriminate); try (intros _ E; discriminate).
    + intros _ _. eexists. split; [|split; [reflexivity|apply Hcode]].
      reflexivity.
    + intros e _ E. injection E as <-. split; [reflexivity|apply Hcode].
  - eexists; eexists. split; [reflexivity|].
    split; [intros e E|intros E]; discriminate.
Qed.


End AIHandlerFacts.

Module MainFacts.
Import PyStr Py Model Spec Main Scenario.
Local Open Scope list_scope.

(** X30.  DELETE /api/memory, then GET /api/memory: while [print] works,
    the first reports success, and the second then reports the default
    profile and the summary of an empty memory, whether the memory file
    could be written or not. *)
Theorem cleared_memory_is_reported_empty (rt : Runtime) (env env' : Env)
        (s : State) :
  console_works env ->
  let s1 := snd (clear_memory rt env s) in
  fst (clear_memory rt env s) = Ok (Message true "Memory cleared successfully")
  /\
  fst (get_memory env' s1)
  = Ok (Report true
          (UserMemory.get_memory_summary UserMemory._create_default_memory)
          (m_profile UserMemory._create_default_memory)).
Proof.
  intros Hc s1.
  destruct (UserMemoryMore.save_returns rt env Hc
              (set_memory UserMemory._create_default_memory s)) as [[] Hok].
  pose proof (UserMemoryFacts.save_keeps_memory rt env
                (set_memory UserMemory._create_default_memory s)) as Hmem.
  unfold s1, clear_memory, UserMemory.clear_memory, try_except, bind, modify.
  destruct (UserMemory._save_memory rt env
              (set_memory UserMemory._create_default_memory s))
    as [[[]|e] s2]; simpl in Hok, Hmem; [|discriminate].
  simpl. split; [reflexivity|].
  unfold get_memory, UserMemory.get_profile; run_monad.
  rewrite Hmem. reflexivity.
Qed.

Lemma cleared_memory_is_reported_empty_witness :
  let env := env_disk_failing (mk_exn OtherException "disk full") in
  let s := set_memory riya_memory fresh in
  console_works env /\
  fst (get_memory quiet_env (snd (clear_memory sample_runtime env s)))
  = Ok (Report true
          (UserMemory.get_memory_summary UserMemory._create_default_memory)
          (m_profile UserMemory._create_default_memory)).
Proof.
  assert (Hc : console_works
                 (env_disk_failing (mk_exn OtherException "disk full")))
    by (intros text tr; reflexivity).
  split; [exact Hc|].
  exact (proj2 (cleared_memory_is_reported_empty sample_runtime
                  (env_disk_failing (mk_exn OtherException "disk full"))
                  quiet_env (set_memory riya_memory fresh) Hc)).
Defined.

End MainFacts.
